(** * simulation.py: loader, profile binder and simulation runner

    A shallow embedding of [src/simulation.py] (pandapower-heig-ui).  The
    module is glue around pandas tables and the pandapower network object:
    tables are modelled as association lists in row or column order, the
    network object as a record that is threaded through the calls (Python
    mutates it in place), logging as a list of records appended to, and a
    raised Python exception as an outcome that keeps the mutations made
    before it. *)

From Stdlib Require Import List String Ascii ZArith QArith Bool Lia Arith.
Import ListNotations.
Open Scope string_scope.
Open Scope Z_scope.

(** ** Python strings *)

Module PyStr.

(** [s.startswith(p)] *)
Fixpoint startswith (p s : string) : bool :=
  match p with
  | EmptyString => true
  | String c p' =>
      match s with
      | EmptyString => false
      | String d s' => if Ascii.eqb c d then startswith p' s' else false
      end
  end.

(** [s.endswith(p)] *)
Fixpoint endswith (p s : string) : bool :=
  match s with
  | EmptyString => String.eqb p EmptyString
  | String _ s' => String.eqb p s || endswith p s'
  end.

(** [s.split(sep)] for a non-empty [sep]: cut at every occurrence of [sep],
    scanning from the left; [skip] counts the characters of a separator
    that has just been recognised and is still to be passed over, [cur]
    holds the piece read so far, last character first. *)
Fixpoint split_from (sep : string) (skip : nat) (cur : string) (s : string) : list string :=
  match s with
  | EmptyString => [cur]
  | String c s' =>
      match skip with
      | S k => split_from sep k cur s'
      | O =>
          if startswith sep s
          then cur :: split_from sep (String.length sep - 1) EmptyString s'
          else split_from sep O (cur ++ String c EmptyString) s'
      end
  end.

Definition split (sep s : string) : list string := split_from sep O EmptyString s.

(** [s.replace(old, new)] for a non-empty [old]. *)
Fixpoint replace_from (old new : string) (skip : nat) (s : string) : string :=
  match s with
  | EmptyString => EmptyString
  | String c s' =>
      match skip with
      | S k => replace_from old new k s'
      | O =>
          if startswith old s
          then new ++ replace_from old new (String.length old - 1) s'
          else String c (replace_from old new O s')
      end
  end.

Definition replace (old new s : string) : string := replace_from old new O s.

(** [sep.join(l)] *)
Fixpoint join (sep : string) (l : list string) : string :=
  match l with
  | [] => EmptyString
  | [x] => x
  | x :: rest => x ++ sep ++ join sep rest
  end.

(** [x in s] for strings: [x] occurs in [s]. *)
Definition occurs_in (x s : string) : Prop :=
  exists pre post, s = pre ++ x ++ post.

End PyStr.

(** ** Exceptions and logging

    The exceptions met here are all of class [Exception].  A Python call either returns or raises; what it did to the network
    object and to the log before raising stays done.  A computation is
    therefore a function from the world before to the world after, paired
    with its outcome. *)

Inductive exn : Type :=
| KeyError
| ValueError
| TypeError
| AttributeError
| OSError
| ZeroDivisionError
| InvalidIndexError.

Inductive outcome (A : Type) : Type :=
| Returned (a : A)
| Raised (e : exn).
Arguments Returned {A} a.
Arguments Raised {A} e.

Inductive level : Type := ERROR | WARNING.

Record LogRecord : Type := mkLog { log_level : level; log_message : string }.

Definition is_warning (r : LogRecord) : bool :=
  match log_level r with WARNING => true | ERROR => false end.

Definition is_error (r : LogRecord) : bool :=
  match log_level r with ERROR => true | WARNING => false end.

(** ** Tables

    A pandas DataFrame as this module uses it: row labels ([df_index]) and
    columns in order, each column a label with one value per row.  Profile
    values are spreadsheet numbers; the binder only copies them. *)

Definition value : Type := Q.

(** Time of day, in microseconds since midnight ([datetime.time]). *)
Definition time : Type := Z.

Record DataFrame (L : Type) : Type := mkDF {
  df_index : list L;
  df_columns : list (Z * list value)
}.
Arguments mkDF {L} _ _.
Arguments df_index {L} _.
Arguments df_columns {L} _.

(** [df.columns] *)
Definition columns {L} (df : DataFrame L) : list Z := map fst (df_columns df).

(** [label in df.columns] *)
Definition has_column {L} (df : DataFrame L) (c : Z) : bool :=
  existsb (Z.eqb c) (columns df).

(** [df[label].values]: the column carrying that label. *)
Fixpoint lookup_column (c : Z) (cols : list (Z * list value)) : option (list value) :=
  match cols with
  | [] => None
  | (c', vals) :: rest => if c' =? c then Some vals else lookup_column c rest
  end.

Definition column {L} (df : DataFrame L) (c : Z) : option (list value) :=
  lookup_column c (df_columns df).

(** [df[label] = vals]: replaces the column in place when the label is
    there, appends it otherwise. *)
Fixpoint set_column (c : Z) (vals : list value) (cols : list (Z * list value))
  : list (Z * list value) :=
  match cols with
  | [] => [(c, vals)]
  | (c', vals') :: rest =>
      if c' =? c then (c, vals) :: rest else (c', vals') :: set_column c vals rest
  end.

(** [df[keys] = rows] with [rows] a list of tuples, one per row of the
    frame: the i-th key receives the i-th component of every tuple. *)
Fixpoint set_columns_from (i : nat) (keys : list Z) (rows : list (list value))
  (cols : list (Z * list value)) : list (Z * list value) :=
  match keys with
  | [] => cols
  | k :: keys' =>
      set_columns_from (S i) keys' rows
        (set_column k (map (fun row => nth i row 0%Q) rows) cols)
  end.

Definition setitem {L} (df : DataFrame L) (keys : list Z) (rows : list (list value))
  : DataFrame L :=
  mkDF (df_index df) (set_columns_from 0 keys rows (df_columns df)).

(** The zip of [k] references to the one list [vals], as a list: one
    k-tuple per value, the value repeated (line 197). *)
Definition zip_repeated (vals : list value) (k : nat) : list (list value) :=
  map (fun v => repeat v k) vals.

(** [df[labels]]: the listed columns, in the order listed. *)
Definition select_columns {L} (df : DataFrame L) (labels : list Z) : DataFrame L :=
  mkDF (df_index df)
       (flat_map (fun c => match column df c with
                           | Some vals => [(c, vals)]
                           | None => []
                           end) labels).

(** [df.reset_index(drop=True)]: rows relabelled by position. *)
Definition reset_index {L} (df : DataFrame L) : DataFrame nat :=
  mkDF (seq 0 (List.length (df_index df))) (df_columns df).

(** Sorted lists of integers without repetition: the order in which
    [groupby] presents its keys and [Index.difference] its result. *)
Fixpoint insert_sorted (x : Z) (l : list Z) : list Z :=
  match l with
  | [] => [x]
  | y :: rest =>
      if x <? y then x :: l
      else if x =? y then l
      else y :: insert_sorted x rest
  end.

Definition sort_unique (l : list Z) : list Z := fold_right insert_sorted [] l.

Definition mem (x : Z) (l : list Z) : bool := existsb (Z.eqb x) l.

(** [a.difference(b)] on pandas indexes. *)
Definition index_difference (a b : list Z) : list Z :=
  sort_unique (filter (fun x => negb (mem x b)) a).

(** [a.intersection(b)]: the labels of [a] that are in [b], once each, in
    the order of [a]. *)
Fixpoint dedup (l : list Z) : list Z :=
  match l with
  | [] => []
  | x :: rest => x :: filter (fun y => negb (y =? x)) (dedup rest)
  end.

Definition index_intersection (a b : list Z) : list Z :=
  dedup (filter (fun x => mem x b) a).

(** ** The network object

    Of a pandapower network the binder reads the table of one equipment
    class (its index, the display names and the [profile_mapping] column),
    and reads and writes the controller table and the [time_index] entry.
    A cell that the loader left without a value holds [None]. *)

Record EqRow : Type := mkRow {
  eq_index : Z;
  eq_name : option string;
  eq_profile_mapping : option Z
}.

Definition EqTable : Type := list EqRow.

(** [net[equipment].index] *)
Definition table_index (tbl : EqTable) : list Z := map eq_index tbl.

(** What [control.ConstControl(net, ...)] records in [net.controller]. *)
Record ConstControl : Type := mkControl {
  element : string;
  element_index : list Z;
  variable : string;
  data_source : DataFrame nat;
  profile_name : list Z
}.

Record Net : Type := mkNet {
  net_tables : list (string * EqTable);
  net_controller : list ConstControl;
  net_time_index : option (list time)
}.

Record World : Type := mkWorld {
  w_net : Net;
  w_log : list LogRecord
}.

Definition M (A : Type) : Type := World -> World * outcome A.

Definition ret {A} (a : A) : M A := fun w => (w, Returned a).

Definition bind {A B} (c : M A) (k : A -> M B) : M B :=
  fun w =>
    match c w with
    | (w', Returned a) => k a w'
    | (w', Raised e) => (w', Raised e)
    end.

Definition raise {A} (e : exn) : M A := fun w => (w, Raised e).

Definition get_net : M Net := fun w => (w, Returned (w_net w)).

Definition put_net (n : Net) : M unit :=
  fun w => (mkWorld n (w_log w), Returned tt).

Definition log_record (l : level) (msg : string) : M unit :=
  fun w => (mkWorld (w_net w) (w_log w ++ [mkLog l msg]), Returned tt).

Declare Scope py_scope.
Delimit Scope py_scope with py.
Notation "x <- c1 ;; c2" := (bind c1 (fun x => c2))
  (at level 100, c1 at next level, right associativity) : py_scope.
Notation "c1 ;; c2" := (bind c1 (fun _ => c2))
  (at level 100, right associativity) : py_scope.
Open Scope py_scope.

(** [for x in l: body(x)] *)
Fixpoint for_each {B} (l : list B) (body : B -> M unit) : M unit :=
  match l with
  | [] => ret tt
  | x :: rest => body x ;; for_each rest body
  end.

(** [d[key]] on a dictionary with string keys. *)
Fixpoint dict_get {V} (key : string) (d : list (string * V)) : option V :=
  match d with
  | [] => None
  | (k, v) :: rest => if String.eqb k key then Some v else dict_get key rest
  end.

(** ** apply_power_profile *)

(** Lines 177-179: the registrations whose object has this element are
    dropped from a non-empty controller table. *)
Definition drop_old_controllers (equipment : string) : M unit :=
  net <- get_net ;;
  match net_controller net with
  | [] => ret tt
  | ctrl =>
      put_net (mkNet (net_tables net)
                     (filter (fun c => negb (String.eqb (element c) equipment)) ctrl)
                     (net_time_index net))
  end.

(** [net[equipment]]; a class without a table carrying the columns read
    here raises [KeyError]. *)
Definition get_table (equipment : string) : M EqTable :=
  net <- get_net ;;
  match dict_get equipment (net_tables net) with
  | Some tbl => ret tbl
  | None => raise KeyError
  end.

Definition has_mapping (k : Z) (r : EqRow) : bool :=
  match eq_profile_mapping r with
  | Some k' => k' =? k
  | None => false
  end.

(** The keys [groupby("profile_mapping")] forms: the values of the column,
    absent ones left out, in increasing order. *)
Definition group_keys (tbl : EqTable) : list Z :=
  sort_unique (flat_map (fun r => match eq_profile_mapping r with
                                  | Some k => [k]
                                  | None => []
                                  end) tbl).

(** Lines 181-184: profile identifier -> the indices of its rows, in row
    order. *)
Definition profile_mapping (tbl : EqTable) : list (Z * list Z) :=
  map (fun k => (k, map eq_index (filter (has_mapping k) tbl))) (group_keys tbl).

(** Lines 188-192. Comparing two frames of different length with [==]
    raises; with the same length the comparison is label by label. *)
Definition check_time_index (profile : DataFrame time) : M unit :=
  net <- get_net ;;
  match net_time_index net with
  | Some t =>
      if Nat.eqb (List.length t) (List.length (df_index profile))
      then
        if forallb (fun p => fst p =? snd p) (combine t (df_index profile))
        then ret tt
        else log_record ERROR "Simulation Profiles have not the same timestamps"
      else raise ValueError
  | None =>
      put_net (mkNet (net_tables net) (net_controller net) (Some (df_index profile)))
  end.

(** Lines 194-197, one turn of the inner loop. *)
Definition broadcast_step (profile : DataFrame time) (mapped : DataFrame time)
  (entry : Z * list Z) : DataFrame time :=
  let (profile_id, eq_list) := entry in
  match column profile profile_id with
  | Some vals => setitem mapped eq_list (zip_repeated vals (List.length eq_list))
  | None => mapped
  end.

(** Lines 193-199: [mapped_profile]. *)
Definition mapped_profile (tbl : EqTable) (profile : DataFrame time) : DataFrame time :=
  match profile_mapping tbl with
  | [] => select_columns profile (index_intersection (table_index tbl) (columns profile))
  | mapping => fold_left (broadcast_step profile) mapping (mkDF (df_index profile) [])
  end.

(** [net[equipment].loc[labels, "name"].values] *)
Definition names_at (tbl : EqTable) (labels : list Z) : list (option string) :=
  flat_map (fun i => map eq_name (filter (fun r => eq_index r =? i) tbl)) labels.

(** The arguments [str.join] accepts: strings only. *)
Fixpoint all_strings (l : list (option string)) : option (list string) :=
  match l with
  | [] => Some []
  | Some s :: rest =>
      match all_strings rest with
      | Some ss => Some (s :: ss)
      | None => None
      end
  | None :: _ => None
  end.

Definition unmapped_equipment (tbl : EqTable) (mapped : DataFrame time) : list Z :=
  index_difference (table_index tbl) (columns mapped).

Definition warning_text (names : list string) (variable : string) : string :=
  PyStr.join ", " names ++ " equipments have no " ++ variable ++ " profiles".

(** Lines 200-203. *)
Definition warn_unmapped (tbl : EqTable) (variable : string) (mapped : DataFrame time)
  : M unit :=
  match unmapped_equipment tbl mapped with
  | [] => ret tt
  | unmapped =>
      match all_strings (names_at tbl unmapped) with
      | Some names => log_record WARNING (warning_text names variable)
      | None => raise TypeError
      end
  end.

Definition new_control (equipment variable : string) (mapped : DataFrame time)
  : ConstControl :=
  mkControl equipment (columns mapped) variable (reset_index mapped) (columns mapped).

(** Lines 206-208: the constructor adds its object to [net.controller]. *)
Definition register (c : ConstControl) : M unit :=
  net <- get_net ;;
  put_net (mkNet (net_tables net) (net_controller net ++ [c]) (net_time_index net)).

(** Lines 186-208: the body of the loop over [power_profiles.items()]. *)
Definition bind_profile (equipment : string) (tbl : EqTable)
  (item : string * option (DataFrame time)) : M unit :=
  let (variable, profile) := item in
  match profile with
  | None => ret tt
  | Some profile =>
      check_time_index profile ;;
      let mapped := mapped_profile tbl profile in
      warn_unmapped tbl variable mapped ;;
      register (new_control equipment variable mapped)
  end.

Definition apply_power_profile (equipment : string)
  (power_profiles : list (string * option (DataFrame time))) : M unit :=
  drop_old_controllers equipment ;;
  tbl <- get_table equipment ;;
  for_each power_profiles (bind_profile equipment tbl).

(** ** load_net_from_xlsx

    What [pd.read_excel] hands over for one sheet: the header and the data
    rows under their positional labels, one cell per header entry.  An
    empty spreadsheet cell arrives as [NaN]. *)

Inductive cell : Type :=
| NaN
| PyNone
| Int (z : Z)
| Float (q : Q)
| Bool (b : bool)
| Str (s : string)
| Coords (c : list (list Q)).

Definition is_null (c : cell) : bool :=
  match c with
  | NaN | PyNone => true
  | _ => false
  end.

Record RawSheet : Type := mkSheet {
  sheet_columns : list string;
  sheet_rows : list (nat * list cell)
}.

(** A row of a table: its label and its fields by column name. *)
Definition Fields : Type := list (string * cell).
Definition Table : Type := list (nat * Fields).

Definition records (sh : RawSheet) : Table :=
  map (fun r => (fst r, combine (sheet_columns sh) (snd r))) (sheet_rows sh).

(** Lines 37-44. *)
Definition default_values : list (string * cell) :=
  [ ("in_service", Bool true); ("g_us_per_km", Float 0); ("g0_us_per_km", Float 0);
    ("r0_ohm_per_km", Float 0); ("x0_ohm_per_km", Float 0); ("c0_nf_per_km", Float 0);
    ("parallel", Int 1); ("df", Float 1); ("p_mw", Float 0); ("q_mvar", Float 0);
    ("const_z_percent", Float 0); ("const_i_percent", Float 0); ("scaling", Float 1);
    ("vk0_percent", Float 0); ("vkr0_percent", Float 0); ("mag0_percent", Float 0);
    ("mag0_rx", Float 0); ("si0_hv_partial", Float 0); ("shift_degree", Float 0);
    ("tap_step_percent", Float 1); ("tap_phase_shifter", Bool false);
    ("tap_step_degree", Float 0); ("vm_pu", Float 1); ("va_degree", Float 0);
    ("slack_weight", Float 1); ("tap_pos", Int 0); ("tap_neutral", Int 0);
    ("tap_min", Int 0); ("tap_max", Int 1); ("profile_mapping", Int (-1));
    ("current_source", Bool true) ].

(** Lines 46-48. *)
Definition int_column : list string :=
  [ "bus"; "parallel"; "from_bus"; "to_bus"; "element"; "hv_bus"; "lv_bus"; "tap_pos";
    "tap_neutral"; "tap_min"; "tap_max"; "profile_mapping" ].

Definition bool_column : list string := [ "current_source"; "in_service" ].

Definition in_names (c : string) (l : list string) : bool := existsb (String.eqb c) l.

(** [df.drop(columns="idx")] *)
Definition drop_idx (sh : RawSheet) : outcome Table :=
  if in_names "idx" (sheet_columns sh)
  then Returned (map (fun r => (fst r,
                                filter (fun f => negb (String.eqb (fst f) "idx")) (snd r)))
                     (records sh))
  else Raised KeyError.

(** [df.dropna(how="all")]: a row goes when none of its cells has a value. *)
Definition dropna_all (t : Table) : Table :=
  filter (fun r => negb (forallb (fun f => is_null (snd f)) (snd r))) t.

(** [df.fillna(value=d)]: a null cell of a column that [d] names takes the
    value [d] gives. *)
Definition fill_cell (d : list (string * cell)) (f : string * cell) : string * cell :=
  if is_null (snd f)
  then match dict_get (fst f) d with
       | Some v => (fst f, v)
       | None => f
       end
  else f.

Definition fillna (d : list (string * cell)) (t : Table) : Table :=
  map (fun r => (fst r, map (fill_cell d) (snd r))) t.

(** 64-bit integers *)
Definition int64_min : Z := - 2 ^ 63.
Definition int64_max : Z := 2 ^ 63 - 1.
Definition in_int64 (z : Z) : bool := (int64_min <=? z) && (z <=? int64_max).

(** Truncation toward zero of a spreadsheet number. *)
Definition trunc (q : Q) : Z := Z.quot (Qnum q) (Zpos (Qden q)).

(** Sequencing for the calls of the loader, which has no state to keep. *)
Definition and_then {A B} (o : outcome A) (k : A -> outcome B) : outcome B :=
  match o with
  | Returned a => k a
  | Raised e => Raised e
  end.

Fixpoint map_outcome {A B} (f : A -> outcome B) (l : list A) : outcome (list B) :=
  match l with
  | [] => Returned []
  | x :: rest =>
      and_then (f x) (fun y =>
      and_then (map_outcome f rest) (fun ys => Returned (y :: ys)))
  end.

Section Loader.

(** Python's [int] and [float] applied to a string. *)
Variable py_int : string -> option Z.
Variable py_float : string -> option Q.

(** One cell under [astype('int64')].  A number is truncated toward zero
    (one outside the 64-bit range comes out as the smallest integer, as
    the conversion does on x86-64); a missing value cannot be converted. *)
Definition astype_int64 (c : cell) : outcome cell :=
  match c with
  | NaN => Raised ValueError
  | PyNone => Raised TypeError
  | Int z => if in_int64 z then Returned (Int z) else Raised ValueError
  | Float q => Returned (Int (if in_int64 (trunc q) then trunc q else int64_min))
  | Bool b => Returned (Int (if b then 1 else 0))
  | Str s =>
      match py_int s with
      | Some z => if in_int64 z then Returned (Int z) else Raised ValueError
      | None => Raised ValueError
      end
  | Coords _ => Raised TypeError
  end.

(** One cell under [astype(bool)]: its truth value. *)
Definition astype_bool (c : cell) : cell :=
  match c with
  | NaN => Bool true
  | PyNone => Bool false
  | Int z => Bool (negb (z =? 0))
  | Float q => Bool (negb (Qnum q =? 0))
  | Bool b => Bool b
  | Str s => Bool (negb (String.eqb s ""))
  | Coords c => Bool (negb (Nat.eqb (List.length c) 0))
  end.

(** Lines 65-67: the text of one [coords] cell to a list of points. *)
Definition parse_point (y : string) : outcome (list Q) :=
  map_outcome (fun z => match py_float z with
                        | Some q => Returned q
                        | None => Raised ValueError
                        end) (PyStr.split "," y).

Definition parse_coords (c : cell) : outcome cell :=
  match c with
  | Str x =>
      and_then
        (map_outcome parse_point
           (PyStr.split "], [" (PyStr.replace "]]" "" (PyStr.replace "[[" "" x))))
        (fun pts => Returned (Coords pts))
  | _ => Raised AttributeError
  end.

Definition apply_coords_field (f : string * cell) : outcome (string * cell) :=
  if String.eqb (fst f) "coords"
  then and_then (parse_coords (snd f)) (fun c => Returned (fst f, c))
  else Returned f.

Definition apply_coords (t : Table) : outcome Table :=
  map_outcome (fun r =>
    if in_names "coords" (map fst (snd r))
    then and_then (map_outcome apply_coords_field (snd r)) (fun fs => Returned (fst r, fs))
    else Raised AttributeError) t.

(** Lines 59-67: the step that depends on the sheet name. *)
Definition class_step (eq_name : string) (t : Table) : outcome Table :=
  if String.eqb eq_name "bus" then Returned (fillna [("type", Str "b")] t)
  else if String.eqb eq_name "load" then Returned (fillna [("type", Str "wye")] t)
  else if String.eqb eq_name "line_geodata" then apply_coords t
  else Returned t.

(** Lines 69-73: the two conversions, each on the columns of its list. *)
Definition cast_int_field (f : string * cell) : outcome (string * cell) :=
  if in_names (fst f) int_column
  then and_then (astype_int64 (snd f)) (fun c => Returned (fst f, c))
  else Returned f.

Definition cast_bool_field (f : string * cell) : string * cell :=
  if in_names (fst f) bool_column then (fst f, astype_bool (snd f)) else f.

Definition cast_int (t : Table) : outcome Table :=
  map_outcome (fun r =>
    and_then (map_outcome cast_int_field (snd r)) (fun fs => Returned (fst r, fs))) t.

Definition cast_bool (t : Table) : Table :=
  map (fun r => (fst r, map cast_bool_field (snd r))) t.

(** Line 75: [df.replace(np.nan, None)]. *)
Definition nan_to_none (f : string * cell) : string * cell :=
  match snd f with
  | NaN => (fst f, PyNone)
  | _ => f
  end.

Definition replace_nan (t : Table) : Table :=
  map (fun r => (fst r, map nan_to_none (snd r))) t.

(** Line 54: the sheet without its helper column and its empty rows. *)
Definition clean_sheet (sh : RawSheet) : outcome Table :=
  and_then (drop_idx sh) (fun t => Returned (dropna_all t)).

(** Lines 56-75, for a sheet that still has rows. *)
Definition convert_sheet (eq_name : string) (t : Table) : outcome Table :=
  and_then (class_step eq_name (fillna default_values t)) (fun t1 =>
  and_then (cast_int t1) (fun t2 =>
  Returned (replace_nan (cast_bool t2)))).

(** Lines 52-77: the loop over the sheets of the workbook; the result
    lists the tables assigned to the network, in sheet order.  The
    network of line 50 that receives them is the library's; the network
    returned is [returned_net] further down. *)
Fixpoint load_net_from_xlsx (workbook : list (string * RawSheet))
  : outcome (list (string * Table)) :=
  match workbook with
  | [] => Returned []
  | (eq_name, sh) :: rest =>
      and_then (clean_sheet sh) (fun data_df =>
      match data_df with
      | [] => load_net_from_xlsx rest
      | _ =>
          and_then (convert_sheet eq_name data_df) (fun t =>
          and_then (load_net_from_xlsx rest) (fun net => Returned ((eq_name, t) :: net)))
      end)
  end.

End Loader.

(** The view the binder takes of a loaded table. *)
Definition eq_row_of (r : nat * Fields) : EqRow :=
  mkRow (Z.of_nat (fst r))
        (match dict_get "name" (snd r) with
         | Some (Str s) => Some s
         | _ => None
         end)
        (match dict_get "profile_mapping" (snd r) with
         | Some (Int z) => Some z
         | _ => None
         end).

(** ** load_power_profile_form_xlsx

    Of a profile sheet the construction of the common grid reads the row
    labels, which are times of day, and whether the sheet is empty once
    its empty rows and columns are gone.  The interpolated values are
    floating-point numbers and are not part of this model; the index the
    returned tables carry is. *)

Record ProfileSheet : Type := mkProfileSheet {
  ps_index : list time;
  ps_columns : list (Z * string)
}.

(** [data_df.empty] *)
Definition ps_empty (sh : ProfileSheet) : bool :=
  match ps_index sh, ps_columns sh with
  | [], _ => true
  | _, [] => true
  | _, _ => false
  end.

Definition microsecond : Z := 1.
Definition second : Z := 1000000.

(** [time(h, m, s)] and [timedelta(days=d)] *)
Definition time_of (h m s : Z) : time := ((h * 60 + m) * 60 + s) * second.
Definition timedelta_days (d : Z) : Z := d * 86400 * second.

(** A time of day lies within the day. *)
Definition is_time (t : time) : Prop := 0 <= t < timedelta_days 1.

(** [series.diff()] without its leading missing entry. *)
Fixpoint diff (l : list Z) : list Z :=
  match l with
  | a :: ((b :: _) as rest) => (b - a) :: diff rest
  | _ => []
  end.

(** [series.min()] with missing entries skipped: [None] stands for [NaT],
    the result when nothing is left. *)
Definition series_min (l : list Z) : option Z :=
  match l with
  | [] => None
  | x :: rest => Some (fold_left Z.min rest x)
  end.

(** The built-in [min(a, b)] and [max(a, b)]: the second argument wins
    only when the comparison with the first says so, and a comparison
    with [NaT] never does. *)
Definition py_min (a b : Z) : Z := if b <? a then b else a.
Definition py_max (a b : Z) : Z := if b >? a then b else a.

Definition py_min_nat (a : Z) (b : option Z) : Z :=
  match b with
  | Some b' => py_min a b'
  | None => a
  end.

Record GridBounds : Type := mkBounds {
  period : Z;
  start_time : time;
  end_time : time
}.

(** Lines 99-101. *)
Definition initial_bounds : GridBounds :=
  mkBounds (timedelta_days 1) (time_of 23 59 59) (time_of 0 0 0).

(** Lines 109-116, for one sheet. *)
Definition update_bounds (b : GridBounds) (sh : ProfileSheet) : GridBounds :=
  if ps_empty sh then b
  else
    mkBounds (py_min_nat (period b) (series_min (diff (ps_index sh))))
             (py_min (start_time b) (hd 0 (ps_index sh)))
             (py_max (end_time b) (last (ps_index sh) 0)).

(** Lines 103-116: the first loop. *)
Definition common_bounds (workbook : list (string * ProfileSheet)) : GridBounds :=
  fold_left (fun b entry => update_bounds b (snd entry)) workbook initial_bounds.

(** [pd.date_range(start, end, freq)]: the points [start + k * freq] that
    do not pass [end]; a zero step makes the division that counts the
    points fail. *)
Definition date_range (start stop freq : Z) : outcome (list Z) :=
  if freq =? 0 then Raised ZeroDivisionError
  else
    let n :=
      if 0 <? freq
      then (if start <=? stop then Z.to_nat ((stop - start) / freq + 1) else O)
      else (if stop <=? start then Z.to_nat ((start - stop) / (- freq) + 1) else O) in
    Returned (map (fun k => start + Z.of_nat k * freq) (seq 0 n)).

(** Lines 119-129: the index of [datetime_inter]. *)
Definition common_grid (workbook : list (string * ProfileSheet)) : outcome (list time) :=
  let b := common_bounds workbook in
  date_range (start_time b) (end_time b) (period b).

(** Lines 130-153, as far as the index goes: every sheet that is not empty
    yields tables built on [actual_profile], whose index is that of
    [datetime_inter]. *)
Definition load_power_profile_form_xlsx (workbook : list (string * ProfileSheet))
  : outcome (list (string * list time)) :=
  and_then (common_grid workbook) (fun grid =>
  Returned (map (fun entry => (fst entry, grid))
                (filter (fun entry => negb (ps_empty (snd entry))) workbook))).

(** ** create_output_writer *)

Inductive add_results_arg : Type :=
| AsList (l : list string)
| AsStr (s : string)
| AsNone.

Definition trafo_loading : string := "res_trafo.loading_percent".

(** Lines 224-229. *)
Definition selected_results (add_results : add_results_arg) : list string :=
  match add_results with
  | AsList l => l ++ [trafo_loading]
  | AsStr s => [s; trafo_loading]
  | AsNone => [trafo_loading]
  end.

(** The argument tuples an output writer has been told to log. *)
Definition LogVariables : Type := list (list string).

(** Modelled from the spec: the constructor of pandapower's [OutputWriter]
    is not among the sources.  The spec gives the default selection as
    bus voltage magnitude, line loading and transformer loading, the last
    being the mandatory selector this module adds: a new writer logs the
    first two. *)
Definition new_output_writer : LogVariables :=
  [ ["res_bus"; "vm_pu"]; ["res_line"; "loading_percent"] ].

Definition same_args (a b : list string) : bool :=
  if list_eq_dec string_dec a b then true else false.

(** Modelled from the spec: the [log_variable] method of pandapower's
    [OutputWriter] is not among the sources.  The spec has the writer
    accept selectors of a table and a field and speaks of their union: a
    call with a table and a field adds the pair unless it is there, a
    call with fewer arguments is a Python arity error, and further
    arguments are not what the spec describes and are refused here. *)
Definition log_variable (args : list string) (ow : LogVariables) : outcome LogVariables :=
  match args with
  | [table; field] =>
      Returned (if existsb (same_args args) ow then ow else (ow ++ [args])%list)
  | _ => Raised TypeError
  end.

(** Lines 233-234. *)
Fixpoint log_all (results : list string) (ow : LogVariables) : outcome LogVariables :=
  match results with
  | [] => Returned ow
  | result :: rest =>
      and_then (log_variable (PyStr.split "." result) ow) (log_all rest)
  end.

Definition create_output_writer (add_results : add_results_arg) : outcome LogVariables :=
  log_all (selected_results add_results) new_output_writer.

(** ** run_time_simulation *)

(** A column of a result table is labelled by an equipment index until the
    renaming pass gives it the display name found for that index. *)
Inductive col_label : Type :=
| ByIndex (i : Z)
| ByName (n : option string).

Record ResultTable : Type := mkResult {
  rt_index : list time;
  rt_columns : list (col_label * list value)
}.

(** [dict(zip(net[eq].index, net[eq].name))], looked up at [i]: of several
    rows under one index the last one stays. *)
Fixpoint name_mapping_get (i : Z) (tbl : EqTable) : option (option string) :=
  match tbl with
  | [] => None
  | r :: rest =>
      match name_mapping_get i rest with
      | Some n => Some n
      | None => if eq_index r =? i then Some (eq_name r) else None
      end
  end.

(** [df.rename(columns=name_mapping)] *)
Definition rename_column (tbl : EqTable) (c : Z) : col_label :=
  match name_mapping_get c tbl with
  | Some n => ByName n
  | None => ByIndex c
  end.

(** Line 262. *)
Definition equipment_of_key (key : string) : string :=
  hd "" (PyStr.split "." (PyStr.replace "res_" "" key)).

(** Lines 261-264, for one logged table. *)
Definition harvest_one (net : Net) (key : string) (result : DataFrame nat)
  : outcome ResultTable :=
  match net_time_index net with
  | None => Raised KeyError
  | Some t =>
      if Nat.eqb (List.length t) (List.length (df_index result))
      then
        match dict_get (equipment_of_key key) (net_tables net) with
        | None => Raised KeyError
        | Some tbl =>
            Returned (mkResult t (map (fun col => (rename_column tbl (fst col), snd col))
                                      (df_columns result)))
        end
      else Raised ValueError
  end.

(** Lines 258-264. *)
Fixpoint harvest (net : Net) (output : list (string * DataFrame nat))
  : outcome (list (string * ResultTable)) :=
  match output with
  | [] => Returned []
  | (key, result) :: rest =>
      if String.eqb key "Parameters" then harvest net rest
      else
        and_then (harvest_one net key result) (fun t =>
        and_then (harvest net rest) (fun ts => Returned ((key, t) :: ts)))
  end.

Definition newline : string := String (ascii_of_nat 10) EmptyString.

(** Lines 275-279; the name of the innermost frame of the stack is that of
    the function itself. *)
Definition save_error_text (output_file_path : string) : string :=
  ("Error in " ++ "run_time_simulation" ++ " function:" ++ newline)
  ++ ("Impossible to save simulation results in " ++ output_file_path ++ " file" ++ newline)
  ++ "Check output file path or if file is already open in your computer".

(** The truth value of the [output_filename] argument. *)
Definition truthy (s : option string) : bool :=
  match s with
  | Some n => negb (String.eqb n "")
  | None => false
  end.

Section Runner.

(** The solver: given the network and the number of steps it returns the
    network after the run and the tables its output writer collected, or
    raises. *)
Variable run_timeseries : Net -> nat -> outcome (Net * list (string * DataFrame nat)).

(** The file system and the spreadsheet writer, which answer each call by
    a new state and either a result or an exception. *)
Variable FS : Type.
Variable Writer : Type.
Variable os_path_exists : FS -> string -> bool.
Variable os_makedirs : FS -> string -> FS * outcome unit.
Variable ExcelWriter : FS -> string -> FS * outcome Writer.
Variable to_excel : FS -> Writer -> string -> ResultTable -> FS * outcome unit.
Variable os_path_join : string -> string -> string.

(** Lines 272-273. *)
Fixpoint write_sheets (writer : Writer) (results_df : list (string * ResultTable))
  (fs : FS) : FS * outcome unit :=
  match results_df with
  | [] => (fs, Returned tt)
  | (keys, table) :: rest =>
      match to_excel fs writer keys table with
      | (fs', Returned _) => write_sheets writer rest fs'
      | (fs', Raised e) => (fs', Raised e)
      end
  end.

(** Lines 269-273: the body of the [try]. *)
Definition save_results (folder output_file_path : string)
  (results_df : list (string * ResultTable)) (fs : FS) : FS * outcome unit :=
  let made :=
    if os_path_exists fs folder then (fs, Returned tt) else os_makedirs fs folder in
  match made with
  | (fs1, Raised e) => (fs1, Raised e)
  | (fs1, Returned _) =>
      match ExcelWriter fs1 output_file_path with
      | (fs2, Raised e) => (fs2, Raised e)
      | (fs2, Returned writer) => write_sheets writer results_df fs2
      end
  end.

(** Lines 257-264. *)
Definition simulate (net : Net) : outcome (list (string * ResultTable)) :=
  match net_time_index net with
  | None => Raised KeyError
  | Some t =>
      and_then (run_timeseries net (List.length t)) (fun r => harvest (fst r) (snd r))
  end.

Definition run_time_simulation (net : Net) (output_filename : option string)
  (folder : string) (fs : FS) (log : list LogRecord)
  : (FS * list LogRecord) * outcome (list (string * ResultTable)) :=
  match simulate net with
  | Raised e => ((fs, log), Raised e)
  | Returned results_df =>
      if truthy output_filename
      then
        let output_file_path :=
          os_path_join folder (match output_filename with
                               | Some n => n
                               | None => ""
                               end ++ ".xlsx") in
        match save_results folder output_file_path results_df fs with
        | (fs', Returned _) => ((fs', log), Returned results_df)
        | (fs', Raised _) =>
            ((fs', (log ++ [mkLog ERROR (save_error_text output_file_path)])%list),
             Returned results_df)
        end
      else ((fs, log), Returned results_df)
  end.

End Runner.

(** [os.path.join] of two components on a POSIX system. *)
Definition posix_join (a b : string) : string :=
  if PyStr.startswith "/" b then b
  else if String.eqb a "" || PyStr.endswith "/" a then a ++ b
  else a ++ "/" ++ b.

(** ** Notions used to state the properties *)

(** The registrations one call of [apply_power_profile] makes when it runs
    to its end: one for every variable that comes with a table. *)
Definition new_controls (equipment : string) (tbl : EqTable)
  (power_profiles : list (string * option (DataFrame time))) : list ConstControl :=
  flat_map (fun item => match snd item with
                        | Some profile =>
                            [new_control equipment (fst item) (mapped_profile tbl profile)]
                        | None => []
                        end) power_profiles.

(** The registrations of a network for one class, and those of the others. *)
Definition registrations (equipment : string) (net : Net) : list ConstControl :=
  filter (fun c => String.eqb (element c) equipment) (net_controller net).

Definition other_registrations (equipment : string) (net : Net) : list ConstControl :=
  filter (fun c => negb (String.eqb (element c) equipment)) (net_controller net).

(** The time index a call may meet without the comparison of line 189
    raising: none yet, or one with as many labels as the table. *)
Definition time_index_fits (net : Net) (profile : DataFrame time) : Prop :=
  match net_time_index net with
  | Some t => List.length t = List.length (df_index profile)
  | None => True
  end.

(** The default of a field of a class: the entry of the default table,
    or the class-specific default of the "type" field. *)
Definition default_of (eq_name c : string) : option cell :=
  match dict_get c default_values with
  | Some d => Some d
  | None =>
      if String.eqb c "type"
      then if String.eqb eq_name "bus" then Some (Str "b")
           else if String.eqb eq_name "load" then Some (Str "wye")
           else None
      else None
  end.

Definition is_int64 (v : cell) : Prop := exists z, v = Int z /\ in_int64 z = true.
Definition is_bool (v : cell) : Prop := exists b, v = Bool b.

(** A field has the type its column is to have. *)
Definition typed_field (f : string * cell) : Prop :=
  (In (fst f) int_column -> is_int64 (snd f)) /\
  (In (fst f) bool_column -> is_bool (snd f)).

Definition typed_table (t : Table) : Prop :=
  Forall (fun r => Forall typed_field (snd r)) t.

(** A loaded field against the field of the sheet it comes from: the same
    column, and the default where the sheet had no value and a default
    exists. *)
Definition field_defaulted (eq_name : string) (src dst : string * cell) : Prop :=
  fst dst = fst src /\
  (is_null (snd src) = true ->
   forall d, default_of eq_name (fst src) = Some d -> snd dst = d).

(** Row by row and field by field. *)
Definition rows_related (R : string * cell -> string * cell -> Prop) (t t' : Table) : Prop :=
  Forall2 (fun r r' => fst r' = fst r /\ Forall2 R (snd r) (snd r')) t t'.

Definition defaults_applied (eq_name : string) (src dst : Table) : Prop :=
  rows_related (field_defaulted eq_name) src dst.

(** What the class-dependent step does to one field. *)
Definition class_field_rel (py_float : string -> option Q) (eq_name : string)
  (f f' : string * cell) : Prop :=
  if String.eqb eq_name "bus" then f' = fill_cell [("type", Str "b")] f
  else if String.eqb eq_name "load" then f' = fill_cell [("type", Str "wye")] f
  else if String.eqb eq_name "line_geodata" then apply_coords_field py_float f = Returned f'
  else f' = f.

(** What the conversion of a sheet does to one field, step by step. *)
Definition field_converted (py_int : string -> option Z) (py_float : string -> option Q)
  (eq_name : string) (f f' : string * cell) : Prop :=
  exists f1 f2 f3,
    f1 = fill_cell default_values f /\
    class_field_rel py_float eq_name f1 f2 /\
    cast_int_field py_int f2 = Returned f3 /\
    f' = nan_to_none (cast_bool_field f3).

(** An entry of the default table that the later steps leave as it is: it
    has a value, it is neither the "coords" nor the "type" column, and its
    value has the type its column is converted to. *)
Definition default_stable (e : string * cell) : bool :=
  negb (is_null (snd e)) &&
  negb (String.eqb (fst e) "coords") &&
  negb (String.eqb (fst e) "type") &&
  (if in_names (fst e) int_column
   then match snd e with Int z => in_int64 z | _ => false end
   else true) &&
  (if in_names (fst e) bool_column
   then match snd e with Bool _ => true | _ => false end
   else true).

(** The gaps between consecutive samples that the sheets of a workbook
    show, empty sheets left out. *)
Definition all_gaps (workbook : list (string * ProfileSheet)) : list Z :=
  flat_map (fun entry => if ps_empty (snd entry) then [] else diff (ps_index (snd entry)))
           workbook.

(** The first and the last sample times of the sheets that are not empty. *)
Definition first_samples (workbook : list (string * ProfileSheet)) : list time :=
  flat_map (fun entry => if ps_empty (snd entry) then [] else [hd 0 (ps_index (snd entry))])
           workbook.

Definition last_samples (workbook : list (string * ProfileSheet)) : list time :=
  flat_map (fun entry => if ps_empty (snd entry) then [] else [last (ps_index (snd entry)) 0])
           workbook.

(** Every row label of every sheet is a time of day. *)
Definition times_of_day (workbook : list (string * ProfileSheet)) : Prop :=
  Forall (fun entry => Forall is_time (ps_index (snd entry))) workbook.

(** The selectors the caller supplies. *)
Definition extras (add_results : add_results_arg) : list string :=
  match add_results with
  | AsList l => l
  | AsStr s => [s]
  | AsNone => []
  end.

(** A selector of the form table.field. *)
Definition well_formed_selector (s : string) : Prop :=
  exists table field, PyStr.split "." s = [table; field].

(** The tables a dictionary of profiles brings, each with the variable it
    is bound to, in the order of the dictionary. *)
Definition bound_tables (power_profiles : list (string * option (DataFrame time)))
  : list (string * DataFrame time) :=
  flat_map (fun item => match snd item with
                        | Some profile => [(fst item, profile)]
                        | None => []
                        end) power_profiles.

(** The common period in the words of the specification, stated on the
    positions of the samples and not through the differences the code
    takes.  A sheet has data when it has a row and a column; [g] is an
    inter-sample gap of a workbook when, in one of its sheets with data,
    a sample comes [g] after the sample just before it. *)
Definition has_data (sh : ProfileSheet) : Prop :=
  ps_index sh <> [] /\ ps_columns sh <> [].

Definition inter_sample_gap (workbook : list (string * ProfileSheet)) (g : Z) : Prop :=
  exists name sh i a b,
    In (name, sh) workbook /\ has_data sh /\
    nth_error (ps_index sh) i = Some a /\
    nth_error (ps_index sh) (S i) = Some b /\
    g = b - a.

Definition minimum_gap (workbook : list (string * ProfileSheet)) (p : Z) : Prop :=
  inter_sample_gap workbook p /\ forall g, inter_sample_gap workbook g -> p <= g.

(** A sheet with data that has more than one sample. *)
Definition multi_sample (sh : ProfileSheet) : Prop :=
  has_data sh /\ (2 <= List.length (ps_index sh))%nat.

(** The minimum inter-sample gap of the multi-sample sheets, or one day
    when the workbook has no multi-sample sheet. *)
Definition expected_period (workbook : list (string * ProfileSheet)) (p : Z) : Prop :=
  minimum_gap workbook p \/
  ((forall name sh, In (name, sh) workbook -> ~ multi_sample sh) /\
   p = timedelta_days 1).

(** ** Sample inputs *)

Definition sample_loads : EqTable :=
  [ mkRow 3 (Some "Load A") (Some 1);
    mkRow 5 (Some "Load B") (Some 2);
    mkRow 7 (Some "Load C") (Some 1) ].

Definition sample_profile : DataFrame time :=
  mkDF [time_of 0 0 0; time_of 6 0 0]
       [ (1, [1 # 1; 2 # 1]%Q); (2, [3 # 2; 1 # 1]%Q) ].

Definition sample_net : Net :=
  mkNet [("load", sample_loads)]
        [ mkControl "load" [9] "p_mw" (mkDF [O] [(9, [0 # 1]%Q)]) [9];
          mkControl "sgen" [1] "p_mw" (mkDF [O] [(1, [4 # 1]%Q)]) [1] ]
        None.

Definition sample_profiles : list (string * option (DataFrame time)) :=
  [ ("p_mw", Some sample_profile); ("q_mvar", None) ].

Definition profile_with_minus_one : DataFrame time :=
  mkDF [time_of 0 0 0; time_of 12 0 0] [ (-1, [5 # 1; 6 # 1]%Q) ].

Definition partly_assigned_loads : EqTable :=
  [ mkRow 0 (Some "Load 0") (Some 1); mkRow 1 (Some "Load 1") (Some (-1)) ].

Definition longer_profile : DataFrame time :=
  mkDF [time_of 0 0 0; time_of 6 0 0; time_of 12 0 0]
       [ (1, [1 # 1; 2 # 1; 3 # 1]%Q); (2, [1 # 1; 1 # 1; 1 # 1]%Q) ].

Definition sample_world : World := mkWorld sample_net [].

Definition unassigned_load : EqTable := [ mkRow 0 (Some "Load 0") (Some (-1)) ].

Definition returned_or {A} (d : A) (o : outcome A) : A :=
  match o with
  | Returned a => a
  | Raised _ => d
  end.

Definition bus_sheet : RawSheet :=
  mkSheet ["idx"; "name"; "vn_kv"; "type"; "in_service"]
    [ (0%nat, [Int 0; Str "Bus 0"; Float (4 # 10); NaN; NaN]);
      (1%nat, [Int 1; Str "Bus 1"; Float (4 # 10); Str "n"; Bool false]);
      (2%nat, [NaN; NaN; NaN; NaN; NaN]) ].

Definition load_sheet : RawSheet :=
  mkSheet ["idx"; "name"; "bus"; "p_mw"; "profile_mapping"; "type"; "in_service"]
    [ (0%nat, [Int 0; Str "Load 0"; Float (1 # 1); NaN; NaN; NaN; NaN]);
      (1%nat, [Int 1; NaN; NaN; NaN; NaN; NaN; NaN]);
      (2%nat, [Int 2; Str "Load 2"; Int 0; Float (1 # 2); Float (3 # 1); Str "delta"; Int 0]) ].

Definition empty_sheet : RawSheet := mkSheet ["idx"; "name"] [].

Definition sample_workbook : list (string * RawSheet) :=
  [ ("bus", bus_sheet); ("load", load_sheet); ("sgen", empty_sheet) ].

(** A sheet whose only sample lies in the last second of the day. *)
Definition late_sheet : ProfileSheet :=
  mkProfileSheet [time_of 23 59 59 + 500000 * microsecond] [(1, "P [MW]")].

Definition hourly_sheet : ProfileSheet :=
  mkProfileSheet [time_of 0 0 0; time_of 6 0 0; time_of 12 0 0] [(1, "P [MW]")].

Definition single_sheet : ProfileSheet :=
  mkProfileSheet [time_of 3 0 0] [(1, "P [MW]"); (1, "Q [MVAR]")].

Definition quarter_sheet : ProfileSheet :=
  mkProfileSheet [time_of 1 0 0; time_of 1 15 0] [(2, "P [MW]")].

(** A network after two bound tables, and the tables a solver hands back
    for it. *)
Definition solved_net : Net :=
  mkNet [ ("bus", [ mkRow 0 (Some "Bus 0") None; mkRow 1 (Some "Bus 1") None ]);
          ("load", sample_loads) ]
        []
        (Some [time_of 0 0 0; time_of 6 0 0]).

Definition solver_output : list (string * DataFrame nat) :=
  [ ("Parameters", mkDF [] []);
    ("res_bus.vm_pu", mkDF [0%nat; 1%nat] [ (0, [1 # 1; 1 # 1]%Q); (1, [99 # 100; 98 # 100]%Q) ]) ].

Definition sample_solver (net : Net) (steps : nat)
  : outcome (Net * list (string * DataFrame nat)) :=
  Returned (net, solver_output).

(** A file system on which no folder exists and none can be made. *)
Definition readonly_exists (fs : unit) (path : string) : bool := false.
Definition readonly_makedirs (fs : unit) (path : string) : unit * outcome unit :=
  (fs, Raised OSError).
Definition readonly_writer (fs : unit) (path : string) : unit * outcome unit :=
  (fs, Raised OSError).
Definition readonly_to_excel (fs : unit) (writer : unit) (sheet : string)
  (table : ResultTable) : unit * outcome unit :=
  (fs, Raised OSError).

Definition unmapped_loads : EqTable :=
  [ mkRow 1 (Some "Load 1") None; mkRow 2 (Some "Load 2") None; mkRow 4 (Some "Load 4") None ].

Definition unnamed_load : EqTable := [ mkRow 0 None (Some (-1)) ].

Definition shifted_profile : DataFrame time :=
  mkDF [time_of 0 0 0; time_of 7 0 0]
       [ (1, [1 # 1; 2 # 1]%Q); (2, [3 # 2; 1 # 1]%Q) ].

Definition stale_net : Net :=
  mkNet [("load", sample_loads)]
        [ mkControl "load" [9] "p_mw" (mkDF [O] [(9, [0 # 1]%Q)]) [9];
          mkControl "sgen" [1] "p_mw" (mkDF [O] [(1, [4 # 1]%Q)]) [1] ]
        (Some [time_of 0 0 0; time_of 6 0 0]).

Definition line_sheet : RawSheet :=
  mkSheet ["idx"; "name"; "from_bus"; "to_bus"; "length_km"]
    [ (0%nat, [Int 0; Str "Line 0"; Int 0; NaN; Float (1 # 2)]) ].

Definition loaded_bus_table : Table :=
  [ (0%nat, [("name", Str "Bus 0"); ("vn_kv", Float (4 # 10)); ("type", Str "b");
             ("in_service", Bool true)]);
    (1%nat, [("name", Str "Bus 1"); ("vn_kv", Float (4 # 10)); ("type", Str "n");
             ("in_service", Bool false)]) ].

From Stdlib Require Import Permutation.

(** ** Further notions *)

(** An entry of [power_profiles] that comes with a table. *)
Definition has_table (item : string * option (DataFrame time)) : bool :=
  match snd item with
  | Some _ => true
  | None => false
  end.

(** The identifier of a row is a column of the profile table. *)
Definition row_has_profile (profile : DataFrame time) (r : EqRow) : Prop :=
  exists k, eq_profile_mapping r = Some k /\ column profile k <> None.

(** Strictly increasing. *)
Fixpoint increasing (l : list Z) : Prop :=
  match l with
  | a :: ((b :: _) as rest) => a < b /\ increasing rest
  | _ => True
  end.

(** A sheet that keeps rows after cleaning. *)
Definition kept_sheet (sh : RawSheet) : bool :=
  match clean_sheet sh with
  | Returned (_ :: _) => true
  | _ => false
  end.

(** A value that already has the type its column is converted to. *)
Definition already_typed (c : string) (v : cell) : bool :=
  (if in_names c int_column
   then match v with Int z => in_int64 z | _ => false end
   else true) &&
  (if in_names c bool_column
   then match v with Bool _ => true | _ => false end
   else true).

(** A loaded field against the field of the sheet: the same column, and
    the same value where the sheet had one of the right type, the
    coordinates of the geodata sheet apart. *)
Definition field_kept (eq_name : string) (src dst : string * cell) : Prop :=
  fst dst = fst src /\
  (is_null (snd src) = false ->
   already_typed (fst src) (snd src) = true ->
   ~ (eq_name = "line_geodata" /\ fst src = "coords") ->
   snd dst = snd src).

(** The samples of a sheet come at strictly increasing times. *)
Definition strictly_timed (sh : ProfileSheet) : Prop :=
  Forall (fun g => 0 < g) (diff (ps_index sh)).

(** ** load_power_profile_form_xlsx: the values (lines 130-153)

    A cleaned profile sheet with its cells: the row labels, the quantity
    labels its header lists (the second level of the columns, which keeps
    the labels of columns dropped for being empty), and the columns under
    their pair of profile identifier and quantity, one cell per row.  A
    cell without a number (NaN) is [None]. *)

Record ProfileData : Type := mkProfileData {
  pd_index : list time;
  pd_levels : list string;
  pd_columns : list ((Z * string) * list (option value))
}.

(** What the construction of the grid reads of it. *)
Definition sheet_of (d : ProfileData) : ProfileSheet :=
  mkProfileSheet (pd_index d) (map fst (pd_columns d)).

(** A table on the common grid; its columns still admit empty cells. *)
Record GridTable : Type := mkGridTable {
  gt_index : list time;
  gt_columns : list (Z * list (option value))
}.

Fixpoint position_in (t : Z) (l : list Z) : option nat :=
  match l with
  | [] => None
  | x :: rest => if x =? t then Some O else option_map S (position_in t rest)
  end.

(** [fillna(method='ffill')] and [fillna(method='bfill')] on one column. *)
Fixpoint ffill_from {A} (prev : option A) (l : list (option A)) : list (option A) :=
  match l with
  | [] => []
  | Some v :: rest => Some v :: ffill_from (Some v) rest
  | None :: rest => prev :: ffill_from prev rest
  end.

Definition ffill {A} (l : list (option A)) : list (option A) := ffill_from None l.

Fixpoint bfill {A} (l : list (option A)) : list (option A) :=
  match l with
  | [] => []
  | Some v :: rest => Some v :: bfill rest
  | None :: rest => hd None (bfill rest) :: bfill rest
  end.

(** [first()] of a group, on one column: the first cell that has a value. *)
Fixpoint first_valid {A} (l : list (option A)) : option A :=
  match l with
  | [] => None
  | Some v :: _ => Some v
  | None :: rest => first_valid rest
  end.

(** The next cell with a value, and how many cells lie before it. *)
Fixpoint next_valid {A} (l : list (option A)) : option (nat * A) :=
  match l with
  | [] => None
  | Some v :: _ => Some (O, v)
  | None :: rest =>
      match next_valid rest with
      | Some (d, v) => Some (S d, v)
      | None => None
      end
  end.

Definition has_value {A} (o : option A) : bool :=
  match o with
  | Some _ => true
  | None => false
  end.

Definition values_of {A} (l : list (option A)) : list A :=
  flat_map (fun o => match o with Some v => [v] | None => [] end) l.

Fixpoint has_duplicates (l : list Z) : bool :=
  match l with
  | [] => false
  | x :: rest => mem x rest || has_duplicates rest
  end.

Section Resample.

(** The floating-point value that linear interpolation puts at step [k]
    of [steps] equal steps from [a] to [b]. *)
Variable lerp : value -> value -> nat -> nat -> value.

(** [interpolate()] on one column: cells are taken as equally spaced; an
    empty cell between two values gets the value on the line between
    them, one after the last value gets the last value, one before the
    first value stays empty.  [prev] is the last value met and the number
    of steps made since. *)
Fixpoint interpolate_from (prev : option (value * nat)) (l : list (option value))
  : list (option value) :=
  match l with
  | [] => []
  | Some v :: rest => Some v :: interpolate_from (Some (v, 1%nat)) rest
  | None :: rest =>
      match prev with
      | None => None :: interpolate_from None rest
      | Some (a, k) =>
          match next_valid rest with
          | Some (d, b) => Some (lerp a b (k + S d) k)
          | None => Some a
          end :: interpolate_from (Some (a, S k)) rest
      end
  end.

Definition interpolate (l : list (option value)) : list (option value) :=
  interpolate_from None l.

(** The cell of a column at the row labelled [t], empty when the sheet
    has no such row. *)
Definition value_at (index : list time) (col : list (option value)) (t : time)
  : option value :=
  match position_in t index with
  | Some i => nth i col None
  | None => None
  end.

(** Lines 136-138: the row labels of the concatenation, sorted, and the
    timestamp number of each row after the two fills. *)
Definition merged_index (grid index : list time) : list time :=
  sort_unique (grid ++ index).

Definition timestamps (grid index : list time) : list (option Z) :=
  bfill (ffill (map (fun t => option_map Z.of_nat (position_in t grid))
                    (merged_index grid index))).

(** The keys of [groupby("timestamp")]: the numbers met, in increasing
    order. *)
Definition group_numbers (grid index : list time) : list Z :=
  sort_unique (values_of (timestamps grid index)).

(** The cells of one column in the rows of one group. *)
Definition group_cells (stamps : list (option Z)) (cells : list (option value)) (k : Z)
  : list (option value) :=
  map snd (filter (fun row => match fst row with
                              | Some k' => k' =? k
                              | None => false
                              end) (combine stamps cells)).

(** Lines 136-143 on one column. *)
Definition resample_column (grid index : list time) (col : list (option value))
  : list (option value) :=
  let cells := map (value_at index col) (merged_index grid index) in
  let firsts := map (fun k => first_valid (group_cells (timestamps grid index) cells k))
                    (group_numbers grid index) in
  ffill (bfill (interpolate firsts)).

(** Lines 136-147: [actual_profile]. Concatenation needs distinct row
    labels (pandas' [InvalidIndexError] otherwise), and the new frame as
    many rows of values as the grid has points. *)
Definition interpolate_sheet (grid : list time) (d : ProfileData)
  : outcome (list ((Z * string) * list (option value))) :=
  if has_duplicates (pd_index d) then Raised InvalidIndexError
  else if Nat.eqb (List.length (group_numbers grid (pd_index d))) (List.length grid)
  then Returned (map (fun c => (fst c, resample_column grid (pd_index d) (snd c)))
                     (pd_columns d))
  else Raised ValueError.

(** [xs(q, level=1, axis=1).dropna(how="all", axis=1)] *)
Definition cross_section (q : string) (cols : list ((Z * string) * list (option value)))
  : outcome (list (Z * list (option value))) :=
  match filter (fun c => String.eqb (snd (fst c)) q) cols with
  | [] => Raised KeyError
  | selected =>
      Returned (filter (fun c => existsb has_value (snd c))
                       (map (fun c => (fst (fst c), snd c)) selected))
  end.

(** Lines 149-152, for one quantity. *)
Definition quantity_table (d : ProfileData) (grid : list time)
  (cols : list ((Z * string) * list (option value))) (q variable : string)
  : outcome (list (string * GridTable)) :=
  if in_names q (pd_levels d)
  then and_then (cross_section q cols)
         (fun selected => Returned [(variable, mkGridTable grid selected)])
  else Returned [].

(** Lines 130-152, for one sheet. *)
Definition sheet_tables (grid : list time) (d : ProfileData)
  : outcome (list (string * GridTable)) :=
  and_then (interpolate_sheet grid d) (fun cols =>
  and_then (quantity_table d grid cols "P [MW]" "p_mw") (fun p =>
  and_then (quantity_table d grid cols "Q [MVAR]" "q_mvar") (fun q =>
  Returned (p ++ q)%list))).

(** Lines 95-153, with the values. *)
Definition load_power_profile_tables (workbook : list (string * ProfileData))
  : outcome (list (string * list (string * GridTable))) :=
  and_then (common_grid (map (fun entry => (fst entry, sheet_of (snd entry))) workbook))
    (fun grid =>
       map_outcome (fun entry =>
                      and_then (sheet_tables grid (snd entry))
                               (fun tables => Returned (fst entry, tables)))
                   (filter (fun entry => negb (ps_empty (sheet_of (snd entry)))) workbook)).

End Resample.

Definition exact_lerp (a b : value) (steps k : nat) : value :=
  (a + (b - a) * (Z.of_nat k # 1) / (Z.of_nat steps # 1))%Q.

Definition half_hourly : ProfileData :=
  mkProfileData [time_of 0 0 0; time_of 1 0 0; time_of 2 0 0]
    ["P [MW]"; "Q [MVAR]"]
    [ ((1, "P [MW]"), [Some (1 # 1); None; Some (3 # 1)]%Q);
      ((1, "Q [MVAR]"), [None; Some (1 # 2); None]%Q) ].

Definition aligned_data : ProfileData :=
  mkProfileData [time_of 0 0 0; time_of 0 30 0; time_of 1 0 0]
    ["P [MW]"]
    [ ((1, "P [MW]"), [Some (1 # 1); Some (2 # 1); Some (3 # 1)]%Q);
      ((2, "P [MW]"), [Some (5 # 1); Some (4 # 1); Some (4 # 1)]%Q) ].

(** A workbook with one sheet of samples and one sheet without cells, and
    the tables it is loaded to. *)
Definition profile_workbook : list (string * ProfileData) :=
  [("load", half_hourly); ("sgen", mkProfileData [] [] [])].

Definition profile_workbook_tables : list (string * list (string * GridTable)) :=
  let grid := [time_of 0 0 0; time_of 1 0 0; time_of 2 0 0] in
  [("load",
    [("p_mw", mkGridTable grid [(1, [Some (1 # 1); Some (4 # 2); Some (3 # 1)]%Q)]);
     ("q_mvar", mkGridTable grid [(1, [Some (1 # 2); Some (1 # 2); Some (1 # 2)]%Q)])])].

(** ** load_net_from_xlsx: the network returned (lines 50 and 77-78)

    Line 50 takes pandapower's empty network, which already holds a
    table for each class the library knows and other entries beside;
    line 77 assigns to it.  The empty network is the library's and is
    taken as given. *)

(** An entry of the network: a table, or a value of the library's. *)
Inductive NetEntry (Other : Type) : Type :=
| TableEntry (t : Table)
| OtherEntry (o : Other).

Arguments TableEntry {Other} t.
Arguments OtherEntry {Other} o.

(** [d[key] = v]: the value of a key already there is replaced where it
    stands, a new key comes last. *)
Fixpoint dict_set {V} (key : string) (v : V) (d : list (string * V)) : list (string * V) :=
  match d with
  | [] => [(key, v)]
  | (k, x) :: rest =>
      if String.eqb k key then (k, v) :: rest else (k, x) :: dict_set key v rest
  end.

Section ReturnedNetwork.

Variable py_int : string -> option Z.
Variable py_float : string -> option Q.

Variable Other : Type.

(** [pp.create_empty_network()] *)
Variable create_empty_network : list (string * NetEntry Other).

(** Line 77, for the tables of the loop in turn. *)
Definition assign_tables (net : list (string * NetEntry Other))
  (assigned : list (string * Table)) : list (string * NetEntry Other) :=
  fold_left (fun net entry => dict_set (fst entry) (TableEntry (snd entry)) net)
            assigned net.

(** Lines 50-78: the network the function returns, which is the empty
    network with the tables of the loop assigned; a sheet that raises
    leaves no network. *)
Definition returned_net (workbook : list (string * RawSheet))
  : outcome (list (string * NetEntry Other)) :=
  and_then (load_net_from_xlsx py_int py_float workbook) (fun assigned =>
  Returned (assign_tables create_empty_network assigned)).

End ReturnedNetwork.

(** An empty network with tables for three classes and one entry that is
    no table. *)
Definition sample_empty_network : list (string * NetEntry unit) :=
  [ ("bus", TableEntry []); ("trafo", TableEntry []); ("name", OtherEntry tt) ].

(** * Properties *)

(** ** Strings *)

Example split_selector :
  PyStr.split "." "res_bus.vm_pu" = ["res_bus"; "vm_pu"].
Proof. reflexivity. Qed.

Example split_trailing : PyStr.split "," "a,,b," = ["a"; ""; "b"; ""].
Proof. reflexivity. Qed.

Example split_long_sep :
  PyStr.split "], [" "1, 2], [3, 4" = ["1, 2"; "3, 4"].
Proof. reflexivity. Qed.

Example replace_prefix : PyStr.replace "res_" "" "res_line.loading_percent" = "line.loading_percent".
Proof. reflexivity. Qed.

Example join_names : PyStr.join ", " ["L1"; "L2"; "L3"] = "L1, L2, L3".
Proof. reflexivity. Qed.


(** ** Tables: columns set and looked up *)

Lemma lookup_set_column (c k : Z) (vals : list value) (cols : list (Z * list value)) :
  lookup_column c (set_column k vals cols) =
  if k =? c then Some vals else lookup_column c cols.
Proof.
  induction cols as [|[c' v'] rest IH]; simpl.
  - destruct (k =? c); reflexivity.
  - destruct (c' =? k) eqn:Hk; simpl.
    + apply Z.eqb_eq in Hk; subst c'.
      destruct (k =? c); reflexivity.
    + destruct (c' =? c) eqn:Hc.
      * apply Z.eqb_eq in Hc; subst c'.
        rewrite Z.eqb_sym in Hk. rewrite Hk. reflexivity.
      * exact IH.
Qed.

Lemma lookup_column_None (c : Z) (cols : list (Z * list value)) :
  lookup_column c cols = None <-> ~ In c (map fst cols).
Proof.
  induction cols as [|[c' v'] rest IH]; simpl.
  - tauto.
  - destruct (c' =? c) eqn:Hc.
    + apply Z.eqb_eq in Hc. split; [discriminate | intros H; exfalso; apply H; now left].
    + apply Z.eqb_neq in Hc. rewrite IH. tauto.
Qed.

Lemma in_set_column (c k : Z) (vals : list value) (cols : list (Z * list value)) :
  In c (map fst (set_column k vals cols)) <-> c = k \/ In c (map fst cols).
Proof.
  induction cols as [|[c' v'] rest IH]; simpl.
  - intuition.
  - destruct (c' =? k) eqn:Hk; simpl.
    + apply Z.eqb_eq in Hk; subst c'. intuition.
    + rewrite IH. intuition.
Qed.

Lemma in_set_columns_from (c : Z) (keys : list Z) (rows : list (list value)) :
  forall (i : nat) (cols : list (Z * list value)),
    In c (map fst (set_columns_from i keys rows cols)) <-> In c keys \/ In c (map fst cols).
Proof.
  induction keys as [|k keys IH]; intros i cols; simpl.
  - tauto.
  - rewrite IH, in_set_column. intuition.
Qed.

Lemma nth_repeat_lt (v d : value) (k i : nat) :
  (i < k)%nat -> nth i (repeat v k) d = v.
Proof.
  revert i; induction k as [|k IH]; intros i Hi; [lia|].
  destruct i as [|i]; simpl; [reflexivity | apply IH; lia].
Qed.

Lemma column_of_zip_repeated (vals : list value) (k i : nat) :
  (i < k)%nat -> map (fun row => nth i row 0%Q) (zip_repeated vals k) = vals.
Proof.
  intros Hi. unfold zip_repeated. rewrite map_map.
  induction vals as [|v vals IH]; simpl; [reflexivity|].
  rewrite nth_repeat_lt by exact Hi. now rewrite IH.
Qed.

(** Assigning the repeated series to a list of keys leaves every listed
    key with the series, and every other column as it was. *)
Lemma lookup_set_columns_repeated (c : Z) (vals : list value) (k : nat) (keys : list Z) :
  forall (i : nat) (cols : list (Z * list value)),
    (i + List.length keys <= k)%nat ->
    lookup_column c (set_columns_from i keys (zip_repeated vals k) cols) =
    if mem c keys then Some vals else lookup_column c cols.
Proof.
  induction keys as [|key keys IH]; intros i cols Hk; simpl in *.
  - reflexivity.
  - rewrite IH by lia. rewrite lookup_set_column.
    rewrite column_of_zip_repeated by lia.
    unfold mem in *. simpl.
    destruct (existsb (Z.eqb c) keys).
    + now rewrite orb_true_r.
    + now rewrite orb_false_r, (Z.eqb_sym c key).
Qed.

Lemma mem_In (x : Z) (l : list Z) : mem x l = true <-> In x l.
Proof.
  unfold mem. rewrite existsb_exists. split.
  - intros [y [Hy Hxy]]. apply Z.eqb_eq in Hxy. now subst.
  - intros H. exists x. split; [assumption | apply Z.eqb_refl].
Qed.

Lemma mem_not_In (x : Z) (l : list Z) : mem x l = false <-> ~ In x l.
Proof.
  rewrite <- mem_In. destruct (mem x l); split; congruence.
Qed.

(** ** Sorted keys and index operations *)

Lemma in_insert_sorted (x y : Z) (l : list Z) :
  In y (insert_sorted x l) <-> y = x \/ In y l.
Proof.
  induction l as [|z l IH]; simpl.
  - intuition.
  - destruct (x <? z); simpl; [intuition|].
    destruct (x =? z) eqn:E; simpl.
    + apply Z.eqb_eq in E; subst. intuition.
    + rewrite IH. intuition.
Qed.

Lemma in_sort_unique (y : Z) (l : list Z) : In y (sort_unique l) <-> In y l.
Proof.
  induction l as [|x l IH]; simpl; [tauto|].
  rewrite in_insert_sorted, IH. intuition.
Qed.

Lemma in_index_difference (x : Z) (a b : list Z) :
  In x (index_difference a b) <-> In x a /\ ~ In x b.
Proof.
  unfold index_difference. rewrite in_sort_unique, filter_In.
  rewrite negb_true_iff, mem_not_In. tauto.
Qed.

Lemma in_dedup (x : Z) (l : list Z) : In x (dedup l) -> In x l.
Proof.
  induction l as [|y l IH]; simpl; [tauto|].
  intros [H|H]; [now left|].
  apply filter_In in H. right. apply IH, H.
Qed.

Lemma in_index_intersection (x : Z) (a b : list Z) :
  In x (index_intersection a b) -> In x a /\ In x b.
Proof.
  unfold index_intersection. intros H. apply in_dedup in H.
  apply filter_In in H. now rewrite mem_In in H.
Qed.

(** ** The profile mapping *)

Lemma in_profile_mapping (tbl : EqTable) (k : Z) (idxs : list Z) :
  In (k, idxs) (profile_mapping tbl) ->
  idxs = map eq_index (filter (has_mapping k) tbl).
Proof.
  unfold profile_mapping. rewrite in_map_iff.
  intros [k' [E _]]. now inversion E.
Qed.

Lemma in_group (tbl : EqTable) (k i : Z) :
  In i (map eq_index (filter (has_mapping k) tbl)) <->
  exists r, In r tbl /\ eq_index r = i /\ eq_profile_mapping r = Some k.
Proof.
  rewrite in_map_iff. split.
  - intros [r [Hi Hr]]. apply filter_In in Hr. destruct Hr as [Hr Hm].
    exists r. repeat split; try assumption.
    unfold has_mapping in Hm. destruct (eq_profile_mapping r); [|discriminate].
    apply Z.eqb_eq in Hm. now subst.
  - intros [r [Hr [Hi Hm]]]. exists r. split; [assumption|].
    apply filter_In. split; [assumption|].
    unfold has_mapping. rewrite Hm. apply Z.eqb_refl.
Qed.

Lemma in_group_keys (tbl : EqTable) (k : Z) :
  In k (group_keys tbl) <-> exists r, In r tbl /\ eq_profile_mapping r = Some k.
Proof.
  unfold group_keys. rewrite in_sort_unique, in_flat_map. split.
  - intros [r [Hr Hk]]. exists r. split; [assumption|].
    destruct (eq_profile_mapping r); simpl in Hk; [|contradiction].
    destruct Hk as [Hk|[]]. now subst.
  - intros [r [Hr Hk]]. exists r. split; [assumption|]. rewrite Hk. now left.
Qed.

(** A row with a profile identifier appears in the list of that identifier. *)
Lemma row_in_profile_mapping (tbl : EqTable) (r : EqRow) (k : Z) :
  In r tbl -> eq_profile_mapping r = Some k ->
  exists idxs, In (k, idxs) (profile_mapping tbl) /\ In (eq_index r) idxs.
Proof.
  intros Hr Hk. exists (map eq_index (filter (has_mapping k) tbl)). split.
  - unfold profile_mapping. apply in_map_iff. exists k. split; [reflexivity|].
    apply in_group_keys. now exists r.
  - apply in_group. now exists r.
Qed.

Lemma group_in_index (tbl : EqTable) (k i : Z) (idxs : list Z) :
  In (k, idxs) (profile_mapping tbl) -> In i idxs -> In i (table_index tbl).
Proof.
  intros Hk Hi. apply in_profile_mapping in Hk. subst idxs.
  apply in_group in Hi. destruct Hi as [r [Hr [Hi _]]].
  unfold table_index. apply in_map_iff. now exists r.
Qed.

Lemma NoDup_map_injective {A B} (f : A -> B) (l : list A) (x y : A) :
  NoDup (map f l) -> In x l -> In y l -> f x = f y -> x = y.
Proof.
  induction l as [|a l IH]; simpl; [tauto|].
  intros Hnd Hx Hy Hf. inversion Hnd as [|? ? Hnot Hnd']; subst.
  destruct Hx as [Hx|Hx], Hy as [Hy|Hy]; subst.
  - reflexivity.
  - exfalso. apply Hnot. rewrite Hf. now apply in_map.
  - exfalso. apply Hnot. rewrite <- Hf. now apply in_map.
  - now apply IH.
Qed.

(** With one row per index, an index is in the list of one identifier only. *)
Lemma groups_disjoint (tbl : EqTable) (k k' i : Z) (idxs idxs' : list Z) :
  NoDup (table_index tbl) ->
  In (k, idxs) (profile_mapping tbl) -> In i idxs ->
  In (k', idxs') (profile_mapping tbl) -> In i idxs' ->
  k' = k.
Proof.
  intros Hnd Hk Hi Hk' Hi'.
  apply in_profile_mapping in Hk, Hk'. subst idxs idxs'.
  apply in_group in Hi, Hi'.
  destruct Hi as [r [Hr [Hi Hm]]]. destruct Hi' as [r' [Hr' [Hi' Hm']]].
  assert (r = r').
  { apply (NoDup_map_injective eq_index tbl); try assumption. congruence. }
  subst r'. congruence.
Qed.

(** ** The broadcast *)

Lemma broadcast_step_index (profile mapped : DataFrame time) (entry : Z * list Z) :
  df_index (broadcast_step profile mapped entry) = df_index mapped.
Proof.
  destruct entry as [pid eqs]. unfold broadcast_step.
  destruct (column profile pid); reflexivity.
Qed.

Lemma broadcast_index (profile : DataFrame time) (mapping : list (Z * list Z)) :
  forall mapped,
    df_index (fold_left (broadcast_step profile) mapping mapped) = df_index mapped.
Proof.
  induction mapping as [|e m IH]; intros mapped; simpl; [reflexivity|].
  now rewrite IH, broadcast_step_index.
Qed.

Lemma broadcast_step_column (profile mapped : DataFrame time) (pid : Z) (eqs : list Z) (c : Z) :
  column (broadcast_step profile mapped (pid, eqs)) c =
  match column profile pid with
  | Some vals => if mem c eqs then Some vals else column mapped c
  | None => column mapped c
  end.
Proof.
  unfold broadcast_step. destruct (column profile pid) as [vals|]; [|reflexivity].
  unfold column, setitem. simpl.
  now rewrite lookup_set_columns_repeated by (simpl; lia).
Qed.

(** If every list that holds [i] belongs to the identifier [X], and [X] is
    a column of the profile, then after the loop [i] carries that column
    as soon as it carried it before or some list of [X] holds it. *)
Lemma broadcast_column (profile : DataFrame time) (X i : Z) (vals : list value)
  (mapping : list (Z * list Z)) :
  column profile X = Some vals ->
  (forall Y ys, In (Y, ys) mapping -> In i ys -> Y = X) ->
  forall mapped,
    column mapped i = Some vals \/ (exists ys, In (X, ys) mapping /\ In i ys) ->
    column (fold_left (broadcast_step profile) mapping mapped) i = Some vals.
Proof.
  intros HX. induction mapping as [|[Y ys] m IH]; intros Honly mapped Hhave;
    cbn [fold_left].
  - destruct Hhave as [H|[ys [[] _]]]. exact H.
  - apply IH.
    + intros Y' ys' Hin. apply Honly. now right.
    + rewrite broadcast_step_column.
      destruct (mem i ys) eqn:Hmem.
      * apply mem_In in Hmem.
        assert (Y = X) by (apply (Honly Y ys); [now left | assumption]).
        subst Y. rewrite HX. now left.
      * apply mem_not_In in Hmem.
        destruct Hhave as [H|[ys' [[E|Hin] Hi]]].
        -- left. destruct (column profile Y); assumption.
        -- inversion E; subst. contradiction.
        -- right. now exists ys'.
Qed.

(** A column of the table the loop builds was there before or is an index
    listed under an identifier that is a column of the profile. *)
Lemma broadcast_columns_from (profile : DataFrame time) (c : Z)
  (mapping : list (Z * list Z)) :
  forall mapped,
    In c (columns (fold_left (broadcast_step profile) mapping mapped)) ->
    In c (columns mapped) \/
    exists Y ys, In (Y, ys) mapping /\ In c ys /\ column profile Y <> None.
Proof.
  induction mapping as [|[Y ys] m IH]; intros mapped Hc; cbn [fold_left] in *.
  - now left.
  - apply IH in Hc. destruct Hc as [Hc|[Y' [ys' [Hin [Hc Hcol]]]]].
    + unfold broadcast_step in Hc.
      destruct (column profile Y) as [vals|] eqn:HY; [|now left].
      unfold columns, setitem in Hc. simpl in Hc.
      apply in_set_columns_from in Hc. destruct Hc as [Hc|Hc]; [|now left].
      right. exists Y, ys. repeat split; [now left | assumption | congruence].
    + right. exists Y', ys'. repeat split; [now right | assumption | assumption].
Qed.

(** C1: for a class whose rows have distinct indices, and a profile
    identifier X that is both a key of the profile mapping and a column of
    the incoming table, every equipment index listed under X has, in the
    mapped table that apply_power_profile builds, a column equal to the
    source column X, on the same time labels. *)
Theorem broadcast_correct (tbl : EqTable) (profile : DataFrame time)
  (X i : Z) (idxs : list Z) (vals : list value) :
  NoDup (table_index tbl) ->
  In (X, idxs) (profile_mapping tbl) ->
  column profile X = Some vals ->
  In i idxs ->
  column (mapped_profile tbl profile) i = Some vals /\
  df_index (mapped_profile tbl profile) = df_index profile.
Proof.
  intros Hnd HX Hcol Hi. unfold mapped_profile.
  destruct (profile_mapping tbl) as [|e m] eqn:Hm; [contradiction|].
  rewrite <- Hm in *. split.
  - apply (broadcast_column profile X i vals); [assumption | | ].
    + intros Y ys HY Hys. now apply (groups_disjoint tbl X Y i idxs ys).
    + right. now exists idxs.
  - now rewrite broadcast_index.
Qed.



Lemma broadcast_correct_witness :
  NoDup (table_index sample_loads) /\
  In (1, [3; 7]) (profile_mapping sample_loads) /\
  column sample_profile 1 = Some [1 # 1; 2 # 1]%Q /\
  In 7 [3; 7] /\
  column (mapped_profile sample_loads sample_profile) 7 = Some [1 # 1; 2 # 1]%Q /\
  df_index (mapped_profile sample_loads sample_profile) = df_index sample_profile.
Proof.
  assert (Hnd : NoDup (table_index sample_loads)).
  { repeat constructor; simpl; intuition discriminate. }
  assert (Hin : In (1, [3; 7]) (profile_mapping sample_loads)).
  { vm_compute. now left. }
  assert (Hcol : column sample_profile 1 = Some [1 # 1; 2 # 1]%Q) by reflexivity.
  assert (Hi : In 7 [3; 7]) by (simpl; tauto).
  split; [exact Hnd|]. split; [exact Hin|]. split; [exact Hcol|]. split; [exact Hi|].
  exact (broadcast_correct sample_loads sample_profile 1 7 [3; 7] _ Hnd Hin Hcol Hi).
Defined.

(** ** What a call does to the network *)

Ltac run_monad :=
  unfold bind_profile, check_time_index, warn_unmapped, register, drop_old_controllers,
    get_table, bind, get_net, put_net, log_record, ret, raise in *;
  simpl in *.

Ltac split_cases :=
  repeat match goal with
         | |- context [match ?x with _ => _ end] => destruct x eqn:?; simpl in *
         end.

Lemma new_controls_cons (equipment : string) (tbl : EqTable)
  (item : string * option (DataFrame time)) (rest : list (string * option (DataFrame time))) :
  new_controls equipment tbl (item :: rest) =
  (new_controls equipment tbl [item] ++ new_controls equipment tbl rest)%list.
Proof.
  unfold new_controls. simpl. now rewrite app_nil_r.
Qed.

Lemma check_time_index_run (profile : DataFrame time) (w : World) :
  exists ti lg o,
    check_time_index profile w =
    (mkWorld (mkNet (net_tables (w_net w)) (net_controller (w_net w)) ti)
             (w_log w ++ lg), o).
Proof.
  destruct w as [[tabs ctrl ti] lg]. run_monad. destruct ti as [t|].
  - destruct (Nat.eqb _ _).
    + destruct (forallb _ _).
      * exists (Some t), [], (Returned tt). now rewrite app_nil_r.
      * eexists (Some t), _, (Returned tt). reflexivity.
    + exists (Some t), [], (Raised ValueError). now rewrite app_nil_r.
  - eexists _, [], (Returned tt). now rewrite app_nil_r.
Qed.

Lemma warn_unmapped_run (tbl : EqTable) (v : string) (mapped : DataFrame time) (w : World) :
  exists lg o,
    warn_unmapped tbl v mapped w = (mkWorld (w_net w) (w_log w ++ lg), o).
Proof.
  destruct w as [net lg]. run_monad.
  destruct (unmapped_equipment tbl mapped).
  - exists [], (Returned tt). now rewrite app_nil_r.
  - destruct (all_strings _).
    + eexists _, (Returned tt). reflexivity.
    + exists [], (Raised TypeError). now rewrite app_nil_r.
Qed.

(** One turn of the loop: the tables stay, and the controller table gains
    the registration of the turn, or nothing when the turn raises. *)
Lemma bind_profile_effect (equipment : string) (tbl : EqTable)
  (item : string * option (DataFrame time)) (w : World) :
  net_tables (w_net (fst (bind_profile equipment tbl item w))) = net_tables (w_net w) /\
  ((snd (bind_profile equipment tbl item w) = Returned tt /\
    net_controller (w_net (fst (bind_profile equipment tbl item w))) =
    (net_controller (w_net w) ++ new_controls equipment tbl [item])%list) \/
   ((exists e, snd (bind_profile equipment tbl item w) = Raised e) /\
    net_controller (w_net (fst (bind_profile equipment tbl item w))) =
    net_controller (w_net w))).
Proof.
  destruct item as [v [p|]]; unfold new_controls, bind_profile.
  - unfold bind.
    destruct (check_time_index_run p w) as [ti [lg [o ->]]].
    destruct o as [[]|e]; simpl.
    + match goal with
      | |- context [warn_unmapped ?t ?v ?m ?w'] =>
          destruct (warn_unmapped_run t v m w') as [lg' [o' ->]]
      end.
      destruct o' as [[]|e]; simpl.
      * split; [reflexivity|]. left. split; reflexivity.
      * split; [reflexivity|]. right. split; [now exists e | reflexivity].
    + split; [reflexivity|]. right. split; [now exists e | reflexivity].
  - simpl. split; [reflexivity|]. left. split; [reflexivity|]. now rewrite app_nil_r.
Qed.

Lemma for_each_effect (equipment : string) (tbl : EqTable)
  (pp : list (string * option (DataFrame time))) :
  forall w : World,
    net_tables (w_net (fst (for_each pp (bind_profile equipment tbl) w))) =
    net_tables (w_net w) /\
    ((snd (for_each pp (bind_profile equipment tbl) w) = Returned tt /\
      net_controller (w_net (fst (for_each pp (bind_profile equipment tbl) w))) =
      (net_controller (w_net w) ++ new_controls equipment tbl pp)%list) \/
     ((exists e, snd (for_each pp (bind_profile equipment tbl) w) = Raised e) /\
      exists done rest,
        new_controls equipment tbl pp = (done ++ rest)%list /\
        net_controller (w_net (fst (for_each pp (bind_profile equipment tbl) w))) =
        (net_controller (w_net w) ++ done)%list)).
Proof.
  induction pp as [|item pp IH]; intros w.
  - simpl. split; [reflexivity|]. left. split; [reflexivity|]. now rewrite app_nil_r.
  - cbn [for_each]. unfold bind at 1 2 3 4 5.
    destruct (bind_profile_effect equipment tbl item w) as [Ht Hc].
    destruct (bind_profile equipment tbl item w) as [w1 o1] eqn:Hrun.
    cbn [fst snd] in Ht, Hc.
    rewrite new_controls_cons.
    destruct Hc as [[Ho Hc]|[[e Ho] Hc]]; subst o1; cbv beta iota.
    + destruct (IH w1) as [Ht' Hc']. split; [congruence|].
      destruct Hc' as [[Ho' Hc']|[He' [done [rest [Hsplit Hc']]]]].
      * left. split; [assumption|]. rewrite Hc', Hc. now rewrite app_assoc.
      * right. split; [assumption|].
        exists (new_controls equipment tbl [item] ++ done)%list, rest. split.
        -- rewrite Hsplit. now rewrite app_assoc.
        -- rewrite Hc', Hc. now rewrite app_assoc.
    + simpl. split; [assumption|]. right. split; [now exists e|].
      exists [], (new_controls equipment tbl [item] ++ new_controls equipment tbl pp)%list.
      split; [reflexivity|]. now rewrite app_nil_r.
Qed.

Lemma drop_old_controllers_run (equipment : string) (w : World) :
  drop_old_controllers equipment w =
  (mkWorld (mkNet (net_tables (w_net w)) (other_registrations equipment (w_net w))
                  (net_time_index (w_net w))) (w_log w), Returned tt).
Proof.
  destruct w as [[tabs ctrl ti] lg]. unfold other_registrations. run_monad.
  destruct ctrl; reflexivity.
Qed.

(** The whole call, as one run of the loop from the network without the
    old registrations of the class. *)
Lemma apply_power_profile_run (equipment : string)
  (pp : list (string * option (DataFrame time))) (w : World) :
  apply_power_profile equipment pp w =
  let w0 := mkWorld (mkNet (net_tables (w_net w))
                           (other_registrations equipment (w_net w))
                           (net_time_index (w_net w))) (w_log w) in
  match dict_get equipment (net_tables (w_net w)) with
  | Some tbl => for_each pp (bind_profile equipment tbl) w0
  | None => (w0, Raised KeyError)
  end.
Proof.
  unfold apply_power_profile, bind. rewrite drop_old_controllers_run.
  unfold get_table, bind, get_net, ret, raise. simpl.
  destruct (dict_get equipment (net_tables (w_net w))); reflexivity.
Qed.

Lemma apply_power_profile_effect (equipment : string)
  (pp : list (string * option (DataFrame time))) (w : World) :
  net_tables (w_net (fst (apply_power_profile equipment pp w))) = net_tables (w_net w) /\
  match dict_get equipment (net_tables (w_net w)) with
  | None =>
      snd (apply_power_profile equipment pp w) = Raised KeyError /\
      net_controller (w_net (fst (apply_power_profile equipment pp w))) =
      other_registrations equipment (w_net w)
  | Some tbl =>
      (snd (apply_power_profile equipment pp w) = Returned tt /\
       net_controller (w_net (fst (apply_power_profile equipment pp w))) =
       (other_registrations equipment (w_net w) ++ new_controls equipment tbl pp)%list) \/
      ((exists e, snd (apply_power_profile equipment pp w) = Raised e) /\
       exists done rest,
         new_controls equipment tbl pp = (done ++ rest)%list /\
         net_controller (w_net (fst (apply_power_profile equipment pp w))) =
         (other_registrations equipment (w_net w) ++ done)%list)
  end.
Proof.
  rewrite apply_power_profile_run. cbv zeta.
  destruct (dict_get equipment (net_tables (w_net w))) as [tbl|] eqn:Hget.
  - pose proof (for_each_effect equipment tbl pp
      (mkWorld (mkNet (net_tables (w_net w)) (other_registrations equipment (w_net w))
                      (net_time_index (w_net w))) (w_log w))) as H.
    simpl in H. exact H.
  - repeat split; reflexivity.
Qed.

(** ** The columns of the mapped table *)

Lemma select_columns_labels {L} (df : DataFrame L) (labels : list Z) (c : Z) :
  In c (columns (select_columns df labels)) -> In c labels.
Proof.
  unfold columns, select_columns. simpl.
  induction labels as [|l labels IH]; simpl; [tauto|].
  rewrite map_app, in_app_iff. intros [H|H].
  - destruct (column df l); simpl in H; [|contradiction].
    destruct H as [H|[]]. now left.
  - right. now apply IH.
Qed.

Lemma mapped_columns_in_index (tbl : EqTable) (profile : DataFrame time) (c : Z) :
  In c (columns (mapped_profile tbl profile)) -> In c (table_index tbl).
Proof.
  unfold mapped_profile.
  destruct (profile_mapping tbl) as [|e m] eqn:Hm.
  - intros H. apply select_columns_labels in H.
    now apply in_index_intersection in H.
  - rewrite <- Hm. intros H. apply broadcast_columns_from in H.
    destruct H as [[]|[Y [ys [HY [Hc _]]]]].
    now apply (group_in_index tbl Y c ys).
Qed.

Lemma in_new_controls (equipment : string) (tbl : EqTable)
  (pp : list (string * option (DataFrame time))) (c : ConstControl) :
  In c (new_controls equipment tbl pp) ->
  exists v profile,
    In (v, Some profile) pp /\ c = new_control equipment v (mapped_profile tbl profile).
Proof.
  unfold new_controls. rewrite in_flat_map.
  intros [[v [p|]] [Hin Hc]]; simpl in Hc; [|contradiction].
  destruct Hc as [Hc|[]]. now exists v, p.
Qed.

Lemma new_controls_element (equipment : string) (tbl : EqTable)
  (pp : list (string * option (DataFrame time))) (c : ConstControl) :
  In c (new_controls equipment tbl pp) -> element c = equipment.
Proof.
  intros H. apply in_new_controls in H. destruct H as [v [p [_ ->]]]. reflexivity.
Qed.

Lemma in_other_registrations (equipment : string) (net : Net) (c : ConstControl) :
  In c (other_registrations equipment net) -> element c <> equipment.
Proof.
  unfold other_registrations. rewrite filter_In. intros [_ H].
  apply negb_true_iff in H. now apply String.eqb_neq in H.
Qed.

(** C10: after a call of apply_power_profile, whatever its outcome, every
    registration of the class drives only equipment indices that are in
    the index of the class's table: the columns of the mapped table come
    from the lists of the profile mapping, or, without a mapping, from the
    intersection of the index with the columns of the profile table. *)
Theorem controller_index_invariant (equipment : string)
  (pp : list (string * option (DataFrame time))) (w : World) (c : ConstControl) (i : Z) :
  In c (net_controller (w_net (fst (apply_power_profile equipment pp w)))) ->
  element c = equipment ->
  In i (element_index c) ->
  exists tbl,
    dict_get equipment (net_tables (w_net (fst (apply_power_profile equipment pp w)))) =
    Some tbl /\
    In i (table_index tbl).
Proof.
  intros Hc He Hi.
  destruct (apply_power_profile_effect equipment pp w) as [Ht Heff].
  rewrite Ht.
  destruct (dict_get equipment (net_tables (w_net w))) as [tbl|].
  - exists tbl. split; [reflexivity|].
    assert (Hnew : In c (new_controls equipment tbl pp)).
    { destruct Heff as [[_ Hctrl]|[_ [done [rest [Hsplit Hctrl]]]]];
        rewrite Hctrl in Hc; apply in_app_iff in Hc; destruct Hc as [Hc|Hc];
        try (apply in_other_registrations in Hc; contradiction).
      - assumption.
      - rewrite Hsplit. apply in_app_iff. now left. }
    apply in_new_controls in Hnew. destruct Hnew as [v [p [_ ->]]].
    simpl in Hi. now apply mapped_columns_in_index in Hi.
  - destruct Heff as [_ Hctrl]. rewrite Hctrl in Hc.
    apply in_other_registrations in Hc. contradiction.
Qed.




Lemma controller_index_invariant_witness :
  let c := new_control "load" "p_mw" (mapped_profile sample_loads sample_profile) in
  In c (net_controller (w_net (fst (apply_power_profile "load" sample_profiles sample_world)))) /\
  element c = "load" /\
  In 3 (element_index c) /\
  exists tbl,
    dict_get "load"
      (net_tables (w_net (fst (apply_power_profile "load" sample_profiles sample_world)))) =
    Some tbl /\
    In 3 (table_index tbl).
Proof.
  intros c.
  assert (Hc : In c (net_controller
                       (w_net (fst (apply_power_profile "load" sample_profiles sample_world))))).
  { vm_compute. right. left. reflexivity. }
  assert (He : element c = "load") by reflexivity.
  assert (Hi : In 3 (element_index c)) by (vm_compute; now left).
  split; [exact Hc|]. split; [exact He|]. split; [exact Hi|].
  exact (controller_index_invariant "load" sample_profiles sample_world c 3 Hc He Hi).
Defined.

(** ** Re-binding *)

Lemma filter_all {A} (f : A -> bool) (l : list A) :
  (forall x, In x l -> f x = true) -> filter f l = l.
Proof.
  induction l as [|a l IH]; simpl; intros H; [reflexivity|].
  rewrite (H a) by now left. f_equal. apply IH. intros x Hx. apply H. now right.
Qed.

Lemma filter_none {A} (f : A -> bool) (l : list A) :
  (forall x, In x l -> f x = false) -> filter f l = [].
Proof.
  induction l as [|a l IH]; simpl; intros H; [reflexivity|].
  rewrite (H a) by now left. apply IH. intros x Hx. apply H. now right.
Qed.

Lemma registrations_after (equipment : string) (tbl : EqTable)
  (pp : list (string * option (DataFrame time))) (net net' : Net) :
  net_controller net' =
  (other_registrations equipment net ++ new_controls equipment tbl pp)%list ->
  registrations equipment net' = new_controls equipment tbl pp /\
  other_registrations equipment net' = other_registrations equipment net.
Proof.
  intros H. unfold registrations. unfold other_registrations at 1.
  rewrite H, !filter_app. split.
  - rewrite filter_none, filter_all; [reflexivity | | ].
    + intros c Hc. apply new_controls_element in Hc. now apply String.eqb_eq.
    + intros c Hc. apply in_other_registrations in Hc. now apply String.eqb_neq.
  - rewrite filter_all, filter_none; [now rewrite app_nil_r | | ].
    + intros c Hc. apply new_controls_element in Hc.
      apply negb_false_iff. now apply String.eqb_eq.
    + intros c Hc. apply in_other_registrations in Hc.
      apply negb_true_iff. now apply String.eqb_neq.
Qed.

(** C2: a call of apply_power_profile that returns leaves the network with
    the registrations of the other classes followed by the new ones of
    this class, the old ones of the class being gone; after a second call
    binding the same profiles to the same class, the registrations of the
    class are again that one set, one per variable that comes with a
    table, and those of the other classes are untouched. *)
Theorem rebinding_idempotent (equipment : string)
  (pp : list (string * option (DataFrame time))) (w w1 w2 : World) :
  apply_power_profile equipment pp w = (w1, Returned tt) ->
  apply_power_profile equipment pp w1 = (w2, Returned tt) ->
  exists tbl,
    dict_get equipment (net_tables (w_net w)) = Some tbl /\
    net_controller (w_net w1) =
    (other_registrations equipment (w_net w) ++ new_controls equipment tbl pp)%list /\
    registrations equipment (w_net w1) = new_controls equipment tbl pp /\
    registrations equipment (w_net w2) = new_controls equipment tbl pp /\
    other_registrations equipment (w_net w2) = other_registrations equipment (w_net w).
Proof.
  intros H1 H2.
  destruct (apply_power_profile_effect equipment pp w) as [Ht1 He1].
  destruct (apply_power_profile_effect equipment pp w1) as [Ht2 He2].
  rewrite H1 in Ht1, He1. rewrite H2 in Ht2, He2. cbn [fst snd] in *.
  rewrite Ht1 in He2.
  destruct (dict_get equipment (net_tables (w_net w))) as [tbl|];
    [|destruct He1 as [He1 _]; discriminate].
  exists tbl. split; [reflexivity|].
  destruct He1 as [[_ Hc1]|[[e He] _]]; [|discriminate].
  destruct He2 as [[_ Hc2]|[[e He] _]]; [|discriminate].
  destruct (registrations_after equipment tbl pp (w_net w) (w_net w1) Hc1) as [Hr1 Ho1].
  destruct (registrations_after equipment tbl pp (w_net w1) (w_net w2) Hc2) as [Hr2 Ho2].
  repeat split; try assumption. congruence.
Qed.

Lemma rebinding_idempotent_witness :
  let w1 := fst (apply_power_profile "load" sample_profiles sample_world) in
  let w2 := fst (apply_power_profile "load" sample_profiles w1) in
  apply_power_profile "load" sample_profiles sample_world = (w1, Returned tt) /\
  apply_power_profile "load" sample_profiles w1 = (w2, Returned tt) /\
  exists tbl,
    dict_get "load" (net_tables (w_net sample_world)) = Some tbl /\
    net_controller (w_net w1) =
    (other_registrations "load" (w_net sample_world) ++
     new_controls "load" tbl sample_profiles)%list /\
    registrations "load" (w_net w1) = new_controls "load" tbl sample_profiles /\
    registrations "load" (w_net w2) = new_controls "load" tbl sample_profiles /\
    other_registrations "load" (w_net w2) = other_registrations "load" (w_net sample_world).
Proof.
  intros w1 w2.
  assert (H1 : apply_power_profile "load" sample_profiles sample_world = (w1, Returned tt))
    by (vm_compute; reflexivity).
  assert (H2 : apply_power_profile "load" sample_profiles w1 = (w2, Returned tt))
    by (vm_compute; reflexivity).
  split; [exact H1|]. split; [exact H2|].
  exact (rebinding_idempotent "load" sample_profiles sample_world w1 w2 H1 H2).
Defined.

(** ** Equipment without a profile *)

Lemma append_assoc (a b c : string) : ((a ++ b) ++ c = a ++ (b ++ c))%string.
Proof.
  induction a as [|ch a IH]; simpl; [reflexivity | now rewrite IH].
Qed.

Lemma occurs_in_refl (x : string) : PyStr.occurs_in x x.
Proof.
  exists ""%string, ""%string. simpl.
  induction x as [|ch x IH]; simpl; [reflexivity | now rewrite <- IH].
Qed.

Lemma occurs_in_app_l (x s t : string) :
  PyStr.occurs_in x s -> PyStr.occurs_in x (s ++ t).
Proof.
  intros [pre [post ->]]. exists pre, (post ++ t)%string.
  now rewrite !append_assoc.
Qed.

Lemma occurs_in_app_r (x s t : string) :
  PyStr.occurs_in x t -> PyStr.occurs_in x (s ++ t).
Proof.
  intros [pre [post ->]]. exists (s ++ pre)%string, post.
  now rewrite !append_assoc.
Qed.

Lemma occurs_in_join (sep x : string) (l : list string) :
  In x l -> PyStr.occurs_in x (PyStr.join sep l).
Proof.
  induction l as [|y l IH]; [contradiction|].
  intros [->|Hx].
  - destruct l as [|z l]; simpl.
    + apply occurs_in_refl.
    + apply occurs_in_app_l, occurs_in_refl.
  - destruct l as [|z l]; [contradiction|].
    change (PyStr.join sep (y :: z :: l))
      with (y ++ sep ++ PyStr.join sep (z :: l))%string.
    apply occurs_in_app_r, occurs_in_app_r, IH, Hx.
Qed.

Lemma all_strings_present (l : list (option string)) :
  (forall o, In o l -> o <> None) ->
  exists names, all_strings l = Some names /\ forall s, In (Some s) l -> In s names.
Proof.
  induction l as [|o l IH]; intros H; simpl.
  - exists []. split; [reflexivity | intros s []].
  - destruct o as [s|]; [|exfalso; apply (H None); [now left | reflexivity]].
    destruct IH as [names [-> Hn]]; [intros o Ho; apply H; now right|].
    exists (s :: names). split; [reflexivity|].
    intros s' [E|Hs']; [inversion E; now left | right; now apply Hn].
Qed.

Lemma in_names_at (tbl : EqTable) (labels : list Z) (o : option string) :
  In o (names_at tbl labels) <->
  exists r, In r tbl /\ In (eq_index r) labels /\ eq_name r = o.
Proof.
  unfold names_at. rewrite in_flat_map. split.
  - intros [i [Hi Ho]]. apply in_map_iff in Ho. destruct Ho as [r [Hn Hr]].
    apply filter_In in Hr. destruct Hr as [Hr E]. apply Z.eqb_eq in E.
    exists r. subst i. now repeat split.
  - intros [r [Hr [Hi Hn]]]. exists (eq_index r). split; [assumption|].
    apply in_map_iff. exists r. split; [assumption|].
    apply filter_In. split; [assumption | apply Z.eqb_refl].
Qed.

(** An equipment whose identifier is no column of the profile table, in a
    table with one row per index, gets no column. *)
Lemma unassigned_has_no_column (tbl : EqTable) (profile : DataFrame time)
  (r : EqRow) (k : Z) :
  NoDup (table_index tbl) ->
  In r tbl -> eq_profile_mapping r = Some k ->
  column profile k = None ->
  ~ In (eq_index r) (columns (mapped_profile tbl profile)).
Proof.
  intros Hnd Hr Hk Hcol Hin.
  destruct (row_in_profile_mapping tbl r k Hr Hk) as [idxs [Hmap Hi]].
  unfold mapped_profile in Hin.
  destruct (profile_mapping tbl) as [|e m] eqn:Hm; [contradiction|].
  rewrite <- Hm in *.
  apply broadcast_columns_from in Hin.
  destruct Hin as [[]|[Y [ys [HY [Hys HYcol]]]]].
  assert (Y = k) by now apply (groups_disjoint tbl k Y (eq_index r) idxs ys).
  subst Y. contradiction.
Qed.

Lemma forallb_combine_eq (t u : list Z) :
  List.length t = List.length u ->
  forallb (fun p => fst p =? snd p) (combine t u) = true -> t = u.
Proof.
  revert u; induction t as [|a t IH]; intros [|b u] Hlen Hall; simpl in *;
    try discriminate; [reflexivity|].
  apply andb_true_iff in Hall. destruct Hall as [Hab Hall].
  apply Z.eqb_eq in Hab. subst b. f_equal. apply IH; [lia | assumption].
Qed.

(** The time-index check of a table that fits returns; what it may log is
    an error, not a warning. *)
Lemma check_time_index_fits (profile : DataFrame time) (w : World) :
  time_index_fits (w_net w) profile ->
  exists ti errs,
    check_time_index profile w =
    (mkWorld (mkNet (net_tables (w_net w)) (net_controller (w_net w)) ti)
             (w_log w ++ errs), Returned tt) /\
    filter is_warning errs = [].
Proof.
  destruct w as [[tabs ctrl ti] lg]. unfold time_index_fits. run_monad.
  destruct ti as [t|]; intros Hfit.
  - rewrite Hfit, Nat.eqb_refl.
    destruct (forallb _ _).
    + exists (Some t), []. now rewrite app_nil_r.
    + eexists (Some t), _. split; reflexivity.
  - eexists _, []. now rewrite app_nil_r.
Qed.

(** When the indices differ at equal length, the check logs one error and
    returns. *)
Lemma check_time_index_differs (profile : DataFrame time) (w : World) (t : list time) :
  net_time_index (w_net w) = Some t ->
  List.length t = List.length (df_index profile) ->
  t <> df_index profile ->
  check_time_index profile w =
  (mkWorld (w_net w)
           (w_log w ++ [mkLog ERROR "Simulation Profiles have not the same timestamps"]),
   Returned tt).
Proof.
  destruct w as [[tabs ctrl ti] lg]. run_monad. intros -> Hlen Hneq.
  rewrite Hlen, Nat.eqb_refl.
  destruct (forallb _ _) eqn:Hall; [|reflexivity].
  exfalso. apply Hneq. now apply forallb_combine_eq.
Qed.



(** A profile table may carry a column labelled -1: it is then broadcast
    like any other, the equipment with [profile_mapping] -1 gets a column
    and no warning is logged. *)
Lemma unassigned_counterexample :
  let w := mkWorld (mkNet [("load", unassigned_load)] [] None) [] in
  let run := apply_power_profile "load" [("p_mw", Some profile_with_minus_one)] w in
  eq_profile_mapping (mkRow 0 (Some "Load 0") (Some (-1))) = Some (-1) /\
  column (mapped_profile unassigned_load profile_with_minus_one) 0 = Some [5 # 1; 6 # 1]%Q /\
  snd run = Returned tt /\
  map element_index (net_controller (w_net (fst run))) = [[0]] /\
  w_log (fst run) = [].
Proof.
  vm_compute. repeat split; reflexivity.
Qed.

(** The time-index check of a table with as many time labels as the time
    index in place, if any: it returns, leaves a time index of that
    length, and what it may log is an error, not a warning. *)
Lemma check_time_index_same_length (profile : DataFrame time) (w : World) (n : nat) :
  (forall t, net_time_index (w_net w) = Some t -> List.length t = n) ->
  List.length (df_index profile) = n ->
  exists ti errs,
    check_time_index profile w =
    (mkWorld (mkNet (net_tables (w_net w)) (net_controller (w_net w)) (Some ti))
             (w_log w ++ errs), Returned tt) /\
    List.length ti = n /\
    filter is_warning errs = [].
Proof.
  destruct w as [[tabs ctrl ti] lg]. run_monad. intros Hti Hlen.
  destruct ti as [t|].
  - rewrite (Hti t eq_refl), Hlen, Nat.eqb_refl.
    destruct (forallb _ _).
    + exists t, []. rewrite app_nil_r. repeat split. now apply Hti.
    + eexists t, _. repeat split. now apply Hti.
  - exists (df_index profile), []. rewrite app_nil_r. repeat split. assumption.
Qed.

Lemma occurs_in_warning_text (names : list string) (v name : string) :
  In name names ->
  PyStr.occurs_in name (warning_text names v) /\ PyStr.occurs_in v (warning_text names v).
Proof.
  intros Hn. unfold warning_text. split.
  - now apply occurs_in_app_l, occurs_in_join.
  - apply occurs_in_app_r, occurs_in_app_r, occurs_in_app_l, occurs_in_refl.
Qed.

(** One turn of the loop for a table without a column labelled -1: the
    equipment with identifier -1 is among those warned about. *)
Lemma bind_profile_warns (equipment v : string) (tbl : EqTable) (r : EqRow)
  (name : string) (n : nat) (p : DataFrame time) (w : World) :
  NoDup (table_index tbl) ->
  In r tbl ->
  eq_profile_mapping r = Some (-1) ->
  eq_name r = Some name ->
  (forall t, net_time_index (w_net w) = Some t -> List.length t = n) ->
  column p (-1) = None ->
  List.length (df_index p) = n ->
  (forall r', In r' tbl ->
              ~ In (eq_index r') (columns (mapped_profile tbl p)) ->
              eq_name r' <> None) ->
  exists w' msg,
    bind_profile equipment tbl (v, Some p) w = (w', Returned tt) /\
    (forall t, net_time_index (w_net w') = Some t -> List.length t = n) /\
    filter is_warning (w_log w') =
    (filter is_warning (w_log w) ++ [mkLog WARNING msg])%list /\
    PyStr.occurs_in name msg /\ PyStr.occurs_in v msg.
Proof.
  intros Hnd Hr Hk Hname Hti Hcol Hlen Hnames.
  pose proof (unassigned_has_no_column tbl p r (-1) Hnd Hr Hk Hcol) as Hno.
  set (mapped := mapped_profile tbl p) in *.
  assert (Hun : In (eq_index r) (unmapped_equipment tbl mapped)).
  { apply in_index_difference. split; [|assumption].
    unfold table_index. now apply in_map. }
  destruct (all_strings_present (names_at tbl (unmapped_equipment tbl mapped)))
    as [names [Hall Hin]].
  { intros o Ho. apply in_names_at in Ho. destruct Ho as [r' [Hr' [Hi' <-]]].
    apply Hnames; [assumption|]. now apply in_index_difference in Hi'. }
  assert (Hn : In name names).
  { apply Hin. apply in_names_at. now exists r. }
  destruct (check_time_index_same_length p w n Hti Hlen) as [ti [errs [Hrun [Hlti Herrs]]]].
  unfold bind_profile, bind. rewrite Hrun. fold mapped.
  unfold warn_unmapped.
  destruct (unmapped_equipment tbl mapped) as [|u us] eqn:Hu; [contradiction|].
  rewrite Hall. unfold log_record, register, bind, get_net, put_net, ret. simpl.
  eexists _, _. split; [reflexivity|]. split; [|split].
  - simpl. intros t Ht. inversion Ht; subst. exact Hlti.
  - simpl. rewrite !filter_app, Herrs. simpl. now rewrite app_nil_r.
  - now apply occurs_in_warning_text.
Qed.

(** The loop over the dictionary: one warning for each table it brings. *)
Lemma for_each_warns (equipment : string) (tbl : EqTable) (r : EqRow)
  (name : string) (n : nat) :
  NoDup (table_index tbl) ->
  In r tbl ->
  eq_profile_mapping r = Some (-1) ->
  eq_name r = Some name ->
  forall (pp : list (string * option (DataFrame time))) (w : World),
    (forall t, net_time_index (w_net w) = Some t -> List.length t = n) ->
    Forall (fun item =>
              column (snd item) (-1) = None /\
              List.length (df_index (snd item)) = n /\
              (forall r', In r' tbl ->
                          ~ In (eq_index r') (columns (mapped_profile tbl (snd item))) ->
                          eq_name r' <> None)) (bound_tables pp) ->
    exists w' msgs,
      for_each pp (bind_profile equipment tbl) w = (w', Returned tt) /\
      filter is_warning (w_log w') =
      (filter is_warning (w_log w) ++ map (mkLog WARNING) msgs)%list /\
      Forall2 (fun item msg => PyStr.occurs_in name msg /\ PyStr.occurs_in (fst item) msg)
              (bound_tables pp) msgs.
Proof.
  intros Hnd Hr Hk Hname. induction pp as [|[v [p|]] pp IH]; intros w Hti Hall.
  - exists w, []. cbn [for_each map bound_tables flat_map]. rewrite app_nil_r.
    repeat split. constructor.
  - change (bound_tables ((v, Some p) :: pp)) with ((v, p) :: bound_tables pp) in *.
    inversion Hall as [|? ? [Hcol [Hlen Hnames]] Hrest]; subst. cbn [snd] in *.
    destruct (bind_profile_warns equipment v tbl r name (List.length (df_index p)) p w
                Hnd Hr Hk Hname Hti Hcol eq_refl Hnames)
      as [w1 [msg [Hrun [Hti1 [Hlog1 [Hocc Hvar]]]]]].
    destruct (IH w1 Hti1 Hrest) as [w' [msgs [Hloop [Hlog Hmsgs]]]].
    exists w', (msg :: msgs). split; [|split].
    + cbn [for_each]. unfold bind. rewrite Hrun. exact Hloop.
    + rewrite Hlog, Hlog1. cbn [map]. now rewrite <- app_assoc.
    + constructor; [|exact Hmsgs]. split; assumption.
  - change (bound_tables ((v, None) :: pp)) with (bound_tables pp) in *.
    destruct (IH w Hti Hall) as [w' [msgs [Hloop [Hlog Hmsgs]]]].
    exists w', msgs. split; [|split; assumption].
    cbn [for_each]. unfold bind. exact Hloop.
Qed.

(** C3 (amended): in a call that binds any number of tables to a class
    whose rows have distinct indices, an equipment whose profile_mapping
    is -1 gets no column in the mapped table of a table that has no
    column labelled -1.  When no table of the call has such a column, the
    call returns and logs one warning for each table bound, in the order
    of the tables and no other warning; the text of each contains the
    display name of that equipment and the variable of its table.  This
    holds provided the tables bound have the same number of time labels,
    which is also that of the time index already set, if any, and every
    equipment left without a column has a display name. *)
Theorem unassigned_equipment_warned (equipment : string)
  (power_profiles : list (string * option (DataFrame time))) (w : World)
  (tbl : EqTable) (r : EqRow) (name : string) (n : nat) :
  dict_get equipment (net_tables (w_net w)) = Some tbl ->
  NoDup (table_index tbl) ->
  In r tbl ->
  eq_profile_mapping r = Some (-1) ->
  eq_name r = Some name ->
  (forall t, net_time_index (w_net w) = Some t -> List.length t = n) ->
  Forall (fun item =>
            column (snd item) (-1) = None /\
            List.length (df_index (snd item)) = n /\
            (forall r', In r' tbl ->
                        ~ In (eq_index r') (columns (mapped_profile tbl (snd item))) ->
                        eq_name r' <> None)) (bound_tables power_profiles) ->
  exists w' msgs,
    apply_power_profile equipment power_profiles w = (w', Returned tt) /\
    Forall (fun item => column (mapped_profile tbl (snd item)) (eq_index r) = None)
           (bound_tables power_profiles) /\
    filter is_warning (w_log w') =
    (filter is_warning (w_log w) ++ map (mkLog WARNING) msgs)%list /\
    Forall2 (fun item msg => PyStr.occurs_in name msg /\ PyStr.occurs_in (fst item) msg)
            (bound_tables power_profiles) msgs.
Proof.
  intros Hget Hnd Hr Hk Hname Hti Hall.
  rewrite apply_power_profile_run, Hget. cbv zeta.
  set (w0 := mkWorld _ _).
  destruct (for_each_warns equipment tbl r name n Hnd Hr Hk Hname power_profiles w0 Hti Hall)
    as [w' [msgs [Hrun [Hlog Hmsgs]]]].
  exists w', msgs. split; [exact Hrun|]. split; [|split; assumption].
  revert Hall. apply Forall_impl. intros item [Hcol _].
  apply lookup_column_None.
  exact (unassigned_has_no_column tbl (snd item) r (-1) Hnd Hr Hk Hcol).
Qed.

Lemma unassigned_equipment_warned_witness :
  let w := mkWorld (mkNet [("load", partly_assigned_loads)] [] None) [mkLog WARNING "old"] in
  let r := mkRow 1 (Some "Load 1") (Some (-1)) in
  let power_profiles :=
    [("p_mw", Some sample_profile); ("controllable", None); ("q_mvar", Some shifted_profile)] in
  exists w' msgs,
    apply_power_profile "load" power_profiles w = (w', Returned tt) /\
    Forall (fun item =>
              column (mapped_profile partly_assigned_loads (snd item)) (eq_index r) = None)
           (bound_tables power_profiles) /\
    filter is_warning (w_log w') =
    (filter is_warning (w_log w) ++ map (mkLog WARNING) msgs)%list /\
    Forall2 (fun item msg => PyStr.occurs_in "Load 1" msg /\ PyStr.occurs_in (fst item) msg)
            (bound_tables power_profiles) msgs.
Proof.
  intros w r power_profiles.
  apply (unassigned_equipment_warned "load" power_profiles w
           partly_assigned_loads r "Load 1" 2%nat).
  - reflexivity.
  - repeat constructor; simpl; intuition discriminate.
  - simpl. tauto.
  - reflexivity.
  - reflexivity.
  - discriminate.
  - repeat constructor; intros r' [<-|[<-|[]]] _; discriminate.
Defined.

(** Two tables bound in one call: two warnings, one for each variable. *)
Example two_tables_two_warnings :
  w_log (fst (apply_power_profile "load"
                [("p_mw", Some sample_profile); ("q_mvar", Some sample_profile)]
                (mkWorld (mkNet [("load", partly_assigned_loads)] [] None) []))) =
  [ mkLog WARNING "Load 1 equipments have no p_mw profiles";
    mkLog WARNING "Load 1 equipments have no q_mvar profiles" ].
Proof. vm_compute. reflexivity. Qed.

(** ** The time index *)


(** C7: the first table bound sets the time index of the network; a
    second table with three time labels against the two of the first
    makes the call raise ValueError, with no error logged and no
    registration made, where the claim has the mismatch logged and the
    binding go on. *)
Theorem time_index_mismatch_raises :
  let w1 := fst (apply_power_profile "load" [("p_mw", Some sample_profile)] sample_world) in
  let run := apply_power_profile "load" [("q_mvar", Some longer_profile)] w1 in
  net_time_index (w_net w1) = Some (df_index sample_profile) /\
  snd run = Raised ValueError /\
  filter is_error (w_log (fst run)) = [] /\
  registrations "load" (w_net (fst run)) = [].
Proof.
  vm_compute. repeat split; reflexivity.
Qed.

(** ** The binder on small inputs *)

Example mapped_profile_broadcasts :
  mapped_profile sample_loads sample_profile =
  mkDF [time_of 0 0 0; time_of 6 0 0]
       [ (3, [1 # 1; 2 # 1]%Q); (7, [1 # 1; 2 # 1]%Q); (5, [3 # 2; 1 # 1]%Q) ].
Proof. reflexivity. Qed.

(** Without any profile identifier in the table, columns are matched to
    equipment indices by label. *)
Example mapped_profile_falls_back :
  profile_mapping unmapped_loads = [] /\
  mapped_profile unmapped_loads sample_profile =
  mkDF [time_of 0 0 0; time_of 6 0 0]
       [ (1, [1 # 1; 2 # 1]%Q); (2, [3 # 2; 1 # 1]%Q) ].
Proof. split; reflexivity. Qed.

Example unmapped_are_warned :
  w_log (fst (apply_power_profile "load" [("p_mw", Some sample_profile)]
                (mkWorld (mkNet [("load", partly_assigned_loads)] [] None) []))) =
  [ mkLog WARNING "Load 1 equipments have no p_mw profiles" ].
Proof. reflexivity. Qed.

(** An equipment without a display name among those left without a
    column stops the call: [str.join] takes strings only. *)
Example unnamed_equipment_raises :
  snd (apply_power_profile "load" [("p_mw", Some sample_profile)]
         (mkWorld (mkNet [("load", unnamed_load)] [] None) [])) = Raised TypeError.
Proof. reflexivity. Qed.

(** A second table with as many labels as the first, but other ones:
    one error is logged and the registration is made. *)
Example same_length_mismatch_logged :
  let w1 := fst (apply_power_profile "load" [("p_mw", Some sample_profile)] sample_world) in
  let run := apply_power_profile "load" [("q_mvar", Some shifted_profile)] w1 in
  snd run = Returned tt /\
  w_log (fst run) = [ mkLog ERROR "Simulation Profiles have not the same timestamps" ] /\
  map variable (registrations "load" (w_net (fst run))) = ["q_mvar"].
Proof. vm_compute. repeat split; reflexivity. Qed.

Example class_without_table_raises :
  snd (apply_power_profile "sgen" sample_profiles sample_world) = Raised KeyError.
Proof. reflexivity. Qed.

(** ** The network loader *)

Lemma in_names_In (c : string) (l : list string) : in_names c l = true <-> In c l.
Proof.
  unfold in_names. rewrite existsb_exists. split.
  - intros [x [Hx E]]. apply String.eqb_eq in E. now subst.
  - intros H. exists c. split; [assumption | apply String.eqb_refl].
Qed.

Lemma dict_get_In {V} (k : string) (d : list (string * V)) (v : V) :
  dict_get k d = Some v -> In (k, v) d.
Proof.
  induction d as [|[k' v'] d IH]; simpl; [discriminate|].
  destruct (String.eqb k' k) eqn:E.
  - apply String.eqb_eq in E. intros H. inversion H. subst. now left.
  - intros H. right. now apply IH.
Qed.

Lemma map_outcome_Forall2 {A B} (f : A -> outcome B) (l : list A) :
  forall l', map_outcome f l = Returned l' -> Forall2 (fun x y => f x = Returned y) l l'.
Proof.
  induction l as [|x l IH]; simpl; intros l' H.
  - inversion H. constructor.
  - destruct (f x) as [y|e] eqn:Hx; simpl in H; [|discriminate].
    destruct (map_outcome f l) as [ys|e]; simpl in H; [|discriminate].
    inversion H. subst. constructor; [assumption | now apply IH].
Qed.

Lemma Forall2_map_r {A B} (g : A -> B) (l : list A) :
  Forall2 (fun x y => y = g x) l (map g l).
Proof.
  induction l; simpl; constructor; auto.
Qed.

Lemma Forall2_chain {A} (R1 R2 : A -> A -> Prop) (l1 l2 l3 : list A) :
  Forall2 R1 l1 l2 -> Forall2 R2 l2 l3 ->
  Forall2 (fun x z => exists y, R1 x y /\ R2 y z) l1 l3.
Proof.
  intros H. revert l3. induction H as [|x y l1 l2 Hxy H IH]; intros l3 H23.
  - inversion H23. constructor.
  - inversion H23; subst. constructor; [now exists y | now apply IH].
Qed.

Lemma Forall2_weaken {A B} (R R' : A -> B -> Prop) (l : list A) (l' : list B) :
  (forall x y, R x y -> R' x y) -> Forall2 R l l' -> Forall2 R' l l'.
Proof.
  intros HR H. induction H; constructor; auto.
Qed.

Lemma Forall2_right {A B} (R : A -> B -> Prop) (P : B -> Prop) (l : list A) (l' : list B) :
  (forall x y, R x y -> P y) -> Forall2 R l l' -> Forall P l'.
Proof.
  intros HR H. induction H; constructor; eauto.
Qed.

Lemma rows_related_map (g : string * cell -> string * cell) (t : Table) :
  rows_related (fun f f' => f' = g f) t (map (fun r => (fst r, map g (snd r))) t).
Proof.
  unfold rows_related. induction t as [|r t IH]; simpl; constructor; [|assumption].
  split; [reflexivity | apply Forall2_map_r].
Qed.

Lemma rows_related_chain (R1 R2 : string * cell -> string * cell -> Prop) (t1 t2 t3 : Table) :
  rows_related R1 t1 t2 -> rows_related R2 t2 t3 ->
  rows_related (fun x z => exists y, R1 x y /\ R2 y z) t1 t3.
Proof.
  unfold rows_related. intros H12 H23.
  pose proof (Forall2_chain _ _ _ _ _ H12 H23) as H.
  revert H. apply Forall2_weaken.
  intros r r'' [r' [[E1 F1] [E2 F2]]]. split; [congruence|].
  now apply (Forall2_chain _ _ _ _ _ F1 F2).
Qed.

Lemma rows_related_weaken (R R' : string * cell -> string * cell -> Prop) (t t' : Table) :
  (forall f f', R f f' -> R' f f') -> rows_related R t t' -> rows_related R' t t'.
Proof.
  unfold rows_related. intros HR. apply Forall2_weaken.
  intros r r' [E F]. split; [assumption|]. revert F. now apply Forall2_weaken.
Qed.

Lemma rows_related_right (R : string * cell -> string * cell -> Prop)
  (P : string * cell -> Prop) (t t' : Table) :
  (forall f f', R f f' -> P f') -> rows_related R t t' ->
  Forall (fun r => Forall P (snd r)) t'.
Proof.
  unfold rows_related. intros HR. apply Forall2_right.
  intros r r' [_ F]. revert F. now apply Forall2_right.
Qed.

Lemma defaults_stable : forallb default_stable default_values = true.
Proof. vm_compute. reflexivity. Qed.

Lemma int_columns_not_bool :
  forallb (fun c => negb (in_names c bool_column)) int_column = true.
Proof. vm_compute. reflexivity. Qed.

Section LoaderProperties.

Variable py_int : string -> option Z.
Variable py_float : string -> option Q.

Lemma rows_related_map_outcome (g : string * cell -> outcome (string * cell))
  (h : nat * Fields -> outcome (nat * Fields)) (t t' : Table) :
  (forall r r', h r = Returned r' ->
                fst r' = fst r /\ map_outcome g (snd r) = Returned (snd r')) ->
  map_outcome h t = Returned t' ->
  rows_related (fun f f' => g f = Returned f') t t'.
Proof.
  intros Hh H. apply map_outcome_Forall2 in H. unfold rows_related.
  revert H. apply Forall2_weaken. intros r r' Hr.
  destruct (Hh r r' Hr) as [E F]. split; [assumption|].
  now apply map_outcome_Forall2.
Qed.

Lemma cast_int_related (t t' : Table) :
  cast_int py_int t = Returned t' ->
  rows_related (fun f f' => cast_int_field py_int f = Returned f') t t'.
Proof.
  unfold cast_int. apply rows_related_map_outcome.
  intros [i fs0] r' H. simpl in *.
  destruct (map_outcome (cast_int_field py_int) fs0) as [fs|e];
    simpl in H; [|discriminate].
  inversion H. now subst.
Qed.

Lemma apply_coords_related (t t' : Table) :
  apply_coords py_float t = Returned t' ->
  rows_related (fun f f' => apply_coords_field py_float f = Returned f') t t'.
Proof.
  unfold apply_coords. apply rows_related_map_outcome.
  intros [i fs0] r' H. simpl in *.
  destruct (in_names "coords" (map fst fs0)); [|discriminate].
  destruct (map_outcome (apply_coords_field py_float) fs0) as [fs|e];
    simpl in H; [|discriminate].
  inversion H. now subst.
Qed.

Lemma rows_related_refl (t : Table) : rows_related (fun f f' => f' = f) t t.
Proof.
  unfold rows_related. induction t as [|[i fs] t IH]; constructor; [|assumption].
  split; [reflexivity|]. simpl. induction fs; constructor; auto.
Qed.

Lemma class_step_related (eq_name : string) (t t' : Table) :
  class_step py_float eq_name t = Returned t' ->
  rows_related (class_field_rel py_float eq_name) t t'.
Proof.
  unfold class_step, class_field_rel.
  destruct (String.eqb eq_name "bus").
  { intros H. inversion H. apply rows_related_map. }
  destruct (String.eqb eq_name "load").
  { intros H. inversion H. apply rows_related_map. }
  destruct (String.eqb eq_name "line_geodata").
  { apply apply_coords_related. }
  intros H. inversion H. subst. apply rows_related_refl.
Qed.

Lemma convert_sheet_related (eq_name : string) (src t : Table) :
  convert_sheet py_int py_float eq_name src = Returned t ->
  rows_related (field_converted py_int py_float eq_name) src t.
Proof.
  unfold convert_sheet. intros H.
  destruct (class_step py_float eq_name (fillna default_values src)) as [t1|e] eqn:H1;
    simpl in H; [|discriminate].
  destruct (cast_int py_int t1) as [t2|e] eqn:H2; simpl in H; [|discriminate].
  inversion H; subst t; clear H.
  pose proof (rows_related_map (fill_cell default_values) src) as R0.
  fold (fillna default_values src) in R0.
  pose proof (class_step_related _ _ _ H1) as R1.
  pose proof (cast_int_related _ _ H2) as R2.
  pose proof (rows_related_map cast_bool_field t2) as R3.
  fold (cast_bool t2) in R3.
  pose proof (rows_related_map nan_to_none (cast_bool t2)) as R4.
  fold (replace_nan (cast_bool t2)) in R4.
  pose proof (rows_related_chain _ _ _ _ _ R0 R1) as R01.
  pose proof (rows_related_chain _ _ _ _ _ R01 R2) as R012.
  pose proof (rows_related_chain _ _ _ _ _ R012 R3) as R0123.
  pose proof (rows_related_chain _ _ _ _ _ R0123 R4) as R.
  revert R. apply rows_related_weaken.
  intros f f' [f4 [[f3 [[f2 [[f1 [E1 E2]] E3]] E4]] E5]].
  exists f1, f2, f3. subst. repeat split; assumption.
Qed.

Lemma astype_int64_is_int64 (c c' : cell) :
  astype_int64 py_int c = Returned c' -> is_int64 c'.
Proof.
  unfold is_int64. destruct c as [| |z|q|b|s|pts]; simpl; intros H; try discriminate.
  - destruct (in_int64 z) eqn:E; [|discriminate]. inversion H. now exists z.
  - inversion H. destruct (in_int64 (trunc q)) eqn:E; eexists; split;
      try reflexivity; assumption.
  - inversion H. destruct b; eexists; split; reflexivity.
  - destruct (py_int s) as [z|]; [|discriminate].
    destruct (in_int64 z) eqn:E; [|discriminate]. inversion H. now exists z.
Qed.

Lemma fill_cell_name (d : list (string * cell)) (f : string * cell) :
  fst (fill_cell d f) = fst f.
Proof.
  unfold fill_cell. destruct (is_null (snd f)); [|reflexivity].
  destruct (dict_get (fst f) d); reflexivity.
Qed.

Lemma cast_int_field_name (f f' : string * cell) :
  cast_int_field py_int f = Returned f' -> fst f' = fst f.
Proof.
  unfold cast_int_field. destruct (in_names (fst f) int_column).
  - destruct (astype_int64 py_int (snd f)); simpl; intros H; inversion H. reflexivity.
  - intros H. inversion H. reflexivity.
Qed.

Lemma cast_bool_field_name (f : string * cell) : fst (cast_bool_field f) = fst f.
Proof.
  unfold cast_bool_field. destruct (in_names (fst f) bool_column); reflexivity.
Qed.

Lemma nan_to_none_name (f : string * cell) : fst (nan_to_none f) = fst f.
Proof.
  unfold nan_to_none. destruct (snd f); reflexivity.
Qed.

Lemma apply_coords_field_name (f f' : string * cell) :
  apply_coords_field py_float f = Returned f' -> fst f' = fst f.
Proof.
  unfold apply_coords_field. destruct (String.eqb (fst f) "coords").
  - destruct (parse_coords py_float (snd f)); simpl; intros H; inversion H. reflexivity.
  - intros H. inversion H. reflexivity.
Qed.

Lemma class_field_rel_name (eq_name : string) (f f' : string * cell) :
  class_field_rel py_float eq_name f f' -> fst f' = fst f.
Proof.
  unfold class_field_rel.
  destruct (String.eqb eq_name "bus"); [intros ->; apply fill_cell_name|].
  destruct (String.eqb eq_name "load"); [intros ->; apply fill_cell_name|].
  destruct (String.eqb eq_name "line_geodata"); [apply apply_coords_field_name|].
  now intros ->.
Qed.

Lemma field_converted_name (eq_name : string) (f f' : string * cell) :
  field_converted py_int py_float eq_name f f' -> fst f' = fst f.
Proof.
  intros [f1 [f2 [f3 [E1 [E2 [E3 E4]]]]]]. subst f' f1.
  rewrite nan_to_none_name, cast_bool_field_name.
  rewrite (cast_int_field_name _ _ E3), (class_field_rel_name _ _ _ E2).
  apply fill_cell_name.
Qed.

(** After the conversion a field of an integer column holds a 64-bit
    integer and a field of a boolean column a boolean. *)
Lemma field_converted_typed (eq_name : string) (f f' : string * cell) :
  field_converted py_int py_float eq_name f f' -> typed_field f'.
Proof.
  intros [f1 [f2 [f3 [E1 [E2 [E3 E4]]]]]].
  pose proof (cast_int_field_name _ _ E3) as N3.
  assert (N : fst f' = fst f3)
    by (subst f'; now rewrite nan_to_none_name, cast_bool_field_name).
  unfold typed_field. rewrite N. split; intros Hc.
  - assert (Hb : in_names (fst f3) bool_column = false).
    { pose proof int_columns_not_bool as Hd. rewrite forallb_forall in Hd.
      apply negb_true_iff. now apply Hd. }
    assert (H3 : is_int64 (snd f3)).
    { unfold cast_int_field in E3. rewrite <- N3 in E3.
      apply in_names_In in Hc. rewrite Hc in E3.
      destruct (astype_int64 py_int (snd f2)) as [c|e] eqn:Ec; simpl in E3; [|discriminate].
      inversion E3. simpl. now apply (astype_int64_is_int64 (snd f2)). }
    subst f'. unfold cast_bool_field. rewrite Hb.
    destruct H3 as [z [Hz Hr]]. unfold nan_to_none. rewrite Hz. now exists z.
  - apply in_names_In in Hc. subst f'. unfold cast_bool_field. rewrite Hc.
    unfold nan_to_none. simpl.
    destruct (snd f3); simpl; eexists; reflexivity.
Qed.

Lemma default_entry_kept (eq_name c : string) (d : cell) (f' : string * cell) :
  dict_get c default_values = Some d ->
  (exists f2 f3,
     class_field_rel py_float eq_name (c, d) f2 /\
     cast_int_field py_int f2 = Returned f3 /\
     f' = nan_to_none (cast_bool_field f3)) ->
  snd f' = d.
Proof.
  intros Hd [f2 [f3 [E2 [E3 E4]]]].
  apply dict_get_In in Hd.
  pose proof defaults_stable as Hs. rewrite forallb_forall in Hs.
  specialize (Hs (c, d) Hd). unfold default_stable in Hs. cbn [fst snd] in Hs.
  repeat (apply andb_true_iff in Hs; destruct Hs as [Hs ?]).
  apply negb_true_iff in Hs.
  repeat match goal with H : negb _ = true |- _ => apply negb_true_iff in H end.
  assert (F2 : f2 = (c, d)).
  { unfold class_field_rel in E2.
    destruct (String.eqb eq_name "bus");
      [subst f2; unfold fill_cell; simpl; now rewrite Hs|].
    destruct (String.eqb eq_name "load");
      [subst f2; unfold fill_cell; simpl; now rewrite Hs|].
    destruct (String.eqb eq_name "line_geodata"); [|assumption].
    unfold apply_coords_field in E2. cbn [fst snd] in E2.
    match goal with H : String.eqb c "coords" = false |- _ => rewrite H in E2 end.
    now inversion E2. }
  subst f2.
  assert (F3 : f3 = (c, d)).
  { unfold cast_int_field in E3. cbn [fst snd] in E3.
    destruct (in_names c int_column); [|now inversion E3].
    destruct d; try discriminate. cbn [astype_int64] in E3.
    match goal with H : in_int64 _ = true |- _ => rewrite H in E3 end.
    cbn [and_then] in E3. now inversion E3. }
  subst f3 f'. unfold cast_bool_field. cbn [fst snd].
  destruct (in_names c bool_column).
  - destruct d; try discriminate. reflexivity.
  - unfold nan_to_none. cbn [fst snd]. destruct d; try reflexivity. discriminate.
Qed.

(** After the conversion a field that had no value holds the default of
    its column, where there is one. *)
Lemma field_converted_defaulted (eq_name : string) (f f' : string * cell) :
  field_converted py_int py_float eq_name f f' -> field_defaulted eq_name f f'.
Proof.
  intros Hconv. split; [now apply (field_converted_name eq_name)|].
  destruct Hconv as [f1 [f2 [f3 [E1 [E2 [E3 E4]]]]]].
  destruct f as [c v]. cbn [fst snd]. intros Hnull d Hdef.
  unfold default_of in Hdef. unfold fill_cell in E1. cbn [fst snd] in E1.
  rewrite Hnull in E1.
  destruct (dict_get c default_values) as [d0|] eqn:Hd.
  - inversion Hdef; subst d0. subst f1.
    apply (default_entry_kept eq_name c d f' Hd). now exists f2, f3.
  - subst f1. destruct (String.eqb c "type") eqn:Hc; [|discriminate].
    apply String.eqb_eq in Hc. subst c.
    assert (F2 : f2 = ("type", d)).
    { unfold class_field_rel in E2.
      destruct (String.eqb eq_name "bus").
      - inversion Hdef. subst f2. unfold fill_cell. cbn. now rewrite Hnull.
      - destruct (String.eqb eq_name "load"); [|discriminate].
        inversion Hdef. subst f2. unfold fill_cell. cbn. now rewrite Hnull. }
    subst f2. unfold cast_int_field in E3. simpl in E3. inversion E3. subst f3 f'.
    unfold cast_bool_field, nan_to_none. simpl.
    destruct (String.eqb eq_name "bus"); [inversion Hdef; reflexivity|].
    destruct (String.eqb eq_name "load"); [inversion Hdef; reflexivity | discriminate].
Qed.

Lemma convert_sheet_post (eq_name : string) (src t : Table) :
  convert_sheet py_int py_float eq_name src = Returned t ->
  typed_table t /\ defaults_applied eq_name src t.
Proof.
  intros H. apply convert_sheet_related in H. split.
  - unfold typed_table. revert H. apply rows_related_right.
    intros f f'. apply field_converted_typed.
  - unfold defaults_applied. revert H. apply rows_related_weaken.
    intros f f'. apply field_converted_defaulted.
Qed.

(** C4: when the load returns, every sheet that still has rows after
    cleaning has its table in the network; in that table every field of a
    column of the integer set holds a 64-bit integer and every field of a
    column of the boolean set a boolean, and every field that had no value
    in the sheet and whose column has a default holds that default (the
    entry of the default table, "b" for the type of a bus, "wye" for the
    type of a load). *)
Theorem loader_postcondition (workbook : list (string * RawSheet))
  (net : list (string * Table)) (eq_name : string) (sh : RawSheet) (src : Table) :
  load_net_from_xlsx py_int py_float workbook = Returned net ->
  In (eq_name, sh) workbook ->
  clean_sheet sh = Returned src ->
  src <> [] ->
  exists t,
    In (eq_name, t) net /\ typed_table t /\ defaults_applied eq_name src t.
Proof.
  revert net. induction workbook as [|[name0 sh0] wb IH]; intros net Hload Hin Hclean Hne;
    [contradiction|].
  simpl in Hload.
  destruct (clean_sheet sh0) as [t0|e] eqn:Hc0; simpl in Hload; [|discriminate].
  destruct Hin as [E|Hin].
  - inversion E; subst name0 sh0. rewrite Hclean in Hc0. inversion Hc0; subst t0.
    destruct src as [|r src']; [contradiction|].
    destruct (convert_sheet py_int py_float eq_name (r :: src')) as [t|e] eqn:Hconv;
      simpl in Hload; [|discriminate].
    destruct (load_net_from_xlsx py_int py_float wb) as [net'|e]; simpl in Hload;
      [|discriminate].
    inversion Hload; subst net. exists t. split; [now left|].
    now apply convert_sheet_post.
  - destruct t0 as [|r0 t0'].
    + now apply IH.
    + destruct (convert_sheet py_int py_float name0 (r0 :: t0')) as [t|e];
        simpl in Hload; [|discriminate].
      destruct (load_net_from_xlsx py_int py_float wb) as [net'|e]; simpl in Hload;
        [|discriminate].
      inversion Hload; subst net.
      destruct (IH net' eq_refl Hin Hclean Hne) as [t' [Ht' Hpost]].
      exists t'. split; [now right | assumption].
Qed.

End LoaderProperties.

Example sample_workbook_loaded :
  load_net_from_xlsx (fun _ => None) (fun _ => None) sample_workbook =
  Returned
    [ ("bus",
       [ (0%nat, [("name", Str "Bus 0"); ("vn_kv", Float (4 # 10)); ("type", Str "b");
                  ("in_service", Bool true)]);
         (1%nat, [("name", Str "Bus 1"); ("vn_kv", Float (4 # 10)); ("type", Str "n");
                  ("in_service", Bool false)]) ]);
      ("load",
       [ (0%nat, [("name", Str "Load 0"); ("bus", Int 1); ("p_mw", Float 0);
                  ("profile_mapping", Int (-1)); ("type", Str "wye");
                  ("in_service", Bool true)]);
         (2%nat, [("name", Str "Load 2"); ("bus", Int 0); ("p_mw", Float (1 # 2));
                  ("profile_mapping", Int 3); ("type", Str "delta");
                  ("in_service", Bool false)]) ]) ].
Proof. vm_compute. reflexivity. Qed.

Lemma loader_postcondition_witness :
  let net := returned_or [] (load_net_from_xlsx (fun _ => None) (fun _ => None)
                               sample_workbook) in
  let src := returned_or [] (clean_sheet load_sheet) in
  load_net_from_xlsx (fun _ => None) (fun _ => None) sample_workbook = Returned net /\
  In ("load", load_sheet) sample_workbook /\
  clean_sheet load_sheet = Returned src /\
  src <> [] /\
  exists t, In ("load", t) net /\ typed_table t /\ defaults_applied "load" src t.
Proof.
  intros net src.
  assert (H1 : load_net_from_xlsx (fun _ => None) (fun _ => None) sample_workbook =
               Returned net) by (vm_compute; reflexivity).
  assert (H2 : In ("load", load_sheet) sample_workbook) by (simpl; tauto).
  assert (H3 : clean_sheet load_sheet = Returned src) by (vm_compute; reflexivity).
  assert (H4 : src <> []) by (vm_compute; discriminate).
  split; [exact H1|]. split; [exact H2|]. split; [exact H3|]. split; [exact H4|].
  exact (loader_postcondition (fun _ => None) (fun _ => None) sample_workbook net
           "load" load_sheet src H1 H2 H3 H4).
Defined.

(** The loaded load table as the binder reads it. *)
Example loaded_loads_for_binder :
  match dict_get "load" (returned_or [] (load_net_from_xlsx (fun _ => None) (fun _ => None)
                                           sample_workbook)) with
  | Some t => map eq_row_of t
  | None => []
  end =
  [ mkRow 0 (Some "Load 0") (Some (-1)); mkRow 2 (Some "Load 2") (Some 3) ].
Proof. vm_compute. reflexivity. Qed.

Example missing_bus_fails_load :
  load_net_from_xlsx (fun _ => None) (fun _ => None)
    [ ("load", mkSheet ["idx"; "name"; "bus"] [ (0%nat, [Int 0; Str "Load 0"; NaN]) ]) ] =
  Raised ValueError.
Proof. reflexivity. Qed.

(** ** The common grid *)

Lemma py_min_min (a b : Z) : py_min a b = Z.min a b.
Proof.
  unfold py_min. destruct (b <? a) eqn:E.
  - apply Z.ltb_lt in E. lia.
  - apply Z.ltb_ge in E. lia.
Qed.

Lemma py_max_max (a b : Z) : py_max a b = Z.max a b.
Proof.
  unfold py_max. destruct (b >? a) eqn:E.
  - apply Z.gtb_lt in E. lia.
  - rewrite Z.gtb_ltb in E. apply Z.ltb_ge in E. lia.
Qed.

Lemma fold_min_shift (l : list Z) : forall p x,
  Z.min p (fold_left Z.min l x) = fold_left Z.min l (Z.min p x).
Proof.
  induction l as [|y l IH]; intros p x; simpl; [reflexivity|].
  rewrite IH. f_equal. lia.
Qed.

(** Taking the least gap of a sheet into the running period is taking each
    of its gaps in turn; a sheet without a gap changes nothing. *)
Lemma py_min_nat_series (p : Z) (gaps : list Z) :
  py_min_nat p (series_min gaps) = fold_left Z.min gaps p.
Proof.
  destruct gaps as [|g gaps]; simpl; [reflexivity|].
  rewrite py_min_min. apply fold_min_shift.
Qed.

Lemma update_bounds_period (b : GridBounds) (sh : ProfileSheet) :
  period (update_bounds b sh) =
  fold_left Z.min (if ps_empty sh then [] else diff (ps_index sh)) (period b).
Proof.
  unfold update_bounds. destruct (ps_empty sh); simpl; [reflexivity|].
  apply py_min_nat_series.
Qed.

Lemma update_bounds_start (b : GridBounds) (sh : ProfileSheet) :
  start_time (update_bounds b sh) =
  fold_left Z.min (if ps_empty sh then [] else [hd 0 (ps_index sh)]) (start_time b).
Proof.
  unfold update_bounds. destruct (ps_empty sh); simpl; [reflexivity|].
  apply py_min_min.
Qed.

Lemma update_bounds_end (b : GridBounds) (sh : ProfileSheet) :
  end_time (update_bounds b sh) =
  fold_left Z.max (if ps_empty sh then [] else [last (ps_index sh) 0]) (end_time b).
Proof.
  unfold update_bounds. destruct (ps_empty sh); simpl; [reflexivity|].
  apply py_max_max.
Qed.

(** The first loop, from any bounds: the period is the least of the
    bound it starts from and all gaps, the start the least of its bound
    and all first samples, the end the greatest of its bound and all last
    samples. *)
Lemma bounds_from (workbook : list (string * ProfileSheet)) :
  forall b : GridBounds,
    let b' := fold_left (fun b entry => update_bounds b (snd entry)) workbook b in
    period b' = fold_left Z.min (all_gaps workbook) (period b) /\
    start_time b' = fold_left Z.min (first_samples workbook) (start_time b) /\
    end_time b' = fold_left Z.max (last_samples workbook) (end_time b).
Proof.
  induction workbook as [|[name sh] wb IH]; intros b; cbn [fold_left].
  - repeat split.
  - destruct (IH (update_bounds b sh)) as [Hp [Hs He]]. cbv zeta.
    unfold all_gaps, first_samples, last_samples in *. cbn [flat_map snd].
    rewrite !fold_left_app.
    rewrite <- update_bounds_period, <- update_bounds_start, <- update_bounds_end.
    repeat split; assumption.
Qed.

Lemma common_bounds_period (workbook : list (string * ProfileSheet)) :
  period (common_bounds workbook) = fold_left Z.min (all_gaps workbook) (timedelta_days 1).
Proof.
  unfold common_bounds. apply (bounds_from workbook initial_bounds).
Qed.

Lemma all_gaps_app (wb1 wb2 : list (string * ProfileSheet)) :
  all_gaps (wb1 ++ wb2) = (all_gaps wb1 ++ all_gaps wb2)%list.
Proof.
  unfold all_gaps. apply flat_map_app.
Qed.

Lemma diff_within_day (l : list Z) :
  Forall is_time l -> Forall (fun g => g < timedelta_days 1) (diff l).
Proof.
  induction l as [|a [|b l] IH]; intros H; simpl; try constructor.
  - inversion H as [|? ? Ha H']; subst. inversion H' as [|? ? Hb _]; subst.
    unfold is_time in *. lia.
  - apply IH. now inversion H.
Qed.

Lemma all_gaps_within_day (workbook : list (string * ProfileSheet)) :
  times_of_day workbook -> Forall (fun g => g < timedelta_days 1) (all_gaps workbook).
Proof.
  unfold times_of_day, all_gaps. induction workbook as [|[name sh] wb IH]; intros H;
    simpl; [constructor|].
  inversion H; subst. apply Forall_app. split; [|now apply IH].
  destruct (ps_empty sh); [constructor | now apply diff_within_day].
Qed.

Lemma fold_min_below (d : Z) (gaps : list Z) :
  Forall (fun g => g < d) gaps ->
  fold_left Z.min gaps d =
  match series_min gaps with
  | Some g => g
  | None => d
  end.
Proof.
  destruct gaps as [|g gaps]; simpl; intros H; [reflexivity|].
  inversion H; subst. f_equal. lia.
Qed.

(** ** The period against the gaps between samples *)

Lemma fold_min_le (l : list Z) : forall x y,
  In y (x :: l) -> fold_left Z.min l x <= y.
Proof.
  induction l as [|z l IH]; intros x y Hy; simpl in *.
  - destruct Hy as [->|[]]. lia.
  - destruct Hy as [->|[->|Hy]].
    + specialize (IH (Z.min y z) (Z.min y z) (or_introl eq_refl)). lia.
    + specialize (IH (Z.min x y) (Z.min x y) (or_introl eq_refl)). lia.
    + apply IH. now right.
Qed.

(** The common period is the least gap between consecutive samples over
    all sheets, or one day when no sheet shows a gap. *)
Lemma common_period_least_gap (workbook : list (string * ProfileSheet)) :
  times_of_day workbook ->
  period (common_bounds workbook) =
  match series_min (all_gaps workbook) with
  | Some g => g
  | None => timedelta_days 1
  end.
Proof.
  intros H. rewrite common_bounds_period.
  apply fold_min_below. now apply all_gaps_within_day.
Qed.

Lemma in_diff (l : list Z) (g : Z) :
  In g (diff l) <->
  exists i a b, nth_error l i = Some a /\ nth_error l (S i) = Some b /\ g = b - a.
Proof.
  induction l as [|x [|y l] IH].
  - simpl. split; [intros [] | intros [i [a [b [Ha _]]]]; destruct i; discriminate].
  - simpl. split; [intros []|]. intros [i [a [b [_ [Hb _]]]]].
    destruct i as [|i]; [discriminate | destruct i; discriminate].
  - change (diff (x :: y :: l)) with ((y - x) :: diff (y :: l)). split.
    + intros [<-|Hg].
      * exists O, x, y. repeat split.
      * apply IH in Hg. destruct Hg as [i [a [b [Ha [Hb ->]]]]].
        exists (S i), a, b. repeat split; assumption.
    + intros [i [a [b [Ha [Hb ->]]]]]. destruct i as [|i].
      * left. simpl in Ha, Hb. inversion Ha. inversion Hb. reflexivity.
      * right. apply IH. exists i, a, b. repeat split; assumption.
Qed.

Lemma ps_empty_has_data (sh : ProfileSheet) : ps_empty sh = false <-> has_data sh.
Proof.
  unfold ps_empty, has_data.
  destruct (ps_index sh) as [|t ts]; destruct (ps_columns sh) as [|c cs]; split.
  - discriminate.
  - intros [H _]. now elim H.
  - discriminate.
  - intros [H _]. now elim H.
  - discriminate.
  - intros [_ H]. now elim H.
  - intros _. split; discriminate.
  - reflexivity.
Qed.

(** The differences the loop takes are the inter-sample gaps. *)
Lemma in_all_gaps (workbook : list (string * ProfileSheet)) (g : Z) :
  In g (all_gaps workbook) <-> inter_sample_gap workbook g.
Proof.
  unfold all_gaps, inter_sample_gap. rewrite in_flat_map. split.
  - intros [[name sh] [Hin Hg]]. cbn [snd] in Hg.
    destruct (ps_empty sh) eqn:He; [contradiction|].
    apply in_diff in Hg. destruct Hg as [i [a [b [Ha [Hb ->]]]]].
    exists name, sh, i, a, b. repeat split; try assumption;
      now apply ps_empty_has_data.
  - intros [name [sh [i [a [b [Hin [Hdata [Ha [Hb ->]]]]]]]]].
    exists (name, sh). split; [assumption|]. cbn [snd].
    apply ps_empty_has_data in Hdata. rewrite Hdata.
    apply in_diff. exists i, a, b. repeat split; assumption.
Qed.

Lemma fold_min_in (l : list Z) : forall x, In (fold_left Z.min l x) (x :: l).
Proof.
  induction l as [|y l IH]; intros x; simpl; [now left|].
  destruct (IH (Z.min x y)) as [E|Hin]; [|right; now right].
  rewrite <- E. destruct (Z.min_spec x y) as [[_ ->]|[_ ->]]; [now left | right; now left].
Qed.

Lemma multi_sample_has_gap (workbook : list (string * ProfileSheet)) (name : string)
  (sh : ProfileSheet) :
  In (name, sh) workbook -> multi_sample sh -> exists g, inter_sample_gap workbook g.
Proof.
  intros Hin [Hdata Hlen].
  destruct (ps_index sh) as [|a [|b l]] eqn:Hidx; simpl in Hlen; try lia.
  exists (b - a), name, sh, O, a, b. rewrite Hidx.
  split; [exact Hin|]. split; [exact Hdata|]. repeat split.
Qed.

(** With times of day for row labels, the first loop leaves as period the
    minimum inter-sample gap, or the day it starts from when no sheet has
    more than one sample. *)
Lemma period_as_expected (workbook : list (string * ProfileSheet)) :
  times_of_day workbook ->
  expected_period workbook (period (common_bounds workbook)).
Proof.
  intros Htimes. rewrite (common_period_least_gap workbook Htimes).
  destruct (all_gaps workbook) as [|g gs] eqn:Hgaps.
  - right. split; [|reflexivity]. intros name sh Hin Hmulti.
    destruct (multi_sample_has_gap workbook name sh Hin Hmulti) as [g Hg].
    apply in_all_gaps in Hg. rewrite Hgaps in Hg. contradiction.
  - left. cbn [series_min]. split.
    + apply in_all_gaps. rewrite Hgaps. apply fold_min_in.
    + intros g' Hg'. apply in_all_gaps in Hg'. rewrite Hgaps in Hg'.
      now apply fold_min_le.
Qed.

(** C6: a sheet with exactly one sample row, wherever it stands in the
    workbook, leaves the common period what it is without that sheet: the
    minimum inter-sample gap of the remaining sheets, that is a gap
    between two consecutive samples of one of them that no such gap is
    below, or the initial bound of one day when none of them has more
    than one sample. *)
Theorem single_sample_no_constraint (wb1 wb2 : list (string * ProfileSheet))
  (name : string) (sh : ProfileSheet) :
  List.length (ps_index sh) = 1%nat ->
  times_of_day (wb1 ++ wb2) ->
  period (common_bounds (wb1 ++ (name, sh) :: wb2)) = period (common_bounds (wb1 ++ wb2)) /\
  expected_period (wb1 ++ wb2) (period (common_bounds (wb1 ++ (name, sh) :: wb2))).
Proof.
  intros Hone Htimes.
  assert (Hgaps : all_gaps (wb1 ++ (name, sh) :: wb2) = all_gaps (wb1 ++ wb2)).
  { rewrite !all_gaps_app. f_equal. unfold all_gaps. cbn [flat_map snd].
    destruct (ps_index sh) as [|t [|t' l]] eqn:Hidx; try discriminate.
    destruct (ps_empty sh); reflexivity. }
  assert (Hsame : period (common_bounds (wb1 ++ (name, sh) :: wb2)) =
                  period (common_bounds (wb1 ++ wb2))).
  { now rewrite !common_bounds_period, Hgaps. }
  split; [exact Hsame|]. rewrite Hsame. now apply period_as_expected.
Qed.

Lemma single_sample_no_constraint_witness :
  List.length (ps_index single_sheet) = 1%nat /\
  times_of_day ([("load", hourly_sheet)] ++ [("sgen", quarter_sheet)]) /\
  period (common_bounds ([("load", hourly_sheet)] ++ ("gen", single_sheet)
                           :: [("sgen", quarter_sheet)])) =
  period (common_bounds ([("load", hourly_sheet)] ++ [("sgen", quarter_sheet)])) /\
  expected_period ([("load", hourly_sheet)] ++ [("sgen", quarter_sheet)])
    (period (common_bounds ([("load", hourly_sheet)] ++ ("gen", single_sheet)
                              :: [("sgen", quarter_sheet)]))).
Proof.
  assert (H1 : List.length (ps_index single_sheet) = 1%nat) by reflexivity.
  assert (H2 : times_of_day ([("load", hourly_sheet)] ++ [("sgen", quarter_sheet)])).
  { repeat constructor; vm_compute; discriminate. }
  split; [exact H1|]. split; [exact H2|].
  exact (single_sample_no_constraint [("load", hourly_sheet)] [("sgen", quarter_sheet)]
           "gen" single_sheet H1 H2).
Defined.

Example quarter_hour_period :
  period (common_bounds [("load", hourly_sheet); ("gen", single_sheet);
                         ("sgen", quarter_sheet)]) = 15 * 60 * second.
Proof. reflexivity. Qed.

Lemma common_bounds_start (workbook : list (string * ProfileSheet)) :
  start_time (common_bounds workbook) =
  fold_left Z.min (first_samples workbook) (time_of 23 59 59).
Proof.
  unfold common_bounds. apply (bounds_from workbook initial_bounds).
Qed.

Lemma common_bounds_end (workbook : list (string * ProfileSheet)) :
  end_time (common_bounds workbook) =
  fold_left Z.max (last_samples workbook) (time_of 0 0 0).
Proof.
  unfold common_bounds. apply (bounds_from workbook initial_bounds).
Qed.

(** C5: for a workbook whose one sheet has its one sample at
    23:59:59.5, the common start computed is 23:59:59, the bound the loop
    starts from, and not the earliest first-sample time; the grid that
    every returned table carries is the single point 23:59:59. *)
Theorem common_start_not_earliest_sample :
  let wb := [("load", late_sheet)] in
  is_time (time_of 23 59 59 + 500000 * microsecond) /\
  first_samples wb = [time_of 23 59 59 + 500000 * microsecond] /\
  start_time (common_bounds wb) = time_of 23 59 59 /\
  start_time (common_bounds wb) < time_of 23 59 59 + 500000 * microsecond /\
  end_time (common_bounds wb) = time_of 23 59 59 + 500000 * microsecond /\
  period (common_bounds wb) = timedelta_days 1 /\
  load_power_profile_form_xlsx wb = Returned [("load", [time_of 23 59 59])].
Proof.
  vm_compute. repeat split; try reflexivity; discriminate.
Qed.

(** ** What the first loop computes when the samples allow it *)

Lemma last_sample_not_negative (l : list Z) : Forall is_time l -> 0 <= last l 0.
Proof.
  induction l as [|a [|b l] IH]; intros H; simpl.
  - lia.
  - inversion H as [|? ? Ha _]. unfold is_time in Ha. lia.
  - apply IH. now inversion H.
Qed.

(** The common end is the latest last-sample time. *)
Lemma common_end_latest (workbook : list (string * ProfileSheet)) (t : time)
  (rest : list time) :
  times_of_day workbook ->
  last_samples workbook = t :: rest ->
  end_time (common_bounds workbook) = fold_left Z.max rest t.
Proof.
  intros Htimes Hlast. rewrite common_bounds_end, Hlast. simpl.
  assert (0 <= t); [|f_equal; unfold time_of; lia].
  assert (Hin : In t (last_samples workbook)) by (rewrite Hlast; now left).
  unfold last_samples in Hin. apply in_flat_map in Hin.
  destruct Hin as [[name sh] [Hsh Ht]]. simpl in Ht.
  destruct (ps_empty sh); [contradiction|]. destruct Ht as [<-|[]].
  apply last_sample_not_negative.
  unfold times_of_day in Htimes. rewrite Forall_forall in Htimes.
  exact (Htimes (name, sh) Hsh).
Qed.

(** The common start is the earliest first-sample time as soon as some
    sheet starts at 23:59:59 or before. *)
Lemma common_start_earliest (workbook : list (string * ProfileSheet)) (t : time)
  (rest : list time) (x : time) :
  first_samples workbook = t :: rest ->
  In x (t :: rest) ->
  x <= time_of 23 59 59 ->
  start_time (common_bounds workbook) = fold_left Z.min rest t.
Proof.
  intros Hfirst Hx Hle. rewrite common_bounds_start, Hfirst. simpl.
  rewrite <- fold_min_shift.
  pose proof (fold_min_le rest t x Hx). lia.
Qed.

(** The grid starts at the common start, advances by the period and does
    not pass the common end. *)
Lemma date_range_spans (start stop freq : Z) :
  0 < freq -> start <= stop ->
  exists n,
    date_range start stop freq =
    Returned (map (fun k => start + Z.of_nat k * freq) (seq 0 (S n))) /\
    start + Z.of_nat n * freq <= stop < start + Z.of_nat (S n) * freq.
Proof.
  intros Hf Hs. unfold date_range.
  assert (E0 : (freq =? 0) = false) by (apply Z.eqb_neq; lia).
  assert (E1 : (0 <? freq) = true) by (apply Z.ltb_lt; lia).
  assert (E2 : (start <=? stop) = true) by (apply Z.leb_le; lia).
  rewrite E0, E1, E2.
  assert (Hq : 0 <= (stop - start) / freq) by (apply Z.div_pos; lia).
  exists (Z.to_nat ((stop - start) / freq)). split.
  - f_equal. f_equal. f_equal. rewrite Z2Nat.inj_add by lia. simpl. lia.
  - rewrite Nat2Z.inj_succ, Z2Nat.id by lia.
    pose proof (Z.mul_div_le (stop - start) freq Hf).
    pose proof (Z.mul_succ_div_gt (stop - start) freq Hf). lia.
Qed.

(** Every returned table carries the common grid as its index. *)
Lemma returned_tables_share_grid (workbook : list (string * ProfileSheet))
  (tables : list (string * list time)) :
  load_power_profile_form_xlsx workbook = Returned tables ->
  exists grid,
    common_grid workbook = Returned grid /\
    Forall (fun entry => snd entry = grid) tables.
Proof.
  unfold load_power_profile_form_xlsx.
  destruct (common_grid workbook) as [grid|e]; simpl; intros H; [|discriminate].
  inversion H. exists grid. split; [reflexivity|].
  apply Forall_forall. intros entry Hin. apply in_map_iff in Hin.
  destruct Hin as [e' [<- _]]. reflexivity.
Qed.

Example common_grid_quarter_hours :
  load_power_profile_form_xlsx
    [ ("load", mkProfileSheet [time_of 0 0 0; time_of 0 30 0; time_of 1 0 0] [(1, "P [MW]")]);
      ("sgen", mkProfileSheet [time_of 0 15 0; time_of 0 30 0] [(2, "P [MW]")]) ] =
  let grid := [time_of 0 0 0; time_of 0 15 0; time_of 0 30 0; time_of 0 45 0; time_of 1 0 0] in
  Returned [ ("load", grid); ("sgen", grid) ].
Proof. vm_compute. reflexivity. Qed.

(** ** The output writer *)

Lemma same_args_eq (a b : list string) : same_args a b = true <-> a = b.
Proof.
  unfold same_args. destruct (list_eq_dec string_dec a b); split; congruence.
Qed.

Lemma log_variable_pair (table field : string) (ow : LogVariables) :
  exists ow',
    log_variable [table; field] ow = Returned ow' /\
    forall args, In args ow' <-> In args ow \/ args = [table; field].
Proof.
  unfold log_variable.
  destruct (existsb (same_args [table; field]) ow) eqn:E.
  - exists ow. split; [reflexivity|]. intros args. split; [tauto|].
    intros [H| ->]; [assumption|].
    apply existsb_exists in E. destruct E as [x [Hx Hs]].
    apply same_args_eq in Hs. now subst.
  - exists (ow ++ [[table; field]])%list. split; [reflexivity|].
    intros args. rewrite in_app_iff. simpl. intuition.
Qed.

Lemma log_all_selectors (results : list string) :
  Forall well_formed_selector results ->
  forall ow : LogVariables,
  exists ow',
    log_all results ow = Returned ow' /\
    forall args,
      In args ow' <-> In args ow \/ exists s, In s results /\ PyStr.split "." s = args.
Proof.
  induction 1 as [|s results [table [field Hs]] Hrest IH]; intros ow; simpl.
  - exists ow. split; [reflexivity|]. intros args. split; [tauto|].
    intros [H|[s [[] _]]]. exact H.
  - rewrite Hs. destruct (log_variable_pair table field ow) as [ow1 [-> H1]]. simpl.
    destruct (IH ow1) as [ow' [-> H']]. exists ow'. split; [reflexivity|].
    intros args. rewrite H', H1. split.
    + intros [[H| ->]|[s' [Hin Hsp]]].
      * now left.
      * right. exists s. split; [now left | assumption].
      * right. exists s'. split; [now right | assumption].
    + intros [H|[s' [[->|Hin] Hsp]]].
      * left. now left.
      * left. right. congruence.
      * right. now exists s'.
Qed.

Lemma trafo_loading_well_formed : well_formed_selector trafo_loading.
Proof. exists "res_trafo"%string, "loading_percent"%string. reflexivity. Qed.

Lemma in_selected_results (add_results : add_results_arg) (s : string) :
  In s (selected_results add_results) <-> s = trafo_loading \/ In s (extras add_results).
Proof.
  destruct add_results as [l|s0|]; simpl.
  - rewrite in_app_iff. simpl. intuition.
  - intuition.
  - intuition.
Qed.

(** C8: when the extra selectors supplied are of the form table.field,
    create_output_writer returns; the selectors it passes on are the
    extras together with res_trafo.loading_percent, which is there
    whatever the argument; the writer then logs its own selection and
    those, and without extras that is the bus voltage magnitude, the line
    loading and the transformer loading. *)
Theorem output_selectors (add_results : add_results_arg) :
  Forall well_formed_selector (extras add_results) ->
  (forall s, In s (selected_results add_results) <->
             s = trafo_loading \/ In s (extras add_results)) /\
  (exists ow,
     create_output_writer add_results = Returned ow /\
     forall args,
       In args ow <->
       In args new_output_writer \/
       exists s, (s = trafo_loading \/ In s (extras add_results)) /\
                 PyStr.split "." s = args) /\
  create_output_writer AsNone =
  Returned [ ["res_bus"; "vm_pu"]; ["res_line"; "loading_percent"];
             ["res_trafo"; "loading_percent"] ].
Proof.
  intros Hwf. split; [apply in_selected_results|]. split; [|reflexivity].
  assert (Hall : Forall well_formed_selector (selected_results add_results)).
  { apply Forall_forall. intros s Hs. apply in_selected_results in Hs.
    destruct Hs as [->|Hs]; [apply trafo_loading_well_formed|].
    rewrite Forall_forall in Hwf. now apply Hwf. }
  destruct (log_all_selectors _ Hall new_output_writer) as [ow [Hrun Hin]].
  exists ow. split; [exact Hrun|].
  intros args. rewrite Hin. split.
  - intros [H|[s [Hs Hsp]]]; [now left|].
    right. exists s. split; [now apply in_selected_results | assumption].
  - intros [H|[s [Hs Hsp]]]; [now left|].
    right. exists s. split; [now apply in_selected_results | assumption].
Qed.

Lemma output_selectors_witness :
  Forall well_formed_selector (extras (AsList ["res_load.p_mw"; "res_bus.vm_pu"])) /\
  create_output_writer (AsList ["res_load.p_mw"; "res_bus.vm_pu"]) =
  Returned [ ["res_bus"; "vm_pu"]; ["res_line"; "loading_percent"];
             ["res_load"; "p_mw"]; ["res_trafo"; "loading_percent"] ] /\
  exists ow,
    create_output_writer (AsList ["res_load.p_mw"; "res_bus.vm_pu"]) = Returned ow /\
    forall args,
      In args ow <->
      In args new_output_writer \/
      exists s, (s = trafo_loading \/ In s (extras (AsList ["res_load.p_mw"; "res_bus.vm_pu"]))) /\
                PyStr.split "." s = args.
Proof.
  assert (Hwf : Forall well_formed_selector
                  (extras (AsList ["res_load.p_mw"; "res_bus.vm_pu"]))).
  { repeat constructor; eexists; eexists; reflexivity. }
  split; [exact Hwf|]. split; [reflexivity|].
  exact (proj1 (proj2 (output_selectors (AsList ["res_load.p_mw"; "res_bus.vm_pu"]) Hwf))).
Defined.

(** ** The simulation runner *)

Lemma save_error_text_names (output_file_path : string) :
  PyStr.occurs_in "run_time_simulation" (save_error_text output_file_path) /\
  PyStr.occurs_in output_file_path (save_error_text output_file_path).
Proof.
  unfold save_error_text. split.
  - apply occurs_in_app_l, occurs_in_app_r, occurs_in_app_l, occurs_in_refl.
  - apply occurs_in_app_r, occurs_in_app_l, occurs_in_app_r, occurs_in_app_l,
      occurs_in_refl.
Qed.

Section RunnerProperties.

Variable run_timeseries : Net -> nat -> outcome (Net * list (string * DataFrame nat)).
Variable FS : Type.
Variable Writer : Type.
Variable os_path_exists : FS -> string -> bool.
Variable os_makedirs : FS -> string -> FS * outcome unit.
Variable ExcelWriter : FS -> string -> FS * outcome Writer.
Variable to_excel : FS -> Writer -> string -> ResultTable -> FS * outcome unit.
Variable os_path_join : string -> string -> string.

Abbreviation run :=
  (run_time_simulation run_timeseries FS Writer os_path_exists os_makedirs ExcelWriter
     to_excel os_path_join).

(** Whether and how the results are saved has no part in what is
    returned. *)
Lemma run_time_simulation_returns (net : Net) (output_filename : option string)
  (folder : string) (fs : FS) (log : list LogRecord) :
  snd (run net output_filename folder fs log) = simulate run_timeseries net.
Proof.
  unfold run_time_simulation.
  destruct (simulate run_timeseries net) as [results_df|e]; [|reflexivity].
  destruct (truthy output_filename); [|reflexivity].
  destruct (save_results _ _ _ _ _ _ _ _ _ _) as [fs' [u|e]]; reflexivity.
Qed.

(** C9: when the simulation has produced its result tables and an output
    name is given, an exception raised while the folder is made, the
    writer opened or a sheet written does not leave run_time_simulation:
    the call returns those tables, as it does when no output name is
    given, and logs one error, whose text names the function and the
    path of the file. *)
Theorem persistence_failure_swallowed (net : Net) (name folder : string) (fs fs' : FS)
  (log : list LogRecord) (results_df : list (string * ResultTable)) (e : exn) :
  simulate run_timeseries net = Returned results_df ->
  name <> ""%string ->
  save_results FS Writer os_path_exists os_makedirs ExcelWriter to_excel
    folder (os_path_join folder (name ++ ".xlsx")) results_df fs = (fs', Raised e) ->
  run net (Some name) folder fs log =
  ((fs', (log ++ [mkLog ERROR (save_error_text (os_path_join folder (name ++ ".xlsx")))])%list),
   Returned results_df) /\
  snd (run net None folder fs log) = Returned results_df /\
  PyStr.occurs_in "run_time_simulation"
    (save_error_text (os_path_join folder (name ++ ".xlsx"))) /\
  PyStr.occurs_in (os_path_join folder (name ++ ".xlsx"))
    (save_error_text (os_path_join folder (name ++ ".xlsx"))).
Proof.
  intros Hsim Hname Hsave. split; [|split].
  - unfold run_time_simulation. rewrite Hsim. simpl.
    apply String.eqb_neq in Hname. rewrite Hname. simpl. now rewrite Hsave.
  - now rewrite run_time_simulation_returns.
  - apply save_error_text_names.
Qed.

End RunnerProperties.

Lemma persistence_failure_swallowed_witness :
  let results_df := returned_or [] (simulate sample_solver solved_net) in
  simulate sample_solver solved_net = Returned results_df /\
  "results"%string <> ""%string /\
  save_results unit unit readonly_exists readonly_makedirs readonly_writer readonly_to_excel
    "output" (posix_join "output" ("results" ++ ".xlsx")) results_df tt =
  (tt, Raised OSError) /\
  run_time_simulation sample_solver unit unit readonly_exists readonly_makedirs
    readonly_writer readonly_to_excel posix_join solved_net (Some "results"%string)
    "output" tt [] =
  ((tt, [mkLog ERROR (save_error_text "output/results.xlsx")]), Returned results_df).
Proof.
  intros results_df.
  assert (H1 : simulate sample_solver solved_net = Returned results_df)
    by (vm_compute; reflexivity).
  assert (H2 : "results"%string <> ""%string) by discriminate.
  assert (H3 : save_results unit unit readonly_exists readonly_makedirs readonly_writer
                 readonly_to_excel "output" (posix_join "output" ("results" ++ ".xlsx"))
                 results_df tt = (tt, Raised OSError)) by reflexivity.
  split; [exact H1|]. split; [exact H2|]. split; [exact H3|].
  exact (proj1 (persistence_failure_swallowed sample_solver unit unit readonly_exists
                  readonly_makedirs readonly_writer readonly_to_excel posix_join
                  solved_net "results" "output" tt tt [] results_df OSError H1 H2 H3)).
Defined.

Example harvest_renames_columns :
  simulate sample_solver solved_net =
  Returned [ ("res_bus.vm_pu",
              mkResult [time_of 0 0 0; time_of 6 0 0]
                       [ (ByName (Some "Bus 0"), [1 # 1; 1 # 1]%Q);
                         (ByName (Some "Bus 1"), [99 # 100; 98 # 100]%Q) ]) ].
Proof. vm_compute. reflexivity. Qed.

(** * Further properties *)

(** ** apply_power_profile: what a call touches *)

Lemma for_each_cons {B} (x : B) (l : list B) (body : B -> M unit) (w : World) :
  for_each (x :: l) body w =
  match body x w with
  | (w', Returned _) => for_each l body w'
  | (w', Raised e) => (w', Raised e)
  end.
Proof. reflexivity. Qed.

Lemma for_each_skips_none (equipment : string) (tbl : EqTable)
  (pp : list (string * option (DataFrame time))) (w : World) :
  for_each pp (bind_profile equipment tbl) w =
  for_each (filter has_table pp) (bind_profile equipment tbl) w.
Proof.
  revert w. induction pp as [|[v [p|]] pp IH]; intros w.
  - reflexivity.
  - cbn [filter has_table snd]. rewrite !for_each_cons.
    destruct (bind_profile equipment tbl (v, Some p) w) as [w1 [[]|e]];
      [apply IH | reflexivity].
  - cbn [filter has_table snd]. rewrite for_each_cons. apply IH.
Qed.

(** X1: a variable that comes without a table (None) is passed over: the
    call does what it does on the dictionary without those entries. *)
Theorem none_tables_skipped (equipment : string)
  (pp : list (string * option (DataFrame time))) (w : World) :
  apply_power_profile equipment pp w =
  apply_power_profile equipment (filter has_table pp) w.
Proof.
  rewrite !apply_power_profile_run. cbv zeta.
  destruct (dict_get equipment (net_tables (w_net w))); [|reflexivity].
  apply for_each_skips_none.
Qed.

Lemma other_registrations_after (equipment : string) (net net' : Net)
  (done : list ConstControl) :
  (forall c, In c done -> element c = equipment) ->
  net_controller net' = (other_registrations equipment net ++ done)%list ->
  other_registrations equipment net' = other_registrations equipment net.
Proof.
  intros Hdone H. unfold other_registrations at 1. rewrite H, filter_app.
  rewrite filter_all, filter_none; [now rewrite app_nil_r | | ].
  - intros c Hc. apply Hdone in Hc. apply negb_false_iff. now apply String.eqb_eq.
  - intros c Hc. apply in_other_registrations in Hc.
    apply negb_true_iff. now apply String.eqb_neq.
Qed.

(** X2: whatever its outcome, a call leaves the equipment tables of the
    network and the registrations of the other classes, in their order,
    as they were. *)
Theorem other_classes_untouched (equipment : string)
  (pp : list (string * option (DataFrame time))) (w : World) :
  net_tables (w_net (fst (apply_power_profile equipment pp w))) = net_tables (w_net w) /\
  other_registrations equipment (w_net (fst (apply_power_profile equipment pp w))) =
  other_registrations equipment (w_net w).
Proof.
  destruct (apply_power_profile_effect equipment pp w) as [Ht Heff].
  split; [exact Ht|].
  destruct (dict_get equipment (net_tables (w_net w))) as [tbl|].
  - destruct Heff as [[_ Hc]|[_ [done [rest [Hsplit Hc]]]]].
    + apply (other_registrations_after equipment _ _ (new_controls equipment tbl pp));
        [|exact Hc].
      intros c. apply new_controls_element.
    + apply (other_registrations_after equipment _ _ done); [|exact Hc].
      intros c Hin. apply (new_controls_element equipment tbl pp).
      rewrite Hsplit. apply in_app_iff. now left.
  - destruct Heff as [_ Hc].
    apply (other_registrations_after equipment _ _ []); [intros c [] |].
    now rewrite app_nil_r.
Qed.

(** ** apply_power_profile: the time index *)

Lemma for_each_invariant {B} (P : World -> Prop) (body : B -> M unit) (l : list B) :
  (forall x w, P w -> P (fst (body x w))) ->
  forall w, P w -> P (fst (for_each l body w)).
Proof.
  intros Hbody. induction l as [|x l IH]; intros w Hw; simpl; [exact Hw|].
  unfold bind. specialize (Hbody x w Hw).
  destruct (body x w) as [w1 [[]|e]]; simpl in *; [now apply IH | exact Hbody].
Qed.

Lemma check_time_index_some (p : DataFrame time) (w : World) (t : list time) :
  net_time_index (w_net w) = Some t ->
  exists lg o, check_time_index p w = (mkWorld (w_net w) (w_log w ++ lg), o).
Proof.
  destruct w as [[tabs ctrl ti] lg]. simpl. intros ->. run_monad.
  destruct (Nat.eqb _ _).
  - destruct (forallb _ _).
    + exists [], (Returned tt). now rewrite app_nil_r.
    + eexists _, (Returned tt). reflexivity.
  - exists [], (Raised ValueError). now rewrite app_nil_r.
Qed.

Lemma check_time_index_none (p : DataFrame time) (w : World) :
  net_time_index (w_net w) = None ->
  check_time_index p w =
  (mkWorld (mkNet (net_tables (w_net w)) (net_controller (w_net w)) (Some (df_index p)))
           (w_log w), Returned tt).
Proof.
  destruct w as [[tabs ctrl ti] lg]. simpl. intros ->. reflexivity.
Qed.

Lemma bind_profile_keeps_time_index (equipment : string) (tbl : EqTable)
  (item : string * option (DataFrame time)) (w : World) (t : list time) :
  net_time_index (w_net w) = Some t ->
  net_time_index (w_net (fst (bind_profile equipment tbl item w))) = Some t.
Proof.
  destruct item as [v [p|]]; [|trivial].
  intros Ht. unfold bind_profile, bind.
  destruct (check_time_index_some p w t Ht) as [lg [o ->]].
  destruct o as [[]|e]; [|exact Ht].
  match goal with
  | |- context [warn_unmapped ?a ?b ?c ?w'] =>
      destruct (warn_unmapped_run a b c w') as [lg' [o' ->]]
  end.
  destruct o' as [[]|e]; exact Ht.
Qed.

(** X3: a time index that the network has is never replaced: after any
    call, whatever its outcome, it is the one found. *)
Theorem time_index_kept (equipment : string)
  (pp : list (string * option (DataFrame time))) (w : World) (t : list time) :
  net_time_index (w_net w) = Some t ->
  net_time_index (w_net (fst (apply_power_profile equipment pp w))) = Some t.
Proof.
  intros Ht. rewrite apply_power_profile_run. cbv zeta.
  destruct (dict_get equipment (net_tables (w_net w))) as [tbl|]; [|exact Ht].
  apply (for_each_invariant (fun w => net_time_index (w_net w) = Some t)); [|exact Ht].
  intros item w0. apply bind_profile_keeps_time_index.
Qed.

Lemma time_index_kept_witness :
  net_time_index (w_net (mkWorld solved_net [])) = Some [time_of 0 0 0; time_of 6 0 0] /\
  net_time_index
    (w_net (fst (apply_power_profile "load" [("p_mw", Some longer_profile)]
                   (mkWorld solved_net [])))) =
  Some [time_of 0 0 0; time_of 6 0 0].
Proof.
  assert (H : net_time_index (w_net (mkWorld solved_net [])) =
              Some [time_of 0 0 0; time_of 6 0 0]) by reflexivity.
  split; [exact H|].
  exact (time_index_kept "load" [("p_mw", Some longer_profile)] (mkWorld solved_net [])
           _ H).
Defined.

Lemma bind_profile_sets_time_index (equipment : string) (tbl : EqTable) (v : string)
  (p : DataFrame time) (w : World) :
  net_time_index (w_net w) = None ->
  net_time_index (w_net (fst (bind_profile equipment tbl (v, Some p) w))) =
  Some (df_index p).
Proof.
  intros Hn. unfold bind_profile, bind. rewrite (check_time_index_none p w Hn).
  match goal with
  | |- context [warn_unmapped ?a ?b ?c ?w'] =>
      destruct (warn_unmapped_run a b c w') as [lg' [o' ->]]
  end.
  destruct o' as [[]|e]; reflexivity.
Qed.

(** X4: on a network without a time index, the first table of the
    dictionary sets it to its own time labels, and it stays so to the end
    of the call, whatever the outcome. *)
Theorem first_table_sets_time_index (equipment v : string) (p : DataFrame time)
  (rest : list (string * option (DataFrame time))) (w : World) (tbl : EqTable) :
  dict_get equipment (net_tables (w_net w)) = Some tbl ->
  net_time_index (w_net w) = None ->
  net_time_index (w_net (fst (apply_power_profile equipment ((v, Some p) :: rest) w))) =
  Some (df_index p).
Proof.
  intros Hget Hnone. rewrite apply_power_profile_run, Hget. cbv zeta.
  set (w0 := mkWorld _ _).
  assert (H0 : net_time_index (w_net w0) = None) by exact Hnone.
  pose proof (bind_profile_sets_time_index equipment tbl v p w0 H0) as H1.
  cbn [for_each]. unfold bind at 1.
  destruct (bind_profile equipment tbl (v, Some p) w0) as [w1 [[]|e]]; simpl in H1 |- *;
    [|exact H1].
  apply (for_each_invariant (fun w => net_time_index (w_net w) = Some (df_index p)));
    [|exact H1].
  intros item w2. apply bind_profile_keeps_time_index.
Qed.

Lemma first_table_sets_time_index_witness :
  dict_get "load" (net_tables (w_net sample_world)) = Some sample_loads /\
  net_time_index (w_net sample_world) = None /\
  net_time_index
    (w_net (fst (apply_power_profile "load"
                   (("p_mw", Some sample_profile) :: [("q_mvar", Some longer_profile)])
                   sample_world))) =
  Some (df_index sample_profile).
Proof.
  assert (H1 : dict_get "load" (net_tables (w_net sample_world)) = Some sample_loads)
    by reflexivity.
  assert (H2 : net_time_index (w_net sample_world) = None) by reflexivity.
  split; [exact H1|]. split; [exact H2|].
  exact (first_table_sets_time_index "load" "p_mw" sample_profile
           [("q_mvar", Some longer_profile)] sample_world sample_loads H1 H2).
Defined.

(** ** apply_power_profile: errors *)

(** X5: when the network has a time index and the first table of the
    dictionary has another number of time labels, the call raises
    ValueError: by then the old registrations of the class are gone; no
    registration is made, nothing is logged and the time index stays. *)
Theorem table_of_other_length_raises (equipment v : string) (p : DataFrame time)
  (rest : list (string * option (DataFrame time))) (w : World) (tbl : EqTable)
  (t : list time) :
  dict_get equipment (net_tables (w_net w)) = Some tbl ->
  net_time_index (w_net w) = Some t ->
  List.length t <> List.length (df_index p) ->
  apply_power_profile equipment ((v, Some p) :: rest) w =
  (mkWorld (mkNet (net_tables (w_net w)) (other_registrations equipment (w_net w)) (Some t))
           (w_log w),
   Raised ValueError).
Proof.
  intros Hget Ht Hlen. rewrite apply_power_profile_run, Hget. cbv zeta.
  rewrite for_each_cons. unfold bind_profile, bind.
  unfold check_time_index, bind, get_net, raise. cbn [w_net net_time_index].
  rewrite Ht. apply Nat.eqb_neq in Hlen. rewrite Hlen. reflexivity.
Qed.

Lemma table_of_other_length_raises_witness :
  dict_get "load" (net_tables (w_net (mkWorld stale_net []))) = Some sample_loads /\
  net_time_index (w_net (mkWorld stale_net [])) = Some [time_of 0 0 0; time_of 6 0 0] /\
  List.length [time_of 0 0 0; time_of 6 0 0] <> List.length (df_index longer_profile) /\
  apply_power_profile "load" (("p_mw", Some longer_profile) :: [])
    (mkWorld stale_net []) =
  (mkWorld (mkNet (net_tables stale_net) (other_registrations "load" stale_net)
                  (Some [time_of 0 0 0; time_of 6 0 0])) [],
   Raised ValueError).
Proof.
  assert (H1 : dict_get "load" (net_tables (w_net (mkWorld stale_net []))) =
               Some sample_loads) by reflexivity.
  assert (H2 : net_time_index (w_net (mkWorld stale_net [])) =
               Some [time_of 0 0 0; time_of 6 0 0]) by reflexivity.
  assert (H3 : List.length [time_of 0 0 0; time_of 6 0 0] <>
               List.length (df_index longer_profile)) by (simpl; lia).
  split; [exact H1|]. split; [exact H2|]. split; [exact H3|].
  exact (table_of_other_length_raises "load" "p_mw" longer_profile [] (mkWorld stale_net [])
           sample_loads _ H1 H2 H3).
Defined.

Lemma warn_unmapped_named (tbl : EqTable) (v : string) (mapped : DataFrame time)
  (w : World) :
  (forall r, In r tbl -> eq_name r <> None) ->
  exists lg,
    warn_unmapped tbl v mapped w = (mkWorld (w_net w) (w_log w ++ lg), Returned tt) /\
    filter is_error lg = [].
Proof.
  intros Hnames. destruct w as [net lg]. unfold warn_unmapped.
  destruct (unmapped_equipment tbl mapped) as [|u us].
  - exists []. unfold ret. simpl. now rewrite app_nil_r.
  - destruct (all_strings_present (names_at tbl (u :: us))) as [names [-> _]].
    + intros o Ho. apply in_names_at in Ho. destruct Ho as [r [Hr [_ <-]]].
      now apply Hnames.
    + eexists. unfold log_record. simpl. split; reflexivity.
Qed.

(** X6: when the first table bound has as many time labels as the time
    index of the network but other ones, and every equipment of the class
    has a display name, the call returns: it logs that one error, leaves
    the time index as it was and makes the registration. *)
Theorem differing_labels_logged (equipment v : string) (p : DataFrame time)
  (w : World) (tbl : EqTable) (t : list time) :
  dict_get equipment (net_tables (w_net w)) = Some tbl ->
  net_time_index (w_net w) = Some t ->
  List.length t = List.length (df_index p) ->
  t <> df_index p ->
  (forall r, In r tbl -> eq_name r <> None) ->
  exists w',
    apply_power_profile equipment [(v, Some p)] w = (w', Returned tt) /\
    filter is_error (w_log w') =
    (filter is_error (w_log w) ++
     [mkLog ERROR "Simulation Profiles have not the same timestamps"])%list /\
    registrations equipment (w_net w') =
    [new_control equipment v (mapped_profile tbl p)] /\
    net_time_index (w_net w') = Some t.
Proof.
  intros Hget Ht Hlen Hneq Hnames.
  rewrite apply_power_profile_run, Hget. cbv zeta. set (w0 := mkWorld _ _).
  rewrite for_each_cons. unfold bind_profile, bind.
  rewrite (check_time_index_differs p w0 t Ht Hlen Hneq).
  match goal with
  | |- context [warn_unmapped ?a ?b ?c ?w'] =>
      destruct (warn_unmapped_named a b c w' Hnames) as [lg [-> Hlg]]
  end.
  unfold register, bind, get_net, put_net. cbn.
  eexists. split; [reflexivity|]. cbn. split; [|split].
  - rewrite !filter_app, Hlg. cbn. now rewrite app_nil_r.
  - apply (proj1 (registrations_after equipment tbl [(v, Some p)] (w_net w)
                    (mkNet (net_tables (w_net w))
                           (other_registrations equipment (w_net w) ++
                            [new_control equipment v (mapped_profile tbl p)])
                           (net_time_index (w_net w))) eq_refl)).
  - exact Ht.
Qed.

Lemma differing_labels_logged_witness :
  exists w',
    apply_power_profile "load" [("q_mvar", Some shifted_profile)] (mkWorld stale_net []) =
    (w', Returned tt) /\
    filter is_error (w_log w') =
    (filter is_error (w_log (mkWorld stale_net [])) ++
     [mkLog ERROR "Simulation Profiles have not the same timestamps"])%list /\
    registrations "load" (w_net w') =
    [new_control "load" "q_mvar" (mapped_profile sample_loads shifted_profile)] /\
    net_time_index (w_net w') = Some [time_of 0 0 0; time_of 6 0 0].
Proof.
  apply (differing_labels_logged "load" "q_mvar" shifted_profile (mkWorld stale_net [])
           sample_loads [time_of 0 0 0; time_of 6 0 0]).
  - reflexivity.
  - reflexivity.
  - reflexivity.
  - vm_compute. discriminate.
  - intros r [<-|[<-|[<-|[]]]]; discriminate.
Defined.

Lemma all_strings_absent (l : list (option string)) :
  In None l -> all_strings l = None.
Proof.
  induction l as [|[s|] l IH]; simpl; intros H.
  - contradiction.
  - destruct H as [H|H]; [discriminate|]. now rewrite IH.
  - reflexivity.
Qed.

(** X7: when an equipment left without a column has no display name,
    the call raises TypeError on building the warning: no warning is
    logged and no registration is made for the class, whose old
    registrations are gone by then. *)
Theorem unnamed_unmapped_raises (equipment v : string) (p : DataFrame time)
  (rest : list (string * option (DataFrame time))) (w : World) (tbl : EqTable)
  (r : EqRow) :
  dict_get equipment (net_tables (w_net w)) = Some tbl ->
  time_index_fits (w_net w) p ->
  In r tbl ->
  eq_name r = None ->
  ~ In (eq_index r) (columns (mapped_profile tbl p)) ->
  snd (apply_power_profile equipment ((v, Some p) :: rest) w) = Raised TypeError /\
  registrations equipment (w_net (fst (apply_power_profile equipment ((v, Some p) :: rest) w)))
  = [] /\
  filter is_warning (w_log (fst (apply_power_profile equipment ((v, Some p) :: rest) w))) =
  filter is_warning (w_log w).
Proof.
  intros Hget Hfit Hr Hname Hno.
  rewrite apply_power_profile_run, Hget. cbv zeta. set (w0 := mkWorld _ _).
  rewrite for_each_cons. unfold bind_profile, bind.
  destruct (check_time_index_fits p w0 Hfit) as [ti [errs [-> Herrs]]].
  set (mapped := mapped_profile tbl p) in *.
  assert (Hun : In (eq_index r) (unmapped_equipment tbl mapped)).
  { apply in_index_difference. split; [|assumption].
    unfold table_index. now apply in_map. }
  unfold warn_unmapped.
  destruct (unmapped_equipment tbl mapped) as [|u us] eqn:Hu; [contradiction|].
  rewrite all_strings_absent.
  - unfold raise. cbn. split; [reflexivity|]. split.
    + unfold registrations, other_registrations. apply filter_none.
      intros c Hc. apply filter_In in Hc. destruct Hc as [_ Hc].
      now apply negb_true_iff in Hc.
    + rewrite filter_app, Herrs. now rewrite app_nil_r.
  - apply in_names_at. exists r. repeat split; assumption.
Qed.

Lemma unnamed_unmapped_raises_witness :
  let w := mkWorld (mkNet [("load", unnamed_load)] [] None) [] in
  let run := apply_power_profile "load" (("p_mw", Some sample_profile) :: []) w in
  snd run = Raised TypeError /\
  registrations "load" (w_net (fst run)) = [] /\
  filter is_warning (w_log (fst run)) = filter is_warning (w_log w).
Proof.
  intros w run.
  apply (unnamed_unmapped_raises "load" "p_mw" sample_profile [] w unnamed_load
           (mkRow 0 None (Some (-1)))).
  - reflexivity.
  - exact I.
  - simpl. tauto.
  - reflexivity.
  - vm_compute. tauto.
Defined.

(** X8: a class without a table in the network makes the call raise
    KeyError after the old registrations of that class have been dropped;
    nothing else changes. *)
Theorem class_without_table (equipment : string)
  (pp : list (string * option (DataFrame time))) (w : World) :
  dict_get equipment (net_tables (w_net w)) = None ->
  apply_power_profile equipment pp w =
  (mkWorld (mkNet (net_tables (w_net w)) (other_registrations equipment (w_net w))
                  (net_time_index (w_net w))) (w_log w),
   Raised KeyError).
Proof.
  intros Hget. now rewrite apply_power_profile_run, Hget.
Qed.

Lemma class_without_table_witness :
  dict_get "sgen" (net_tables (w_net sample_world)) = None /\
  apply_power_profile "sgen" sample_profiles sample_world =
  (mkWorld (mkNet (net_tables sample_net) (other_registrations "sgen" sample_net) None) [],
   Raised KeyError).
Proof.
  assert (H : dict_get "sgen" (net_tables (w_net sample_world)) = None) by reflexivity.
  split; [exact H|].
  exact (class_without_table "sgen" sample_profiles sample_world H).
Defined.

(** ** apply_power_profile: the mapped table *)

Lemma lookup_column_app (i : Z) (l1 l2 : list (Z * list value)) :
  lookup_column i (l1 ++ l2) =
  match lookup_column i l1 with
  | Some v => Some v
  | None => lookup_column i l2
  end.
Proof.
  induction l1 as [|[c v] l1 IH]; simpl; [reflexivity|].
  destruct (c =? i); [reflexivity | exact IH].
Qed.

Lemma lookup_selected (cols : list (Z * list value)) (labels : list Z) (i : Z) :
  lookup_column i
    (flat_map (fun c => match lookup_column c cols with
                        | Some vals => [(c, vals)]
                        | None => []
                        end) labels) =
  if mem i labels then lookup_column i cols else None.
Proof.
  induction labels as [|c labels IH]; simpl; [reflexivity|].
  rewrite lookup_column_app, IH. unfold mem in *. simpl.
  destruct (i =? c) eqn:E.
  - apply Z.eqb_eq in E. subst c. simpl.
    destruct (lookup_column i cols) as [vals|] eqn:Hc; simpl.
    + now rewrite Z.eqb_refl.
    + destruct (existsb (Z.eqb i) labels); reflexivity.
  - simpl. destruct (lookup_column c cols) as [vals|]; simpl; [|reflexivity].
    rewrite Z.eqb_sym, E. reflexivity.
Qed.

Lemma in_dedup_iff (x : Z) (l : list Z) : In x (dedup l) <-> In x l.
Proof.
  split; [apply in_dedup|].
  induction l as [|y l IH]; simpl; [tauto|].
  intros [->|H]; [now left|].
  destruct (Z.eq_dec y x) as [->|Hne]; [now left|].
  right. apply filter_In. split; [now apply IH|].
  apply negb_true_iff. apply Z.eqb_neq. congruence.
Qed.

Lemma mem_index_intersection (x : Z) (a b : list Z) :
  mem x (index_intersection a b) = mem x a && mem x b.
Proof.
  destruct (mem x a && mem x b) eqn:E.
  - apply andb_true_iff in E. destruct E as [Ha Hb].
    apply mem_In. unfold index_intersection. apply in_dedup_iff, filter_In.
    split; [now apply mem_In | assumption].
  - apply mem_not_In. intros H. apply in_index_intersection in H.
    destruct H as [Ha Hb]. apply mem_In in Ha, Hb. rewrite Ha, Hb in E. discriminate.
Qed.

Lemma no_identifier_no_mapping (tbl : EqTable) :
  Forall (fun r => eq_profile_mapping r = None) tbl -> profile_mapping tbl = [].
Proof.
  intros H. unfold profile_mapping, group_keys.
  replace (flat_map _ tbl) with (@nil Z); [reflexivity|].
  induction H as [|r tbl Hr _ IH]; simpl; [reflexivity|].
  now rewrite Hr.
Qed.

(** X9: when no equipment of the class has a profile identifier, the
    mapped table is matched by label: an equipment index carries the
    column of the profile table labelled by that index, if there is one,
    and nothing else is a column; the time labels are those of the
    profile table. *)
Theorem fallback_by_label (tbl : EqTable) (profile : DataFrame time) (i : Z) :
  Forall (fun r => eq_profile_mapping r = None) tbl ->
  column (mapped_profile tbl profile) i =
  (if mem i (table_index tbl) then column profile i else None) /\
  df_index (mapped_profile tbl profile) = df_index profile.
Proof.
  intros H. unfold mapped_profile. rewrite (no_identifier_no_mapping tbl H).
  split; [|reflexivity].
  unfold column, select_columns. cbn [df_columns]. unfold column.
  rewrite lookup_selected, mem_index_intersection.
  destruct (mem i (table_index tbl)); [|reflexivity]. simpl.
  destruct (mem i (columns profile)) eqn:E; [reflexivity|].
  apply mem_not_In in E. symmetry. now apply lookup_column_None.
Qed.

Lemma fallback_by_label_witness :
  Forall (fun r => eq_profile_mapping r = None) unmapped_loads /\
  column (mapped_profile unmapped_loads sample_profile) 2 =
  (if mem 2 (table_index unmapped_loads) then column sample_profile 2 else None) /\
  df_index (mapped_profile unmapped_loads sample_profile) = df_index sample_profile.
Proof.
  assert (H : Forall (fun r => eq_profile_mapping r = None) unmapped_loads)
    by (repeat constructor).
  split; [exact H|].
  exact (fallback_by_label unmapped_loads sample_profile 2 H).
Defined.

(** An equipment whose identifier is a column of the profile table has a
    column in the mapped table. *)
Lemma profiled_row_has_column (tbl : EqTable) (profile : DataFrame time) (r : EqRow) :
  NoDup (table_index tbl) ->
  In r tbl ->
  row_has_profile profile r ->
  In (eq_index r) (columns (mapped_profile tbl profile)).
Proof.
  intros Hnd Hr [k [Hk Hcol]].
  destruct (column profile k) as [vals|] eqn:Hvals; [|congruence].
  destruct (row_in_profile_mapping tbl r k Hr Hk) as [idxs [Hmap Hi]].
  assert (Hc : column (mapped_profile tbl profile) (eq_index r) = Some vals).
  { unfold mapped_profile.
    destruct (profile_mapping tbl) as [|e m] eqn:Hm; [contradiction|].
    rewrite <- Hm in *.
    apply (broadcast_column profile k (eq_index r) vals); [assumption | | ].
    - intros Y ys HY Hys. now apply (groups_disjoint tbl k Y (eq_index r) idxs ys).
    - right. now exists idxs. }
  destruct (in_dec Z.eq_dec (eq_index r) (columns (mapped_profile tbl profile)))
    as [Hin|Hnot]; [exact Hin|].
  apply lookup_column_None in Hnot. unfold column in Hc. congruence.
Qed.

(** X10: in a class with one row per index and some row that has a
    profile identifier, the columns of the mapped table are exactly the
    indices of the rows whose identifier is a column of the profile
    table. *)
Theorem mapped_columns_characterized (tbl : EqTable) (profile : DataFrame time) (i : Z)
  (r0 : EqRow) :
  NoDup (table_index tbl) ->
  In r0 tbl ->
  eq_profile_mapping r0 <> None ->
  In i (columns (mapped_profile tbl profile)) <->
  exists r, In r tbl /\ eq_index r = i /\ row_has_profile profile r.
Proof.
  intros Hnd Hr0 Hk0. split.
  - destruct (eq_profile_mapping r0) as [k0|] eqn:Hk; [|congruence].
    destruct (row_in_profile_mapping tbl r0 k0 Hr0 Hk) as [idxs0 [Hmap0 _]].
    unfold mapped_profile.
    destruct (profile_mapping tbl) as [|e m] eqn:Hm; [contradiction|].
    rewrite <- Hm. intros Hin. apply broadcast_columns_from in Hin.
    destruct Hin as [[]|[Y [ys [HY [Hys Hcol]]]]].
    apply in_profile_mapping in HY. subst ys. apply in_group in Hys.
    destruct Hys as [r [Hr [Hi HY]]]. exists r. repeat split; try assumption.
    now exists Y.
  - intros [r [Hr [<- Hp]]]. now apply profiled_row_has_column.
Qed.

Lemma mapped_columns_characterized_witness :
  NoDup (table_index partly_assigned_loads) /\
  In (mkRow 0 (Some "Load 0") (Some 1)) partly_assigned_loads /\
  eq_profile_mapping (mkRow 0 (Some "Load 0") (Some 1)) <> None /\
  (In 0 (columns (mapped_profile partly_assigned_loads sample_profile)) <->
   exists r, In r partly_assigned_loads /\ eq_index r = 0 /\
             row_has_profile sample_profile r).
Proof.
  assert (H1 : NoDup (table_index partly_assigned_loads)).
  { repeat constructor; simpl; intuition discriminate. }
  assert (H2 : In (mkRow 0 (Some "Load 0") (Some 1)) partly_assigned_loads)
    by (simpl; tauto).
  assert (H3 : eq_profile_mapping (mkRow 0 (Some "Load 0") (Some 1)) <> None)
    by discriminate.
  split; [exact H1|]. split; [exact H2|]. split; [exact H3|].
  exact (mapped_columns_characterized partly_assigned_loads sample_profile 0 _ H1 H2 H3).
Defined.

Lemma index_difference_empty (a b : list Z) :
  (forall x, In x a -> In x b) -> index_difference a b = [].
Proof.
  intros H. unfold index_difference. rewrite filter_none; [reflexivity|].
  intros x Hx. apply negb_false_iff. apply mem_In. now apply H.
Qed.

(** X11: when every equipment of the class, one row per index, has an
    identifier that is a column of the table bound, and the time index
    fits, the call returns without a warning, and the registration it
    makes drives exactly the equipment indices of the class. *)
Theorem all_mapped_no_warning (equipment v : string) (p : DataFrame time) (w : World)
  (tbl : EqTable) (i : Z) :
  dict_get equipment (net_tables (w_net w)) = Some tbl ->
  NoDup (table_index tbl) ->
  time_index_fits (w_net w) p ->
  Forall (row_has_profile p) tbl ->
  exists w',
    apply_power_profile equipment [(v, Some p)] w = (w', Returned tt) /\
    filter is_warning (w_log w') = filter is_warning (w_log w) /\
    registrations equipment (w_net w') =
    [new_control equipment v (mapped_profile tbl p)] /\
    (In i (element_index (new_control equipment v (mapped_profile tbl p))) <->
     In i (table_index tbl)).
Proof.
  intros Hget Hnd Hfit Hall.
  assert (Hcols : forall x, In x (table_index tbl) ->
                            In x (columns (mapped_profile tbl p))).
  { intros x Hx. unfold table_index in Hx. apply in_map_iff in Hx.
    destruct Hx as [r [<- Hr]]. apply profiled_row_has_column; try assumption.
    rewrite Forall_forall in Hall. now apply Hall. }
  rewrite apply_power_profile_run, Hget. cbv zeta. set (w0 := mkWorld _ _).
  rewrite for_each_cons. unfold bind_profile, bind.
  destruct (check_time_index_fits p w0 Hfit) as [ti [errs [-> Herrs]]].
  unfold warn_unmapped, unmapped_equipment.
  rewrite (index_difference_empty _ _ Hcols).
  unfold ret, register, bind, get_net, put_net. cbn.
  eexists. split; [reflexivity|]. cbn. split; [|split].
  - rewrite filter_app, Herrs. now rewrite app_nil_r.
  - apply (proj1 (registrations_after equipment tbl [(v, Some p)] (w_net w)
                    (mkNet (net_tables (w_net w))
                           (other_registrations equipment (w_net w) ++
                            [new_control equipment v (mapped_profile tbl p)])
                           ti) eq_refl)).
  - split; [apply mapped_columns_in_index | apply Hcols].
Qed.

Lemma all_mapped_no_warning_witness :
  exists w',
    apply_power_profile "load" [("p_mw", Some sample_profile)] sample_world =
    (w', Returned tt) /\
    filter is_warning (w_log w') = filter is_warning (w_log sample_world) /\
    registrations "load" (w_net w') =
    [new_control "load" "p_mw" (mapped_profile sample_loads sample_profile)] /\
    (In 5 (element_index (new_control "load" "p_mw"
                            (mapped_profile sample_loads sample_profile))) <->
     In 5 (table_index sample_loads)).
Proof.
  apply (all_mapped_no_warning "load" "p_mw" sample_profile sample_world sample_loads 5).
  - reflexivity.
  - repeat constructor; simpl; intuition discriminate.
  - exact I.
  - repeat constructor; eexists; (split; [reflexivity | vm_compute; discriminate]).
Defined.

(** ** apply_power_profile: the profile mapping *)

Lemma increasing_insert_sorted (x : Z) (l : list Z) :
  increasing l -> increasing (insert_sorted x l).
Proof.
  induction l as [|a l IH]; intros H; [exact I|].
  cbn [insert_sorted].
  destruct (x <? a) eqn:Hlt.
  - apply Z.ltb_lt in Hlt. split; assumption.
  - destruct (x =? a) eqn:Heq; [exact H|].
    apply Z.ltb_ge in Hlt. apply Z.eqb_neq in Heq.
    destruct l as [|b l].
    + simpl. split; [lia | exact I].
    + destruct H as [Hab H]. specialize (IH H). cbn [insert_sorted] in *.
      destruct (x <? b) eqn:Hxb.
      * apply Z.ltb_lt in Hxb. repeat split; try lia; assumption.
      * destruct (x =? b); split; assumption.
Qed.

Lemma increasing_sort_unique (l : list Z) : increasing (sort_unique l).
Proof.
  induction l as [|x l IH]; [exact I|].
  simpl. now apply increasing_insert_sorted.
Qed.

(** X12: the profile mapping has its identifiers in strictly increasing
    order; every row with an identifier has its index listed under that
    identifier, every index listed under an identifier comes from a row
    with it, and no list is empty. *)
Theorem profile_mapping_groups (tbl : EqTable) :
  increasing (map fst (profile_mapping tbl)) /\
  (forall r k, In r tbl -> eq_profile_mapping r = Some k ->
               exists idxs, In (k, idxs) (profile_mapping tbl) /\ In (eq_index r) idxs) /\
  (forall k idxs i, In (k, idxs) (profile_mapping tbl) -> In i idxs ->
                    exists r, In r tbl /\ eq_index r = i /\ eq_profile_mapping r = Some k) /\
  (forall k idxs, In (k, idxs) (profile_mapping tbl) -> idxs <> []).
Proof.
  split; [|split; [|split]].
  - unfold profile_mapping. rewrite map_map. simpl. rewrite map_id.
    apply increasing_sort_unique.
  - apply row_in_profile_mapping.
  - intros k idxs i Hk Hi. apply in_profile_mapping in Hk. subst idxs.
    now apply in_group in Hi.
  - intros k idxs Hk. unfold profile_mapping in Hk. apply in_map_iff in Hk.
    destruct Hk as [k' [E Hkeys]]. inversion E; subst.
    apply in_group_keys in Hkeys. destruct Hkeys as [r [Hr Hm]].
    intros Hnil.
    assert (Hi : In (eq_index r) (map eq_index (filter (has_mapping k) tbl)))
      by (apply in_group; now exists r).
    rewrite Hnil in Hi. contradiction.
Qed.

(** ** load_net_from_xlsx: sheets *)

Lemma Forall2_in_left {A B} (R : A -> B -> Prop) (l : list A) (l' : list B) (x : A) :
  Forall2 R l l' -> In x l -> exists y, In y l' /\ R x y.
Proof.
  induction 1 as [|a b l l' Hab _ IH]; intros Hx; [contradiction|].
  destruct Hx as [->|Hx].
  - exists b. split; [now left | assumption].
  - destruct (IH Hx) as [y [Hy Hr]]. exists y. split; [now right | assumption].
Qed.

Lemma Forall2_in_right {A B} (R : A -> B -> Prop) (l : list A) (l' : list B) (y : B) :
  Forall2 R l l' -> In y l' -> exists x, In x l /\ R x y.
Proof.
  induction 1 as [|a b l l' Hab _ IH]; intros Hy; [contradiction|].
  destruct Hy as [->|Hy].
  - exists a. split; [now left | assumption].
  - destruct (IH Hy) as [x [Hx Hr]]. exists x. split; [now right | assumption].
Qed.

Section LoaderFurther.

Variable py_int : string -> option Z.
Variable py_float : string -> option Q.

Abbreviation load := (load_net_from_xlsx py_int py_float).
Abbreviation convert := (convert_sheet py_int py_float).

(** A sheet that keeps rows is converted when the load returns, and its
    table is in the network. *)
Lemma load_returned_converts (workbook : list (string * RawSheet))
  (net : list (string * Table)) (eq_name : string) (sh : RawSheet) (src : Table) :
  load workbook = Returned net ->
  In (eq_name, sh) workbook ->
  clean_sheet sh = Returned src ->
  src <> [] ->
  exists t, convert eq_name src = Returned t /\ In (eq_name, t) net.
Proof.
  revert net. induction workbook as [|[name0 sh0] wb IH]; intros net Hload Hin Hclean Hne;
    [contradiction|].
  simpl in Hload.
  destruct (clean_sheet sh0) as [t0|e] eqn:Hc0; simpl in Hload; [|discriminate].
  destruct Hin as [E|Hin].
  - inversion E; subst name0 sh0. rewrite Hclean in Hc0. inversion Hc0; subst t0.
    destruct src as [|r src']; [contradiction|].
    destruct (convert_sheet py_int py_float eq_name (r :: src')) as [t|e] eqn:Hconv;
      simpl in Hload; [|discriminate].
    destruct (load_net_from_xlsx py_int py_float wb) as [net'|e]; simpl in Hload;
      [|discriminate].
    inversion Hload; subst net. exists t. split; [reflexivity | now left].
  - destruct t0 as [|r0 t0'].
    + now apply IH.
    + destruct (convert_sheet py_int py_float name0 (r0 :: t0')) as [t|e];
        simpl in Hload; [|discriminate].
      destruct (load_net_from_xlsx py_int py_float wb) as [net'|e]; simpl in Hload;
        [|discriminate].
      inversion Hload; subst net.
      destruct (IH net' eq_refl Hin Hclean Hne) as [t' [Ht' Hin']].
      exists t'. split; [assumption | now right].
Qed.

(** Every table of the network comes from a sheet of its name that kept
    rows. *)
Lemma load_table_origin (workbook : list (string * RawSheet))
  (net : list (string * Table)) (eq_name : string) (t : Table) :
  load workbook = Returned net ->
  In (eq_name, t) net ->
  exists sh src,
    In (eq_name, sh) workbook /\ clean_sheet sh = Returned src /\ src <> [] /\
    convert eq_name src = Returned t.
Proof.
  revert net. induction workbook as [|[name0 sh0] wb IH]; intros net Hload Hin.
  - simpl in Hload. inversion Hload; subst. contradiction.
  - simpl in Hload.
    destruct (clean_sheet sh0) as [t0|e] eqn:Hc0; simpl in Hload; [|discriminate].
    destruct t0 as [|r0 t0'].
    + destruct (IH net Hload Hin) as [sh [src [H1 H2]]].
      exists sh, src. split; [now right | assumption].
    + destruct (convert_sheet py_int py_float name0 (r0 :: t0')) as [t'|e] eqn:Hconv;
        simpl in Hload; [|discriminate].
      destruct (load_net_from_xlsx py_int py_float wb) as [net'|e]; simpl in Hload;
        [|discriminate].
      inversion Hload; subst net. destruct Hin as [E|Hin].
      * inversion E; subst. exists sh0, (r0 :: t0').
        repeat split; [now left | assumption | discriminate | assumption].
      * destruct (IH net' eq_refl Hin) as [sh [src [H1 H2]]].
        exists sh, src. split; [now right | assumption].
Qed.

(** X13: a sheet left without rows by the cleaning is passed over: the
    load does what it does on the workbook without that sheet. *)
Theorem empty_sheet_skipped (wb1 wb2 : list (string * RawSheet)) (eq_name : string)
  (sh : RawSheet) :
  clean_sheet sh = Returned [] ->
  load (wb1 ++ (eq_name, sh) :: wb2) = load (wb1 ++ wb2).
Proof.
  intros Hclean. induction wb1 as [|[name0 sh0] wb1 IH]; simpl.
  - now rewrite Hclean.
  - destruct (clean_sheet sh0) as [[|r t]|e]; simpl; [exact IH | | reflexivity].
    destruct (convert_sheet py_int py_float name0 (r :: t)); simpl; [|reflexivity].
    now rewrite IH.
Qed.

(** X14: a sheet without the helper column "idx" makes the whole load
    raise. *)
Theorem sheet_without_idx_fails (workbook : list (string * RawSheet)) (eq_name : string)
  (sh : RawSheet) :
  In (eq_name, sh) workbook ->
  in_names "idx" (sheet_columns sh) = false ->
  exists e, load workbook = Raised e.
Proof.
  intros Hin Hidx. induction workbook as [|[name0 sh0] wb IH]; [contradiction|].
  simpl. destruct Hin as [E|Hin].
  - inversion E; subst. unfold clean_sheet, drop_idx. rewrite Hidx. simpl.
    now exists KeyError.
  - destruct (IH Hin) as [e He].
    destruct (clean_sheet sh0) as [[|r t]|e0]; simpl.
    + now exists e.
    + destruct (convert_sheet py_int py_float name0 (r :: t)) as [t'|e1]; simpl.
      * rewrite He. simpl. now exists e.
      * now exists e1.
    + now exists e0.
Qed.

(** The tables the loop assigns are those of the sheets that kept rows,
    under the names of those sheets and in their order. *)
Lemma assigned_table_names (workbook : list (string * RawSheet))
  (net : list (string * Table)) :
  load workbook = Returned net ->
  map fst net = map fst (filter (fun entry => kept_sheet (snd entry)) workbook).
Proof.
  revert net. induction workbook as [|[name0 sh0] wb IH]; intros net Hload; simpl in *.
  - now inversion Hload.
  - unfold kept_sheet at 1.
    destruct (clean_sheet sh0) as [[|r t]|e]; simpl in Hload; [now apply IH | | discriminate].
    destruct (convert_sheet py_int py_float name0 (r :: t)) as [t'|e]; simpl in Hload;
      [|discriminate].
    destruct (load_net_from_xlsx py_int py_float wb) as [net'|e]; simpl in Hload;
      [|discriminate].
    inversion Hload; subst. simpl. f_equal. now apply IH.
Qed.

End LoaderFurther.

Lemma empty_sheet_skipped_witness :
  clean_sheet empty_sheet = Returned [] /\
  load_net_from_xlsx (fun _ => None) (fun _ => None)
    ([("bus", bus_sheet)] ++ ("sgen", empty_sheet) :: [("load", load_sheet)]) =
  load_net_from_xlsx (fun _ => None) (fun _ => None)
    ([("bus", bus_sheet)] ++ [("load", load_sheet)]).
Proof.
  assert (H : clean_sheet empty_sheet = Returned []) by reflexivity.
  split; [exact H|].
  exact (empty_sheet_skipped (fun _ => None) (fun _ => None) [("bus", bus_sheet)]
           [("load", load_sheet)] "sgen" empty_sheet H).
Defined.

Lemma sheet_without_idx_fails_witness :
  In ("trafo", mkSheet ["name"; "hv_bus"] [(0%nat, [Str "T1"; Int 0])])
     [("bus", bus_sheet); ("trafo", mkSheet ["name"; "hv_bus"] [(0%nat, [Str "T1"; Int 0])])] /\
  in_names "idx" (sheet_columns (mkSheet ["name"; "hv_bus"] [(0%nat, [Str "T1"; Int 0])])) =
  false /\
  exists e,
    load_net_from_xlsx (fun _ => None) (fun _ => None)
      [("bus", bus_sheet); ("trafo", mkSheet ["name"; "hv_bus"] [(0%nat, [Str "T1"; Int 0])])] =
    Raised e.
Proof.
  assert (H1 : In ("trafo", mkSheet ["name"; "hv_bus"] [(0%nat, [Str "T1"; Int 0])])
                 [("bus", bus_sheet);
                  ("trafo", mkSheet ["name"; "hv_bus"] [(0%nat, [Str "T1"; Int 0])])])
    by (simpl; tauto).
  assert (H2 : in_names "idx"
                 (sheet_columns (mkSheet ["name"; "hv_bus"] [(0%nat, [Str "T1"; Int 0])])) =
               false) by reflexivity.
  split; [exact H1|]. split; [exact H2|].
  exact (sheet_without_idx_fails (fun _ => None) (fun _ => None) _ _ _ H1 H2).
Defined.

(** ** load_net_from_xlsx: fields *)

Lemma rows_related_transfer (R : string * cell -> string * cell -> Prop)
  (Q P : string * cell -> Prop) (t t' : Table) :
  (forall f f', Q f -> R f f' -> P f') ->
  rows_related R t t' ->
  Forall (fun r => Forall Q (snd r)) t ->
  Forall (fun r => Forall P (snd r)) t'.
Proof.
  intros HR Hrel. unfold rows_related in Hrel.
  induction Hrel as [|r r' t t' [_ Hf] _ IH]; intros HQ; constructor.
  - inversion HQ as [|? ? Hq _]; subst. clear IH HQ.
    induction Hf as [|f f' fs fs' Hff' _ IHf]; constructor.
    + inversion Hq; subst. now apply (HR f f').
    + apply IHf. now inversion Hq.
  - apply IH. now inversion HQ.
Qed.

Lemma clean_sheet_no_idx (sh : RawSheet) (src : Table) :
  clean_sheet sh = Returned src ->
  Forall (fun r => Forall (fun f => fst f <> "idx"%string) (snd r)) src.
Proof.
  unfold clean_sheet, drop_idx. destruct (in_names "idx" (sheet_columns sh)); simpl;
    intros H; inversion H; subst.
  apply Forall_forall. intros r Hr. unfold dropna_all in Hr.
  apply filter_In in Hr. destruct Hr as [Hr _]. apply in_map_iff in Hr.
  destruct Hr as [r0 [<- _]]. simpl. apply Forall_forall. intros f Hf.
  apply filter_In in Hf. destruct Hf as [_ Hf]. apply negb_true_iff in Hf.
  now apply String.eqb_neq in Hf.
Qed.

Section LoaderFields.

Variable py_int : string -> option Z.
Variable py_float : string -> option Q.

Lemma int_column_not_special (c : string) :
  in_names c int_column = true ->
  String.eqb c "type" = false /\ String.eqb c "coords" = false.
Proof.
  intros H. split.
  - destruct (String.eqb c "type") eqn:E; [|reflexivity].
    apply String.eqb_eq in E. subst c. vm_compute in H. discriminate.
  - destruct (String.eqb c "coords") eqn:E; [|reflexivity].
    apply String.eqb_eq in E. subst c. vm_compute in H. discriminate.
Qed.

Lemma bool_column_not_special (c : string) :
  in_names c bool_column = true ->
  String.eqb c "type" = false /\ String.eqb c "coords" = false.
Proof.
  intros H. split.
  - destruct (String.eqb c "type") eqn:E; [|reflexivity].
    apply String.eqb_eq in E. subst c. vm_compute in H. discriminate.
  - destruct (String.eqb c "coords") eqn:E; [|reflexivity].
    apply String.eqb_eq in E. subst c. vm_compute in H. discriminate.
Qed.

(** A field with no value in an integer column that has no default cannot
    be converted. *)
Lemma null_int_field_not_converted (eq_name c : string) (v : cell) (f' : string * cell) :
  is_null v = true ->
  in_names c int_column = true ->
  dict_get c default_values = None ->
  ~ field_converted py_int py_float eq_name (c, v) f'.
Proof.
  intros Hnull Hint Hdef [f1 [f2 [f3 [E1 [E2 [E3 E4]]]]]].
  destruct (int_column_not_special c Hint) as [Htype Hcoords].
  unfold fill_cell in E1. cbn [fst snd] in E1. rewrite Hnull, Hdef in E1. subst f1.
  assert (F2 : f2 = (c, v)).
  { unfold class_field_rel in E2.
    destruct (String.eqb eq_name "bus").
    { subst f2. unfold fill_cell. cbn [fst snd dict_get]. rewrite Hnull.
      rewrite String.eqb_sym, Htype. reflexivity. }
    destruct (String.eqb eq_name "load").
    { subst f2. unfold fill_cell. cbn [fst snd dict_get]. rewrite Hnull.
      rewrite String.eqb_sym, Htype. reflexivity. }
    destruct (String.eqb eq_name "line_geodata"); [|assumption].
    unfold apply_coords_field in E2. cbn [fst snd] in E2. rewrite Hcoords in E2.
    now inversion E2. }
  subst f2. unfold cast_int_field in E3. cbn [fst snd] in E3. rewrite Hint in E3.
  destruct v; try discriminate.
Qed.

(** X16: a field without a value in a column of the integer set that has
    no default (bus, from_bus, to_bus, element, hv_bus, lv_bus), in a row
    that the cleaning keeps, makes the whole load raise. *)
Theorem missing_integer_fails (workbook : list (string * RawSheet)) (eq_name : string)
  (sh : RawSheet) (src : Table) (row : nat * Fields) (c : string) (v : cell) :
  In (eq_name, sh) workbook ->
  clean_sheet sh = Returned src ->
  In row src ->
  In (c, v) (snd row) ->
  is_null v = true ->
  In c int_column ->
  dict_get c default_values = None ->
  exists e, load_net_from_xlsx py_int py_float workbook = Raised e.
Proof.
  intros Hin Hclean Hrow Hf Hnull Hint Hdef.
  destruct (load_net_from_xlsx py_int py_float workbook) as [net|e] eqn:Hload;
    [exfalso | now exists e].
  assert (Hne : src <> []) by (intros ->; contradiction).
  destruct (load_returned_converts py_int py_float _ _ _ _ _ Hload Hin Hclean Hne)
    as [t [Hconv _]].
  apply convert_sheet_related in Hconv. unfold rows_related in Hconv.
  destruct (Forall2_in_left _ _ _ _ Hconv Hrow) as [row' [_ [_ Hfields]]].
  destruct (Forall2_in_left _ _ _ _ Hfields Hf) as [f' [_ Hconvf]].
  apply in_names_In in Hint.
  exact (null_int_field_not_converted eq_name c v f' Hnull Hint Hdef Hconvf).
Qed.

Lemma field_converted_kept (eq_name : string) (f f' : string * cell) :
  field_converted py_int py_float eq_name f f' -> field_kept eq_name f f'.
Proof.
  intros Hconv. split; [now apply (field_converted_name py_int py_float eq_name)|].
  destruct Hconv as [f1 [f2 [f3 [E1 [E2 [E3 E4]]]]]].
  destruct f as [c v]. cbn [fst snd]. intros Hnull Htyped Hcoords.
  unfold fill_cell in E1. cbn [fst snd] in E1. rewrite Hnull in E1. subst f1.
  assert (F2 : f2 = (c, v)).
  { unfold class_field_rel in E2.
    destruct (String.eqb eq_name "bus").
    { subst f2. unfold fill_cell. cbn [fst snd]. now rewrite Hnull. }
    destruct (String.eqb eq_name "load").
    { subst f2. unfold fill_cell. cbn [fst snd]. now rewrite Hnull. }
    destruct (String.eqb eq_name "line_geodata") eqn:Hgeo; [|assumption].
    apply String.eqb_eq in Hgeo.
    unfold apply_coords_field in E2. cbn [fst snd] in E2.
    destruct (String.eqb c "coords") eqn:Hc; [|now inversion E2].
    apply String.eqb_eq in Hc. exfalso. apply Hcoords. now split. }
  subst f2. unfold already_typed in Htyped. apply andb_true_iff in Htyped.
  destruct Htyped as [Hi Hb].
  assert (F3 : f3 = (c, v)).
  { unfold cast_int_field in E3. cbn [fst snd] in E3.
    destruct (in_names c int_column); [|now inversion E3].
    destruct v; try discriminate. cbn [astype_int64] in E3. rewrite Hi in E3.
    cbn [and_then] in E3. now inversion E3. }
  subst f3 f'. unfold cast_bool_field. cbn [fst snd].
  destruct (in_names c bool_column).
  - destruct v; try discriminate. reflexivity.
  - unfold nan_to_none. cbn [fst snd]. destruct v; try reflexivity. discriminate.
Qed.

(** X17: when the load returns, the table of a sheet that keeps rows has
    the rows of the cleaned sheet under their labels and with their
    columns, and a field keeps the value the sheet gave it whenever that
    value already has the type of its column; only the coordinates of
    the line_geodata sheet are rewritten. *)
Theorem values_preserved (workbook : list (string * RawSheet))
  (net : list (string * Table)) (eq_name : string) (sh : RawSheet) (src : Table) :
  load_net_from_xlsx py_int py_float workbook = Returned net ->
  In (eq_name, sh) workbook ->
  clean_sheet sh = Returned src ->
  src <> [] ->
  exists t, In (eq_name, t) net /\ rows_related (field_kept eq_name) src t.
Proof.
  intros Hload Hin Hclean Hne.
  destruct (load_returned_converts py_int py_float _ _ _ _ _ Hload Hin Hclean Hne)
    as [t [Hconv Ht]].
  exists t. split; [exact Ht|].
  apply convert_sheet_related in Hconv. revert Hconv. apply rows_related_weaken.
  apply field_converted_kept.
Qed.

(** X18: no field of a loaded table holds NaN, and no loaded table has
    the helper column "idx". *)
Theorem loaded_fields_clean (workbook : list (string * RawSheet))
  (net : list (string * Table)) (eq_name : string) (t : Table) (row : nat * Fields)
  (f : string * cell) :
  load_net_from_xlsx py_int py_float workbook = Returned net ->
  In (eq_name, t) net ->
  In row t ->
  In f (snd row) ->
  snd f <> NaN /\ fst f <> "idx"%string.
Proof.
  intros Hload Ht Hrow Hf.
  destruct (load_table_origin py_int py_float _ _ _ _ Hload Ht)
    as [sh [src [_ [Hclean [_ Hconv]]]]].
  apply convert_sheet_related in Hconv.
  pose proof (clean_sheet_no_idx sh src Hclean) as Hidx.
  assert (Hfield : forall f0 f0' : string * cell,
             fst f0 <> "idx"%string ->
             field_converted py_int py_float eq_name f0 f0' ->
             snd f0' <> NaN /\ fst f0' <> "idx"%string).
  { intros f0 f0' Hq Hc. split.
    - destruct Hc as [f1 [f2 [f3 [_ [_ [_ ->]]]]]].
      unfold nan_to_none. destruct (snd (cast_bool_field f3)) eqn:E; cbn [snd];
        try rewrite E; discriminate.
    - rewrite (field_converted_name py_int py_float eq_name f0 f0' Hc). exact Hq. }
  pose proof (rows_related_transfer _ _ _ _ _ Hfield Hconv Hidx) as H.
  rewrite Forall_forall in H. specialize (H row Hrow).
  rewrite Forall_forall in H. exact (H f Hf).
Qed.

End LoaderFields.

Lemma missing_integer_fails_witness :
  let src := returned_or [] (clean_sheet line_sheet) in
  let row := (0%nat, [("name", Str "Line 0"); ("from_bus", Int 0); ("to_bus", NaN);
                      ("length_km", Float (1 # 2))]) in
  In ("line", line_sheet) [("bus", bus_sheet); ("line", line_sheet)] /\
  clean_sheet line_sheet = Returned src /\
  In row src /\
  In ("to_bus", NaN) (snd row) /\
  is_null NaN = true /\
  In "to_bus"%string int_column /\
  dict_get "to_bus" default_values = None /\
  exists e,
    load_net_from_xlsx (fun _ => None) (fun _ => None)
      [("bus", bus_sheet); ("line", line_sheet)] = Raised e.
Proof.
  intros src row.
  assert (H1 : In ("line", line_sheet) [("bus", bus_sheet); ("line", line_sheet)])
    by (simpl; tauto).
  assert (H2 : clean_sheet line_sheet = Returned src) by (vm_compute; reflexivity).
  assert (H3 : In row src) by (vm_compute; tauto).
  assert (H4 : In ("to_bus", NaN) (snd row)) by (simpl; tauto).
  assert (H5 : is_null NaN = true) by reflexivity.
  assert (H6 : In "to_bus"%string int_column) by (simpl; tauto).
  assert (H7 : dict_get "to_bus" default_values = None) by reflexivity.
  split; [exact H1|]. split; [exact H2|]. split; [exact H3|]. split; [exact H4|].
  split; [exact H5|]. split; [exact H6|]. split; [exact H7|].
  exact (missing_integer_fails (fun _ => None) (fun _ => None) _ "line" line_sheet src row
           "to_bus" NaN H1 H2 H3 H4 H5 H6 H7).
Defined.

Lemma values_preserved_witness :
  let net := returned_or [] (load_net_from_xlsx (fun _ => None) (fun _ => None)
                               sample_workbook) in
  let src := returned_or [] (clean_sheet bus_sheet) in
  load_net_from_xlsx (fun _ => None) (fun _ => None) sample_workbook = Returned net /\
  In ("bus", bus_sheet) sample_workbook /\
  clean_sheet bus_sheet = Returned src /\
  src <> [] /\
  exists t, In ("bus", t) net /\ rows_related (field_kept "bus") src t.
Proof.
  intros net src.
  assert (H1 : load_net_from_xlsx (fun _ => None) (fun _ => None) sample_workbook =
               Returned net) by (vm_compute; reflexivity).
  assert (H2 : In ("bus", bus_sheet) sample_workbook) by (simpl; tauto).
  assert (H3 : clean_sheet bus_sheet = Returned src) by (vm_compute; reflexivity).
  assert (H4 : src <> []) by (vm_compute; discriminate).
  split; [exact H1|]. split; [exact H2|]. split; [exact H3|]. split; [exact H4|].
  exact (values_preserved (fun _ => None) (fun _ => None) sample_workbook net "bus"
           bus_sheet src H1 H2 H3 H4).
Defined.

Lemma loaded_fields_clean_witness :
  let net := returned_or [] (load_net_from_xlsx (fun _ => None) (fun _ => None)
                               sample_workbook) in
  let row := (0%nat, [("name", Str "Bus 0"); ("vn_kv", Float (4 # 10)); ("type", Str "b");
                      ("in_service", Bool true)]) in
  load_net_from_xlsx (fun _ => None) (fun _ => None) sample_workbook = Returned net /\
  In ("bus", loaded_bus_table) net /\
  In row loaded_bus_table /\
  In ("type", Str "b") (snd row) /\
  snd ("type"%string, Str "b") <> NaN /\ fst ("type"%string, Str "b") <> "idx"%string.
Proof.
  intros net row.
  assert (H1 : load_net_from_xlsx (fun _ => None) (fun _ => None) sample_workbook =
               Returned net) by (vm_compute; reflexivity).
  assert (H2 : In ("bus", loaded_bus_table) net) by (left; vm_compute; reflexivity).
  assert (H3 : In row loaded_bus_table) by (left; reflexivity).
  assert (H4 : In ("type"%string, Str "b") (snd row)) by (simpl; tauto).
  split; [exact H1|]. split; [exact H2|]. split; [exact H3|]. split; [exact H4|].
  exact (loaded_fields_clean (fun _ => None) (fun _ => None) sample_workbook net "bus"
           loaded_bus_table row ("type"%string, Str "b") H1 H2 H3 H4).
Defined.

(** ** load_net_from_xlsx: the network returned *)

Lemma dict_get_set_same {V} (key : string) (v : V) (d : list (string * V)) :
  dict_get key (dict_set key v d) = Some v.
Proof.
  induction d as [|[k x] d IH]; simpl.
  - now rewrite String.eqb_refl.
  - destruct (String.eqb k key) eqn:E; simpl; rewrite E; [reflexivity | exact IH].
Qed.

Lemma dict_get_set_other {V} (key key' : string) (v : V) (d : list (string * V)) :
  key' <> key -> dict_get key' (dict_set key v d) = dict_get key' d.
Proof.
  intros Hneq. induction d as [|[k x] d IH]; simpl.
  - destruct (String.eqb key key') eqn:E; [|reflexivity].
    apply String.eqb_eq in E. now elim Hneq.
  - destruct (String.eqb k key) eqn:E; simpl.
    + apply String.eqb_eq in E. subst k.
      destruct (String.eqb key key') eqn:E'; [|reflexivity].
      apply String.eqb_eq in E'. now elim Hneq.
    + now rewrite IH.
Qed.

Lemma keys_dict_set {V} (key key' : string) (v : V) (d : list (string * V)) :
  In key' (map fst (dict_set key v d)) <-> key' = key \/ In key' (map fst d).
Proof.
  induction d as [|[k x] d IH]; simpl.
  - split; [intros [E|[]]; now left | intros [E|[]]; now left].
  - destruct (String.eqb k key) eqn:E; simpl.
    + apply String.eqb_eq in E. subst k. split; [tauto|].
      intros [->|H]; [now left | exact H].
    + rewrite IH. tauto.
Qed.

(** Distinct sheet names stay distinct among the sheets that kept rows. *)
Lemma kept_names_distinct (workbook : list (string * RawSheet)) :
  NoDup (map fst workbook) ->
  NoDup (map fst (filter (fun entry => kept_sheet (snd entry)) workbook)).
Proof.
  induction workbook as [|[eq_name sh] wb IH]; intros Hnd; [constructor|].
  inversion Hnd as [|? ? Hfresh Hrest]; subst. cbn [filter snd].
  destruct (kept_sheet sh); [|now apply IH].
  cbn [map fst]. constructor; [|now apply IH].
  intros Hin. apply Hfresh. apply in_map_iff in Hin.
  destruct Hin as [[name' sh'] [E Hkept]]. apply filter_In in Hkept.
  apply in_map_iff. exists (name', sh'). split; [exact E | apply (proj1 Hkept)].
Qed.

Section ReturnedNetworkProperties.

Variable py_int : string -> option Z.
Variable py_float : string -> option Q.
Variable Other : Type.
Variable create_empty_network : list (string * NetEntry Other).

Lemma assign_tables_other (assigned : list (string * Table)) (key : string) :
  forall net : list (string * NetEntry Other),
    ~ In key (map fst assigned) ->
    dict_get key (assign_tables Other net assigned) = dict_get key net.
Proof.
  unfold assign_tables. induction assigned as [|[name t] assigned IH]; intros net Hnot;
    [reflexivity|].
  cbn [fold_left fst snd]. rewrite IH.
  - apply dict_get_set_other. intros E. apply Hnot. left. now symmetry.
  - intros Hin. apply Hnot. now right.
Qed.

Lemma assign_tables_assigned (assigned : list (string * Table)) (name : string)
  (t : Table) :
  forall net : list (string * NetEntry Other),
    NoDup (map fst assigned) ->
    In (name, t) assigned ->
    dict_get name (assign_tables Other net assigned) = Some (TableEntry t).
Proof.
  unfold assign_tables. induction assigned as [|[name0 t0] assigned IH];
    intros net Hnd Hin; [contradiction|].
  cbn [fold_left fst snd]. inversion Hnd as [|? ? Hnot Hnd']; subst.
  destruct Hin as [E|Hin].
  - inversion E; subst.
    change (dict_get name (assign_tables Other (dict_set name (TableEntry t) net) assigned)
            = Some (TableEntry t)).
    rewrite assign_tables_other by exact Hnot. apply dict_get_set_same.
  - now apply IH.
Qed.

Lemma assign_tables_keys (assigned : list (string * Table)) (key : string) :
  forall net : list (string * NetEntry Other),
    In key (map fst (assign_tables Other net assigned)) <->
    In key (map fst net) \/ In key (map fst assigned).
Proof.
  unfold assign_tables. induction assigned as [|[name t] assigned IH]; intros net.
  - simpl. tauto.
  - cbn [fold_left fst snd map]. rewrite IH, keys_dict_set. simpl.
    split; intros H; intuition (subst; auto).
Qed.

(** X15: when the load returns, with sheets of distinct names, the
    network returned is pandapower's empty network with the converted
    table of every sheet that kept rows assigned under the name of the
    sheet: such a name is a key of the network and holds that table,
    every other key holds what it holds in the empty network, and the
    keys are those of the empty network and the names of those sheets. *)
Theorem returned_net_tables (workbook : list (string * RawSheet))
  (net : list (string * NetEntry Other)) :
  NoDup (map fst workbook) ->
  returned_net py_int py_float Other create_empty_network workbook = Returned net ->
  (forall eq_name sh,
      In (eq_name, sh) workbook -> kept_sheet sh = true ->
      exists data_df t,
        clean_sheet sh = Returned data_df /\
        convert_sheet py_int py_float eq_name data_df = Returned t /\
        dict_get eq_name net = Some (TableEntry t)) /\
  (forall key,
      ~ In key (map fst (filter (fun entry => kept_sheet (snd entry)) workbook)) ->
      dict_get key net = dict_get key create_empty_network) /\
  (forall key,
      In key (map fst net) <->
      In key (map fst create_empty_network) \/
      In key (map fst (filter (fun entry => kept_sheet (snd entry)) workbook))).
Proof.
  intros Hnd. unfold returned_net.
  destruct (load_net_from_xlsx py_int py_float workbook) as [assigned|e] eqn:Hload;
    simpl; [|discriminate].
  intros H. inversion H; subst net. clear H.
  pose proof (assigned_table_names py_int py_float workbook assigned Hload) as Hnames.
  assert (Hnd' : NoDup (map fst assigned)).
  { rewrite Hnames. now apply kept_names_distinct. }
  split; [|split].
  - intros eq_name sh Hin Hkept. unfold kept_sheet in Hkept.
    destruct (clean_sheet sh) as [[|r src]|e] eqn:Hclean; try discriminate.
    destruct (load_returned_converts py_int py_float workbook assigned eq_name sh
                (r :: src) Hload Hin Hclean) as [t [Hconv Ht]]; [discriminate|].
    exists (r :: src), t. split; [reflexivity|]. split; [exact Hconv|].
    now apply assign_tables_assigned.
  - intros key Hkey. apply assign_tables_other. now rewrite Hnames.
  - intros key. rewrite assign_tables_keys, Hnames. reflexivity.
Qed.

End ReturnedNetworkProperties.

Lemma returned_net_tables_witness :
  let net := returned_or [] (returned_net (fun _ => None) (fun _ => None) unit
                               sample_empty_network sample_workbook) in
  NoDup (map fst sample_workbook) /\
  returned_net (fun _ => None) (fun _ => None) unit sample_empty_network sample_workbook
    = Returned net /\
  (forall eq_name sh,
      In (eq_name, sh) sample_workbook -> kept_sheet sh = true ->
      exists data_df t,
        clean_sheet sh = Returned data_df /\
        convert_sheet (fun _ => None) (fun _ => None) eq_name data_df = Returned t /\
        dict_get eq_name net = Some (TableEntry t)) /\
  (forall key,
      ~ In key (map fst (filter (fun entry => kept_sheet (snd entry)) sample_workbook)) ->
      dict_get key net = dict_get key sample_empty_network) /\
  (forall key,
      In key (map fst net) <->
      In key (map fst sample_empty_network) \/
      In key (map fst (filter (fun entry => kept_sheet (snd entry)) sample_workbook))).
Proof.
  intros net.
  assert (H1 : NoDup (map fst sample_workbook)).
  { repeat constructor; simpl; intuition discriminate. }
  assert (H2 : returned_net (fun _ => None) (fun _ => None) unit sample_empty_network
                 sample_workbook = Returned net) by (vm_compute; reflexivity).
  split; [exact H1|]. split; [exact H2|].
  exact (returned_net_tables (fun _ => None) (fun _ => None) unit sample_empty_network
           sample_workbook net H1 H2).
Defined.

(** The sample workbook on the sample empty network: the bus table is
    replaced where it stands, the load table is new and comes last, the
    transformer table and the name stay. *)
Example sample_network_keys :
  map fst (returned_or [] (returned_net (fun _ => None) (fun _ => None) unit
                             sample_empty_network sample_workbook)) =
  ["bus"; "trafo"; "name"; "load"].
Proof. vm_compute. reflexivity. Qed.

(** ** load_power_profile_form_xlsx: the bounds of the grid *)

(** X19: when the row labels are times of day and some sheet starts at
    23:59:59 or before, the first loop gives as period the minimum
    inter-sample gap, that is a gap between two consecutive samples of a
    sheet with data that no such gap is below (one day when no sheet has
    more than one sample), the earliest first-sample time as the start
    and the latest last-sample time as the end. *)
Theorem common_bounds_regular (workbook : list (string * ProfileSheet))
  (first : time) (firsts : list time) (final : time) (finals : list time) (x : time) :
  times_of_day workbook ->
  first_samples workbook = first :: firsts ->
  last_samples workbook = final :: finals ->
  In x (first :: firsts) ->
  x <= time_of 23 59 59 ->
  expected_period workbook (period (common_bounds workbook)) /\
  start_time (common_bounds workbook) = fold_left Z.min firsts first /\
  end_time (common_bounds workbook) = fold_left Z.max finals final.
Proof.
  intros Htimes Hfirst Hlast Hx Hle. split; [|split].
  - now apply period_as_expected.
  - now apply (common_start_earliest workbook first firsts x).
  - now apply common_end_latest.
Qed.

Lemma common_bounds_regular_witness :
  times_of_day [("load", hourly_sheet); ("sgen", quarter_sheet)] /\
  first_samples [("load", hourly_sheet); ("sgen", quarter_sheet)] =
  time_of 0 0 0 :: [time_of 1 0 0] /\
  last_samples [("load", hourly_sheet); ("sgen", quarter_sheet)] =
  time_of 12 0 0 :: [time_of 1 15 0] /\
  In (time_of 1 0 0) (time_of 0 0 0 :: [time_of 1 0 0]) /\
  time_of 1 0 0 <= time_of 23 59 59 /\
  expected_period [("load", hourly_sheet); ("sgen", quarter_sheet)]
    (period (common_bounds [("load", hourly_sheet); ("sgen", quarter_sheet)])) /\
  start_time (common_bounds [("load", hourly_sheet); ("sgen", quarter_sheet)]) =
  fold_left Z.min [time_of 1 0 0] (time_of 0 0 0) /\
  end_time (common_bounds [("load", hourly_sheet); ("sgen", quarter_sheet)]) =
  fold_left Z.max [time_of 1 15 0] (time_of 12 0 0).
Proof.
  assert (H1 : times_of_day [("load", hourly_sheet); ("sgen", quarter_sheet)]).
  { repeat constructor; vm_compute; discriminate. }
  assert (H2 : first_samples [("load", hourly_sheet); ("sgen", quarter_sheet)] =
               time_of 0 0 0 :: [time_of 1 0 0]) by reflexivity.
  assert (H3 : last_samples [("load", hourly_sheet); ("sgen", quarter_sheet)] =
               time_of 12 0 0 :: [time_of 1 15 0]) by reflexivity.
  assert (H4 : In (time_of 1 0 0) (time_of 0 0 0 :: [time_of 1 0 0])) by (simpl; tauto).
  assert (H5 : time_of 1 0 0 <= time_of 23 59 59) by (vm_compute; discriminate).
  split; [exact H1|]. split; [exact H2|]. split; [exact H3|]. split; [exact H4|].
  split; [exact H5|].
  exact (common_bounds_regular _ _ _ _ _ _ H1 H2 H3 H4 H5).
Defined.

Lemma update_bounds_empty (b : GridBounds) (sh : ProfileSheet) :
  ps_empty sh = true -> update_bounds b sh = b.
Proof.
  intros H. unfold update_bounds. now rewrite H.
Qed.

(** X20: a sheet that is empty once cleaned has no part in the result:
    the bounds of the grid and the tables returned are those of the
    workbook without it. *)
Theorem empty_profile_sheet_ignored (wb1 wb2 : list (string * ProfileSheet))
  (name : string) (sh : ProfileSheet) :
  ps_empty sh = true ->
  common_bounds (wb1 ++ (name, sh) :: wb2) = common_bounds (wb1 ++ wb2) /\
  load_power_profile_form_xlsx (wb1 ++ (name, sh) :: wb2) =
  load_power_profile_form_xlsx (wb1 ++ wb2).
Proof.
  intros Hempty.
  assert (Hb : common_bounds (wb1 ++ (name, sh) :: wb2) = common_bounds (wb1 ++ wb2)).
  { unfold common_bounds. rewrite !fold_left_app. cbn [fold_left snd].
    now rewrite update_bounds_empty. }
  split; [exact Hb|].
  unfold load_power_profile_form_xlsx, common_grid. rewrite Hb.
  rewrite !filter_app. cbn [filter snd]. rewrite Hempty. reflexivity.
Qed.

Lemma empty_profile_sheet_ignored_witness :
  ps_empty (mkProfileSheet [] []) = true /\
  common_bounds ([("load", hourly_sheet)] ++ ("gen", mkProfileSheet [] [])
                   :: [("sgen", quarter_sheet)]) =
  common_bounds ([("load", hourly_sheet)] ++ [("sgen", quarter_sheet)]) /\
  load_power_profile_form_xlsx ([("load", hourly_sheet)] ++ ("gen", mkProfileSheet [] [])
                                  :: [("sgen", quarter_sheet)]) =
  load_power_profile_form_xlsx ([("load", hourly_sheet)] ++ [("sgen", quarter_sheet)]).
Proof.
  assert (H : ps_empty (mkProfileSheet [] []) = true) by reflexivity.
  split; [exact H|].
  exact (empty_profile_sheet_ignored [("load", hourly_sheet)] [("sgen", quarter_sheet)]
           "gen" (mkProfileSheet [] []) H).
Defined.

(** X21: a workbook in which every sheet is empty once cleaned gives an
    empty dictionary, without an error: the grid between the bounds the
    loop starts from has no point. *)
Theorem all_sheets_empty (workbook : list (string * ProfileSheet)) :
  Forall (fun entry => ps_empty (snd entry) = true) workbook ->
  common_grid workbook = Returned [] /\
  load_power_profile_form_xlsx workbook = Returned [].
Proof.
  intros H.
  assert (Hb : common_bounds workbook = initial_bounds).
  { unfold common_bounds. generalize initial_bounds.
    induction H as [|[name sh] wb Hsh _ IH]; intros b; cbn [fold_left snd];
      [reflexivity|].
    simpl in Hsh. rewrite update_bounds_empty by exact Hsh. apply IH. }
  assert (Hg : common_grid workbook = Returned []).
  { unfold common_grid. rewrite Hb. reflexivity. }
  split; [exact Hg|].
  unfold load_power_profile_form_xlsx. rewrite Hg. simpl. f_equal.
  rewrite filter_none; [reflexivity|].
  intros entry Hin. rewrite Forall_forall in H. rewrite (H entry Hin). reflexivity.
Qed.

Lemma all_sheets_empty_witness :
  Forall (fun entry => ps_empty (snd entry) = true)
         [("load", mkProfileSheet [] []); ("sgen", mkProfileSheet [time_of 1 0 0] [])] /\
  common_grid [("load", mkProfileSheet [] []); ("sgen", mkProfileSheet [time_of 1 0 0] [])] =
  Returned [] /\
  load_power_profile_form_xlsx
    [("load", mkProfileSheet [] []); ("sgen", mkProfileSheet [time_of 1 0 0] [])] =
  Returned [].
Proof.
  assert (H : Forall (fun entry => ps_empty (snd entry) = true)
                [("load", mkProfileSheet [] []);
                 ("sgen", mkProfileSheet [time_of 1 0 0] [])])
    by (repeat constructor).
  split; [exact H|].
  exact (all_sheets_empty _ H).
Defined.

(** ** load_power_profile_form_xlsx: the order of the sheets *)

Lemma fold_min_permutation (l l' : list Z) :
  Permutation l l' -> forall d, fold_left Z.min l d = fold_left Z.min l' d.
Proof.
  induction 1 as [|x l l' _ IH|x y l|l l' l'' _ IH1 _ IH2]; intros d; simpl.
  - reflexivity.
  - apply IH.
  - f_equal. lia.
  - now rewrite IH1.
Qed.

Lemma fold_max_permutation (l l' : list Z) :
  Permutation l l' -> forall d, fold_left Z.max l d = fold_left Z.max l' d.
Proof.
  induction 1 as [|x l l' _ IH|x y l|l l' l'' _ IH1 _ IH2]; intros d; simpl.
  - reflexivity.
  - apply IH.
  - f_equal. lia.
  - now rewrite IH1.
Qed.

Lemma bounds_ext (a b : GridBounds) :
  period a = period b -> start_time a = start_time b -> end_time a = end_time b -> a = b.
Proof.
  destruct a, b. simpl. now intros -> -> ->.
Qed.

(** X22: the bounds of the grid, and so the grid, do not depend on the
    order in which the workbook presents its sheets. *)
Theorem grid_independent_of_sheet_order (wb wb' : list (string * ProfileSheet)) :
  Permutation wb wb' ->
  common_bounds wb = common_bounds wb' /\ common_grid wb = common_grid wb'.
Proof.
  intros Hperm.
  assert (Hb : common_bounds wb = common_bounds wb').
  { apply bounds_ext.
    - rewrite !common_bounds_period. apply fold_min_permutation.
      unfold all_gaps. now apply Permutation_flat_map.
    - rewrite !common_bounds_start. apply fold_min_permutation.
      unfold first_samples. now apply Permutation_flat_map.
    - rewrite !common_bounds_end. apply fold_max_permutation.
      unfold last_samples. now apply Permutation_flat_map. }
  split; [exact Hb|]. unfold common_grid. now rewrite Hb.
Qed.

Lemma grid_independent_of_sheet_order_witness :
  Permutation [("load", hourly_sheet); ("sgen", quarter_sheet)]
              [("sgen", quarter_sheet); ("load", hourly_sheet)] /\
  common_bounds [("load", hourly_sheet); ("sgen", quarter_sheet)] =
  common_bounds [("sgen", quarter_sheet); ("load", hourly_sheet)] /\
  common_grid [("load", hourly_sheet); ("sgen", quarter_sheet)] =
  common_grid [("sgen", quarter_sheet); ("load", hourly_sheet)].
Proof.
  assert (H : Permutation [("load", hourly_sheet); ("sgen", quarter_sheet)]
                          [("sgen", quarter_sheet); ("load", hourly_sheet)])
    by apply perm_swap.
  split; [exact H|].
  exact (grid_independent_of_sheet_order _ _ H).
Defined.

(** ** load_power_profile_form_xlsx: the grid *)

Lemma fold_min_positive (l : list Z) : forall d,
  Forall (fun g => 0 < g) l -> 0 < d -> 0 < fold_left Z.min l d.
Proof.
  induction l as [|x l IH]; intros d Hl Hd; simpl; [exact Hd|].
  inversion Hl; subst. apply IH; [assumption | lia].
Qed.

Lemma fold_max_ge (l : list Z) : forall x y,
  In y (x :: l) -> y <= fold_left Z.max l x.
Proof.
  induction l as [|z l IH]; intros x y Hy; simpl in *.
  - destruct Hy as [->|[]]. lia.
  - destruct Hy as [->|[->|Hy]].
    + specialize (IH (Z.max y z) (Z.max y z) (or_introl eq_refl)). lia.
    + specialize (IH (Z.max x y) (Z.max x y) (or_introl eq_refl)). lia.
    + apply IH. now right.
Qed.

Lemma increasing_first_last (l : list Z) :
  Forall (fun g => 0 < g) (diff l) ->
  forall t, In t l -> hd 0 l <= t <= last l 0.
Proof.
  induction l as [|a [|b l] IH]; intros Hd t Ht.
  - contradiction.
  - destruct Ht as [->|[]]. simpl. lia.
  - change (diff (a :: b :: l)) with ((b - a) :: diff (b :: l)) in Hd.
    inversion Hd as [|? ? Hab Hd']; subst.
    change (last (a :: b :: l) 0) with (last (b :: l) 0).
    pose proof (IH Hd' b (or_introl eq_refl)) as Hb.
    cbn [hd] in *. destruct Ht as [->|Ht].
    + lia.
    + specialize (IH Hd' t Ht). lia.
Qed.

Lemma all_gaps_positive (workbook : list (string * ProfileSheet)) :
  Forall (fun entry => strictly_timed (snd entry)) workbook ->
  Forall (fun g => 0 < g) (all_gaps workbook).
Proof.
  unfold all_gaps. induction 1 as [|[name sh] wb Hsh _ IH]; simpl; [constructor|].
  apply Forall_app. split; [|exact IH].
  destruct (ps_empty sh); [constructor | exact Hsh].
Qed.

(** X23: when the samples of every sheet come at strictly increasing
    times and some sheet is not empty, the load returns; the common
    period is positive, the grid starts at the common start, advances by
    the common period and ends at its last point not after the common
    end; and every sample time of a sheet that is not empty lies between
    the common start and the common end. *)
Theorem common_grid_spans (workbook : list (string * ProfileSheet)) (name : string)
  (sh : ProfileSheet) (t : time) :
  Forall (fun entry => strictly_timed (snd entry)) workbook ->
  In (name, sh) workbook ->
  ps_empty sh = false ->
  In t (ps_index sh) ->
  exists n,
    common_grid workbook =
    Returned (map (fun k => start_time (common_bounds workbook) +
                            Z.of_nat k * period (common_bounds workbook))
                  (seq 0 (S n))) /\
    0 < period (common_bounds workbook) /\
    start_time (common_bounds workbook) + Z.of_nat n * period (common_bounds workbook)
    <= end_time (common_bounds workbook)
    < start_time (common_bounds workbook) + Z.of_nat (S n) * period (common_bounds workbook) /\
    start_time (common_bounds workbook) <= t <= end_time (common_bounds workbook).
Proof.
  intros Htimed Hin Hne Ht.
  assert (Hp : 0 < period (common_bounds workbook)).
  { rewrite common_bounds_period. apply fold_min_positive.
    - now apply all_gaps_positive.
    - vm_compute. reflexivity. }
  assert (Hsh : strictly_timed sh).
  { rewrite Forall_forall in Htimed. exact (Htimed (name, sh) Hin). }
  pose proof (increasing_first_last (ps_index sh) Hsh t Ht) as Hfl.
  assert (Hs : start_time (common_bounds workbook) <= hd 0 (ps_index sh)).
  { rewrite common_bounds_start. apply fold_min_le. right.
    unfold first_samples. apply in_flat_map. exists (name, sh).
    split; [assumption|]. cbn [snd]. rewrite Hne. now left. }
  assert (He : last (ps_index sh) 0 <= end_time (common_bounds workbook)).
  { rewrite common_bounds_end. apply fold_max_ge. right.
    unfold last_samples. apply in_flat_map. exists (name, sh).
    split; [assumption|]. cbn [snd]. rewrite Hne. now left. }
  destruct (date_range_spans (start_time (common_bounds workbook))
              (end_time (common_bounds workbook)) (period (common_bounds workbook)))
    as [n [Hgrid Hbound]].
  { exact Hp. }
  { destruct Hfl as [Hf Hl].
    apply (Z.le_trans _ _ _ Hs). apply (Z.le_trans _ _ _ Hf).
    exact (Z.le_trans _ _ _ Hl He). }
  exists n. unfold common_grid. destruct Hfl as [Hf Hl]. destruct Hbound as [Hb1 Hb2].
  split; [exact Hgrid|]. split; [exact Hp|]. split; [split; assumption|].
  split; [exact (Z.le_trans _ _ _ Hs Hf) | exact (Z.le_trans _ _ _ Hl He)].
Qed.

Lemma common_grid_spans_witness :
  Forall (fun entry => strictly_timed (snd entry))
         [("load", hourly_sheet); ("sgen", quarter_sheet)] /\
  In ("sgen", quarter_sheet) [("load", hourly_sheet); ("sgen", quarter_sheet)] /\
  ps_empty quarter_sheet = false /\
  In (time_of 1 15 0) (ps_index quarter_sheet) /\
  exists n,
    common_grid [("load", hourly_sheet); ("sgen", quarter_sheet)] =
    Returned (map (fun k => start_time (common_bounds [("load", hourly_sheet);
                                                       ("sgen", quarter_sheet)]) +
                            Z.of_nat k * period (common_bounds [("load", hourly_sheet);
                                                                ("sgen", quarter_sheet)]))
                  (seq 0 (S n))) /\
    0 < period (common_bounds [("load", hourly_sheet); ("sgen", quarter_sheet)]) /\
    start_time (common_bounds [("load", hourly_sheet); ("sgen", quarter_sheet)]) +
    Z.of_nat n * period (common_bounds [("load", hourly_sheet); ("sgen", quarter_sheet)])
    <= end_time (common_bounds [("load", hourly_sheet); ("sgen", quarter_sheet)])
    < start_time (common_bounds [("load", hourly_sheet); ("sgen", quarter_sheet)]) +
      Z.of_nat (S n) * period (common_bounds [("load", hourly_sheet); ("sgen", quarter_sheet)]) /\
    start_time (common_bounds [("load", hourly_sheet); ("sgen", quarter_sheet)])
    <= time_of 1 15 0
    <= end_time (common_bounds [("load", hourly_sheet); ("sgen", quarter_sheet)]).
Proof.
  assert (H1 : Forall (fun entry => strictly_timed (snd entry))
                 [("load", hourly_sheet); ("sgen", quarter_sheet)]).
  { repeat constructor; vm_compute; reflexivity. }
  assert (H2 : In ("sgen", quarter_sheet) [("load", hourly_sheet); ("sgen", quarter_sheet)])
    by (simpl; tauto).
  assert (H3 : ps_empty quarter_sheet = false) by reflexivity.
  assert (H4 : In (time_of 1 15 0) (ps_index quarter_sheet)) by (simpl; tauto).
  split; [exact H1|]. split; [exact H2|]. split; [exact H3|]. split; [exact H4|].
  exact (common_grid_spans _ "sgen" quarter_sheet (time_of 1 15 0) H1 H2 H3 H4).
Defined.

(** ** run_time_simulation: the result tables *)

(** X24: the result tables come under the keys of the tables the output
    writer collected, in their order, the entry "Parameters" left out. *)
Theorem result_keys (net : Net) (output : list (string * DataFrame nat))
  (results : list (string * ResultTable)) :
  harvest net output = Returned results ->
  map fst results =
  filter (fun key => negb (String.eqb key "Parameters")) (map fst output).
Proof.
  revert results. induction output as [|[key df] output IH]; intros results H; simpl in *.
  - now inversion H.
  - destruct (String.eqb key "Parameters"); simpl; [now apply IH|].
    destruct (harvest_one net key df) as [t|e]; simpl in H; [|discriminate].
    destruct (harvest net output) as [ts|e]; simpl in H; [|discriminate].
    inversion H; subst. simpl. f_equal. now apply IH.
Qed.

Lemma result_keys_witness :
  harvest solved_net solver_output =
  Returned (returned_or [] (harvest solved_net solver_output)) /\
  map fst (returned_or [] (harvest solved_net solver_output)) =
  filter (fun key => negb (String.eqb key "Parameters")) (map fst solver_output).
Proof.
  assert (H : harvest solved_net solver_output =
              Returned (returned_or [] (harvest solved_net solver_output)))
    by (vm_compute; reflexivity).
  split; [exact H|].
  exact (result_keys solved_net solver_output _ H).
Defined.

(** X25: every result table is the table collected under its key: it is
    indexed by the time index of the network, which has as many labels as
    the collected table has rows, and it has the columns of that table,
    in order and with their values. *)
Theorem result_table_values (net : Net) (output : list (string * DataFrame nat))
  (results : list (string * ResultTable)) (key : string) (table : ResultTable) :
  harvest net output = Returned results ->
  In (key, table) results ->
  exists df,
    In (key, df) output /\
    net_time_index net = Some (rt_index table) /\
    List.length (rt_index table) = List.length (df_index df) /\
    map snd (rt_columns table) = map snd (df_columns df).
Proof.
  revert results. induction output as [|[key0 df0] output IH]; intros results H Hin;
    simpl in H.
  - inversion H; subst. contradiction.
  - destruct (String.eqb key0 "Parameters").
    + destruct (IH results H Hin) as [df [Hdf Hrest]]. exists df. split; [now right|].
      exact Hrest.
    + destruct (harvest_one net key0 df0) as [t|e] eqn:Hone; simpl in H; [|discriminate].
      destruct (harvest net output) as [ts|e]; simpl in H; [|discriminate].
      inversion H; subst. destruct Hin as [E|Hin].
      * inversion E; subst. exists df0. split; [now left|].
        unfold harvest_one in Hone.
        destruct (net_time_index net) as [ti|]; [|discriminate].
        destruct (Nat.eqb (List.length ti) (List.length (df_index df0))) eqn:Hlen;
          [|discriminate].
        destruct (dict_get _ _); [|discriminate].
        inversion Hone; subst. simpl. apply Nat.eqb_eq in Hlen.
        repeat split; [assumption|]. now rewrite map_map.
      * destruct (IH ts eq_refl Hin) as [df [Hdf Hrest]]. exists df.
        split; [now right | exact Hrest].
Qed.

Lemma result_table_values_witness :
  let table := mkResult [time_of 0 0 0; time_of 6 0 0]
                        [ (ByName (Some "Bus 0"), [1 # 1; 1 # 1]%Q);
                          (ByName (Some "Bus 1"), [99 # 100; 98 # 100]%Q) ] in
  harvest solved_net solver_output = Returned [("res_bus.vm_pu", table)] /\
  In ("res_bus.vm_pu", table) [("res_bus.vm_pu", table)] /\
  exists df,
    In ("res_bus.vm_pu", df) solver_output /\
    net_time_index solved_net = Some (rt_index table) /\
    List.length (rt_index table) = List.length (df_index df) /\
    map snd (rt_columns table) = map snd (df_columns df).
Proof.
  intros table.
  assert (H1 : harvest solved_net solver_output = Returned [("res_bus.vm_pu", table)])
    by (vm_compute; reflexivity).
  assert (H2 : In ("res_bus.vm_pu", table) [("res_bus.vm_pu", table)]) by (now left).
  split; [exact H1|]. split; [exact H2|].
  exact (result_table_values solved_net solver_output _ "res_bus.vm_pu" table H1 H2).
Defined.

Lemma name_mapping_get_absent (tbl : EqTable) (c : Z) :
  ~ In c (table_index tbl) -> name_mapping_get c tbl = None.
Proof.
  induction tbl as [|r tbl IH]; simpl; intros H; [reflexivity|].
  rewrite IH by tauto.
  destruct (eq_index r =? c) eqn:E; [|reflexivity].
  apply Z.eqb_eq in E. tauto.
Qed.

(** X26: in a table with one row per index, the renaming gives a column
    labelled by the index of a row the display name of that row, and
    leaves a column whose label is no index of the table as it is. *)
Theorem rename_to_display_name (tbl : EqTable) (r : EqRow) (c : Z) :
  NoDup (table_index tbl) ->
  In r tbl ->
  ~ In c (table_index tbl) ->
  rename_column tbl (eq_index r) = ByName (eq_name r) /\
  rename_column tbl c = ByIndex c.
Proof.
  intros Hnd Hr Hc. unfold rename_column. split.
  - induction tbl as [|r0 tbl IH]; [contradiction|].
    simpl in Hnd. inversion Hnd as [|? ? Hnot Hnd']; subst. simpl.
    destruct Hr as [->|Hr].
    + rewrite name_mapping_get_absent by exact Hnot. now rewrite Z.eqb_refl.
    + assert (IH' : match name_mapping_get (eq_index r) tbl with
                    | Some n => ByName n
                    | None => ByIndex (eq_index r)
                    end = ByName (eq_name r)).
      { apply IH; [assumption | assumption |].
        intros H. apply Hc. now right. }
      destruct (name_mapping_get (eq_index r) tbl); [exact IH' | discriminate].
  - now rewrite name_mapping_get_absent.
Qed.

Lemma rename_to_display_name_witness :
  NoDup (table_index sample_loads) /\
  In (mkRow 5 (Some "Load B") (Some 2)) sample_loads /\
  ~ In 4 (table_index sample_loads) /\
  rename_column sample_loads (eq_index (mkRow 5 (Some "Load B") (Some 2))) =
  ByName (eq_name (mkRow 5 (Some "Load B") (Some 2))) /\
  rename_column sample_loads 4 = ByIndex 4.
Proof.
  assert (H1 : NoDup (table_index sample_loads)).
  { repeat constructor; simpl; intuition discriminate. }
  assert (H2 : In (mkRow 5 (Some "Load B") (Some 2)) sample_loads) by (simpl; tauto).
  assert (H3 : ~ In 4 (table_index sample_loads)) by (simpl; intuition discriminate).
  split; [exact H1|]. split; [exact H2|]. split; [exact H3|].
  exact (rename_to_display_name sample_loads _ 4 H1 H2 H3).
Defined.

(** ** create_output_writer: a selector without a dot *)

Lemma no_dot_tail (c : ascii) (s : string) :
  ~ PyStr.occurs_in "." (String c s) -> ~ PyStr.occurs_in "." s.
Proof.
  intros H [pre [post E]]. apply H. exists (String c pre), post. simpl. now rewrite E.
Qed.

Lemma split_without_dot (s : string) : forall cur,
  ~ PyStr.occurs_in "." s ->
  PyStr.split_from "." O cur s = [(cur ++ s)%string].
Proof.
  induction s as [|c s IH]; intros cur H.
  - simpl. f_equal. induction cur as [|a cur IHc]; simpl; [reflexivity | now f_equal].
  - cbn [PyStr.split_from PyStr.startswith].
    destruct (Ascii.eqb "." c) eqn:E.
    + exfalso. apply Ascii.eqb_eq in E. subst c. apply H.
      exists ""%string, s. reflexivity.
    + rewrite IH by (now apply (no_dot_tail c)).
      rewrite append_assoc. reflexivity.
Qed.

(** X27: an extra selector without a dot makes create_output_writer raise
    TypeError, whether it comes alone or in a list after selectors of the
    form table.field: log_variable is then called with one argument. *)
Theorem selector_without_dot_raises (l1 l2 : list string) (s : string) :
  Forall well_formed_selector l1 ->
  ~ PyStr.occurs_in "." s ->
  create_output_writer (AsStr s) = Raised TypeError /\
  create_output_writer (AsList (l1 ++ s :: l2)) = Raised TypeError.
Proof.
  intros Hwf Hdot.
  assert (Hs : PyStr.split "." s = [s]).
  { unfold PyStr.split. now rewrite split_without_dot. }
  split.
  - unfold create_output_writer. simpl. now rewrite Hs.
  - unfold create_output_writer. simpl. generalize new_output_writer.
    induction Hwf as [|x l1 [table [field Hx]] _ IH]; intros ow; simpl.
    + now rewrite Hs.
    + rewrite Hx. destruct (log_variable_pair table field ow) as [ow1 [-> _]]. simpl.
      apply IH.
Qed.

Lemma selector_without_dot_raises_witness :
  Forall well_formed_selector ["res_load.p_mw"%string] /\
  ~ PyStr.occurs_in "." "res_bus" /\
  create_output_writer (AsStr "res_bus") = Raised TypeError /\
  create_output_writer (AsList (["res_load.p_mw"%string] ++ "res_bus"%string :: [])) =
  Raised TypeError.
Proof.
  assert (H1 : Forall well_formed_selector ["res_load.p_mw"%string]).
  { repeat constructor; eexists; eexists; reflexivity. }
  assert (H2 : ~ PyStr.occurs_in "." "res_bus").
  { intros [pre [post E]].
    repeat (destruct pre as [|? pre]; simpl in E; [discriminate|];
            injection E as _ E).
    destruct pre; discriminate. }
  split; [exact H1|]. split; [exact H2|].
  exact (selector_without_dot_raises ["res_load.p_mw"%string] [] "res_bus" H1 H2).
Defined.

(** ** load_power_profile_form_xlsx: the values *)

Lemma increasing_head_lt (a : Z) (l : list Z) :
  increasing (a :: l) -> forall y, In y l -> a < y.
Proof.
  revert a. induction l as [|b l IH]; intros a H y Hy; [contradiction|].
  destruct H as [Hab H]. destruct Hy as [->|Hy]; [exact Hab|].
  specialize (IH b H y Hy). lia.
Qed.

Lemma increasing_tail (a : Z) (l : list Z) : increasing (a :: l) -> increasing l.
Proof.
  destruct l as [|b l]; [trivial|]. now intros [_ H].
Qed.

Lemma insert_sorted_head (a : Z) (l : list Z) :
  increasing (a :: l) -> insert_sorted a l = a :: l.
Proof.
  destruct l as [|b l]; [reflexivity|]. intros [Hab _]. simpl.
  apply Z.ltb_lt in Hab. now rewrite Hab.
Qed.

Lemma sort_unique_increasing (l : list Z) : increasing l -> sort_unique l = l.
Proof.
  induction l as [|a l IH]; intros H; [reflexivity|].
  simpl. rewrite IH by (now apply (increasing_tail a)). now apply insert_sorted_head.
Qed.

Lemma insert_sorted_member (x : Z) (l : list Z) :
  increasing l -> In x l -> insert_sorted x l = l.
Proof.
  induction l as [|a l IH]; intros Hinc Hx; [contradiction|].
  simpl. destruct Hx as [->|Hx].
  - rewrite Z.ltb_irrefl, Z.eqb_refl. reflexivity.
  - pose proof (increasing_head_lt a l Hinc x Hx) as Hlt.
    assert (E1 : (x <? a) = false) by (apply Z.ltb_ge; lia).
    assert (E2 : (x =? a) = false) by (apply Z.eqb_neq; lia).
    rewrite E1, E2. f_equal. apply IH; [now apply (increasing_tail a) | assumption].
Qed.

Lemma insert_members (g l : list Z) :
  increasing g -> (forall x, In x l -> In x g) -> fold_right insert_sorted g l = g.
Proof.
  intros Hg. induction l as [|x l IH]; intros Hl; simpl; [reflexivity|].
  rewrite IH by (intros y Hy; apply Hl; now right).
  apply insert_sorted_member; [assumption | apply Hl; now left].
Qed.

(** A sheet on the grid adds no row to the concatenation. *)
Lemma merged_index_aligned (g : list Z) : increasing g -> merged_index g g = g.
Proof.
  intros Hg. unfold merged_index, sort_unique. rewrite fold_right_app.
  change (fold_right insert_sorted [] g) with (sort_unique g).
  rewrite sort_unique_increasing by assumption.
  now apply insert_members.
Qed.

Lemma increasing_NoDup (l : list Z) : increasing l -> NoDup l.
Proof.
  induction l as [|a l IH]; intros H; constructor.
  - intros Hin. pose proof (increasing_head_lt a l H a Hin). lia.
  - apply IH. now apply (increasing_tail a).
Qed.

Lemma has_duplicates_false (l : list Z) : NoDup l -> has_duplicates l = false.
Proof.
  induction 1 as [|a l Hnot _ IH]; simpl; [reflexivity|].
  rewrite IH. apply mem_not_In in Hnot. now rewrite Hnot.
Qed.

Lemma positions_of_own (l : list Z) :
  NoDup l -> map (fun t => position_in t l) l = map Some (seq 0 (List.length l)).
Proof.
  induction 1 as [|a l Hnot _ IH]; simpl; [reflexivity|].
  rewrite Z.eqb_refl. f_equal.
  rewrite <- seq_shift, map_map.
  transitivity (map (fun t => option_map S (position_in t l)) l).
  - apply map_ext_in. intros t Ht.
    destruct (a =? t) eqn:E; [|reflexivity].
    apply Z.eqb_eq in E. subst. contradiction.
  - rewrite <- (map_map (fun t => position_in t l) (option_map S)), IH, map_map.
    reflexivity.
Qed.

Lemma increasing_of_nat_seq (n s : nat) : increasing (map Z.of_nat (seq s n)).
Proof.
  revert s. induction n as [|n IH]; intros s; [exact I|].
  simpl. destruct n as [|n]; [exact I|].
  split; [simpl; lia | apply (IH (S s))].
Qed.

Lemma ffill_from_full {A} (l : list A) (p : option A) :
  ffill_from p (map Some l) = map Some l.
Proof.
  revert p. induction l as [|a l IH]; intros p; simpl; [reflexivity | now rewrite IH].
Qed.

Lemma bfill_full {A} (l : list A) : bfill (map Some l) = map Some l.
Proof.
  induction l as [|a l IH]; simpl; [reflexivity | now rewrite IH].
Qed.

Lemma values_of_full {A} (l : list A) : values_of (map Some l) = l.
Proof.
  unfold values_of. induction l as [|a l IH]; simpl; [reflexivity | now rewrite IH].
Qed.

Lemma timestamps_aligned (g : list Z) :
  increasing g ->
  timestamps g g = map Some (map Z.of_nat (seq 0 (List.length g))).
Proof.
  intros Hg. unfold timestamps. rewrite merged_index_aligned by assumption.
  rewrite <- (map_map (fun t => position_in t g) (option_map Z.of_nat)).
  rewrite positions_of_own by (now apply increasing_NoDup).
  rewrite map_map. simpl.
  rewrite <- (map_map Z.of_nat Some).
  unfold ffill. now rewrite ffill_from_full, bfill_full.
Qed.

Lemma group_numbers_aligned (g : list Z) :
  increasing g -> group_numbers g g = map Z.of_nat (seq 0 (List.length g)).
Proof.
  intros Hg. unfold group_numbers. rewrite timestamps_aligned by assumption.
  rewrite values_of_full. apply sort_unique_increasing, increasing_of_nat_seq.
Qed.

Lemma map_nth_seq {A} (l : list A) (d : A) :
  map (fun i => nth i l d) (seq 0 (List.length l)) = l.
Proof.
  induction l as [|a l IH]; simpl; [reflexivity|].
  f_equal. rewrite <- seq_shift, map_map. exact IH.
Qed.

Lemma cells_aligned (g : list Z) (col : list (option value)) :
  NoDup g -> List.length col = List.length g ->
  map (value_at g col) g = col.
Proof.
  intros Hg Hlen. unfold value_at.
  rewrite <- (map_map (fun t => position_in t g)
                      (fun o => match o with Some i => nth i col None | None => None end)).
  rewrite positions_of_own by assumption. rewrite map_map, <- Hlen.
  apply map_nth_seq.
Qed.

(** With one row per group, the first cell of each group is the cell. *)
Lemma firsts_of_single_rows (ks : list Z) (col : list (option value)) :
  NoDup ks -> List.length col = List.length ks ->
  map (fun k => first_valid (group_cells (map Some ks) col k)) ks = col.
Proof.
  intros Hnd. revert col. induction Hnd as [|k ks Hnot _ IH]; intros col Hlen.
  - destruct col; [reflexivity | discriminate].
  - destruct col as [|c col]; [discriminate|]. simpl in Hlen.
    cbn [map]. f_equal.
    + unfold group_cells. cbn [map combine filter fst]. rewrite Z.eqb_refl. cbn [map snd].
      replace (filter _ (combine (map Some ks) col)) with (@nil (option Z * option value)).
      * destruct c; reflexivity.
      * symmetry. apply filter_none. intros [o v] Hin. apply in_combine_l in Hin.
        apply in_map_iff in Hin. destruct Hin as [k' [<- Hk']]. cbn [fst].
        apply Z.eqb_neq. intros ->. contradiction.
    + transitivity (map (fun k0 => first_valid (group_cells (map Some ks) col k0)) ks);
        [|apply IH; lia].
      apply map_ext_in. intros k' Hk'.
      unfold group_cells. cbn [map combine filter fst].
      assert (E : (k =? k') = false) by (apply Z.eqb_neq; intros ->; contradiction).
      now rewrite E.
Qed.

Lemma all_valued_is_map {A} (l : list (option A)) :
  Forall (fun o => has_value o = true) l -> l = map Some (values_of l).
Proof.
  unfold values_of. induction 1 as [|[v|] l Hv _ IH]; simpl;
    [reflexivity | now f_equal | discriminate].
Qed.

Section ResampleProperties.

Variable lerp : value -> value -> nat -> nat -> value.

Lemma interpolate_from_full (l : list value) (p : option (value * nat)) :
  interpolate_from lerp p (map Some l) = map Some l.
Proof.
  revert p. induction l as [|a l IH]; intros p; simpl; [reflexivity | now rewrite IH].
Qed.

(** A column on the grid without an empty cell comes out as it is. *)
Lemma resample_column_aligned (g : list Z) (col : list (option value)) :
  increasing g ->
  List.length col = List.length g ->
  Forall (fun o => has_value o = true) col ->
  resample_column lerp g g col = col.
Proof.
  intros Hg Hlen Hfull. unfold resample_column.
  rewrite merged_index_aligned, timestamps_aligned, group_numbers_aligned by assumption.
  rewrite cells_aligned by (try apply increasing_NoDup; assumption).
  rewrite firsts_of_single_rows.
  - rewrite (all_valued_is_map col Hfull).
    unfold interpolate, ffill.
    now rewrite interpolate_from_full, bfill_full, ffill_from_full.
  - apply increasing_NoDup, increasing_of_nat_seq.
  - now rewrite length_map, length_seq.
Qed.

(** X28: a sheet whose row labels are the points of the grid, in
    increasing order, and whose cells all hold a value, goes through the
    concatenation, grouping, interpolation and fills unchanged:
    actual_profile has its columns with their values. *)
Theorem aligned_sheet_reproduced (grid : list time) (d : ProfileData) :
  increasing grid ->
  pd_index d = grid ->
  Forall (fun c => List.length (snd c) = List.length grid /\
                   Forall (fun o => has_value o = true) (snd c)) (pd_columns d) ->
  interpolate_sheet lerp grid d = Returned (pd_columns d).
Proof.
  intros Hg Hidx Hcols. unfold interpolate_sheet. rewrite Hidx.
  rewrite has_duplicates_false by (now apply increasing_NoDup).
  rewrite group_numbers_aligned by assumption.
  rewrite length_map, length_seq, Nat.eqb_refl. f_equal.
  rewrite <- (map_id (pd_columns d)) at 2. apply map_ext_in.
  intros [label col] Hin. rewrite Forall_forall in Hcols.
  destruct (Hcols _ Hin) as [Hlen Hfull]. cbn [fst snd] in *.
  now rewrite resample_column_aligned.
Qed.

End ResampleProperties.

Lemma aligned_sheet_reproduced_witness :
  increasing [time_of 0 0 0; time_of 0 30 0; time_of 1 0 0] /\
  pd_index aligned_data = [time_of 0 0 0; time_of 0 30 0; time_of 1 0 0] /\
  Forall (fun c => List.length (snd c) =
                   List.length [time_of 0 0 0; time_of 0 30 0; time_of 1 0 0] /\
                   Forall (fun o => has_value o = true) (snd c)) (pd_columns aligned_data) /\
  interpolate_sheet exact_lerp [time_of 0 0 0; time_of 0 30 0; time_of 1 0 0] aligned_data =
  Returned (pd_columns aligned_data).
Proof.
  assert (H1 : increasing [time_of 0 0 0; time_of 0 30 0; time_of 1 0 0])
    by (vm_compute; tauto).
  assert (H2 : pd_index aligned_data = [time_of 0 0 0; time_of 0 30 0; time_of 1 0 0])
    by reflexivity.
  assert (H3 : Forall (fun c => List.length (snd c) =
                               List.length [time_of 0 0 0; time_of 0 30 0; time_of 1 0 0] /\
                               Forall (fun o => has_value o = true) (snd c))
                      (pd_columns aligned_data)).
  { repeat constructor. }
  split; [exact H1|]. split; [exact H2|]. split; [exact H3|].
  exact (aligned_sheet_reproduced exact_lerp _ aligned_data H1 H2 H3).
Defined.

(** ** load_power_profile_form_xlsx: no cell left empty *)

Lemma increasing_ext (l l' : list Z) :
  increasing l -> increasing l' -> (forall x, In x l <-> In x l') -> l = l'.
Proof.
  revert l'. induction l as [|a l IH]; intros [|b l'] Hl Hl' Hmem.
  - reflexivity.
  - exfalso. apply (proj2 (Hmem b)). now left.
  - exfalso. apply (proj1 (Hmem a)). now left.
  - assert (Hab : a = b).
    { destruct (proj1 (Hmem a) (or_introl eq_refl)) as [E|Ha]; [now symmetry|].
      destruct (proj2 (Hmem b) (or_introl eq_refl)) as [E|Hb]; [assumption|].
      pose proof (increasing_head_lt b l' Hl' a Ha).
      pose proof (increasing_head_lt a l Hl b Hb). lia. }
    subst b. f_equal.
    apply IH; [now apply (increasing_tail a) | now apply (increasing_tail a) |].
    intros x. split; intros Hx.
    + destruct (proj1 (Hmem x) (or_intror Hx)) as [E|Hx']; [|assumption].
      pose proof (increasing_head_lt a l Hl x Hx). lia.
    + destruct (proj2 (Hmem x) (or_intror Hx)) as [E|Hx']; [|assumption].
      pose proof (increasing_head_lt a l' Hl' x Hx). lia.
Qed.

Lemma position_in_lt (t : Z) (l : list Z) (i : nat) :
  position_in t l = Some i -> (i < List.length l)%nat.
Proof.
  revert i. induction l as [|a l IH]; intros i H; simpl in *; [discriminate|].
  destruct (a =? t).
  - inversion H. lia.
  - destruct (position_in t l) as [j|]; simpl in H; [|discriminate].
    inversion H. specialize (IH j eq_refl). lia.
Qed.

Lemma position_in_nth (l : list Z) (i : nat) (d : Z) :
  NoDup l -> (i < List.length l)%nat -> position_in (nth i l d) l = Some i.
Proof.
  intros Hnd. revert i. induction Hnd as [|a l Hnot _ IH]; intros i Hi; simpl in *; [lia|].
  destruct i as [|i].
  - now rewrite Z.eqb_refl.
  - assert (Hin : In (nth i l d) l) by (apply nth_In; lia).
    destruct (a =? nth i l d) eqn:E.
    + apply Z.eqb_eq in E. rewrite <- E in Hin. contradiction.
    + rewrite IH by lia. reflexivity.
Qed.

Lemma in_ffill_from {A} (x : A) (l : list (option A)) (p : option A) :
  In (Some x) (ffill_from p l) -> p = Some x \/ In (Some x) l.
Proof.
  revert p. induction l as [|[v|] l IH]; intros p H; simpl in *.
  - contradiction.
  - destruct H as [H|H]; [right; now left|].
    destruct (IH _ H) as [E|Hin]; [right; left; exact E | right; now right].
  - destruct H as [H|H]; [now left|].
    destruct (IH _ H) as [E|Hin]; [now left | right; now right].
Qed.

Lemma ffill_from_keeps {A} (x : A) (l : list (option A)) (p : option A) :
  In (Some x) l -> In (Some x) (ffill_from p l).
Proof.
  revert p. induction l as [|[v|] l IH]; intros p H; simpl in *.
  - contradiction.
  - destruct H as [H|H]; [now left | right; now apply IH].
  - destruct H as [H|H]; [discriminate | right; now apply IH].
Qed.

Lemma in_bfill {A} (x : A) (l : list (option A)) :
  In (Some x) (bfill l) -> In (Some x) l.
Proof.
  induction l as [|[v|] l IH]; intros H; simpl in *.
  - contradiction.
  - destruct H as [H|H]; [now left | right; now apply IH].
  - right. apply IH. destruct H as [H|H]; [|assumption].
    destruct (bfill l) as [|o r]; simpl in H; [discriminate|].
    left. exact H.
Qed.

Lemma bfill_keeps {A} (x : A) (l : list (option A)) :
  In (Some x) l -> In (Some x) (bfill l).
Proof.
  induction l as [|[v|] l IH]; intros H; simpl in *.
  - contradiction.
  - destruct H as [H|H]; [now left | right; now apply IH].
  - destruct H as [H|H]; [discriminate | right; now apply IH].
Qed.

Lemma length_ffill_from {A} (l : list (option A)) (p : option A) :
  List.length (ffill_from p l) = List.length l.
Proof.
  revert p. induction l as [|[v|] l IH]; intros p; simpl; [reflexivity | |]; now rewrite IH.
Qed.

Lemma length_bfill {A} (l : list (option A)) : List.length (bfill l) = List.length l.
Proof.
  induction l as [|[v|] l IH]; simpl; [reflexivity | |]; now rewrite IH.
Qed.

Lemma bfill_valued {A} (l : list (option A)) :
  Forall (fun o => has_value o = true) l -> bfill l = l.
Proof.
  intros H. rewrite (all_valued_is_map l H). apply bfill_full.
Qed.

Lemma ffill_from_valued {A} (l : list (option A)) (p : option A) :
  Forall (fun o => has_value o = true) l -> ffill_from p l = l.
Proof.
  intros H. rewrite (all_valued_is_map l H). apply ffill_from_full.
Qed.

Lemma ffill_from_some_valued {A} (l : list (option A)) (a : A) :
  Forall (fun o => has_value o = true) (ffill_from (Some a) l).
Proof.
  revert a. induction l as [|[v|] l IH]; intros a; simpl; constructor; auto.
Qed.

(** A backward fill leaves no empty cell in front of cells that, filled
    backward, have none. *)
Lemma bfill_leading {A} (l : list (option A)) :
  l <> [] ->
  Forall (fun o => has_value o = true) (bfill l) ->
  Forall (fun o => has_value o = true) (bfill (None :: l)).
Proof.
  intros Hne H. simpl. constructor; [|exact H].
  destruct (bfill l) as [|o r] eqn:E.
  - exfalso. apply Hne. apply length_zero_iff_nil.
    rewrite <- (length_bfill l), E. reflexivity.
  - simpl. now inversion H.
Qed.

Lemma fills_complete {A} (l : list (option A)) (x : A) :
  In (Some x) l -> Forall (fun o => has_value o = true) (bfill (ffill l)).
Proof.
  unfold ffill. induction l as [|[v|] l IH]; intros H.
  - contradiction.
  - cbn [ffill_from]. rewrite bfill_valued; constructor;
      try reflexivity; apply ffill_from_some_valued.
  - destruct H as [H|H]; [discriminate|]. cbn [ffill_from].
    apply bfill_leading; [|now apply IH].
    intros E. apply (f_equal (@List.length _)) in E. rewrite length_ffill_from in E.
    destruct l; [contradiction | discriminate].
Qed.

Lemma in_values_of {A} (x : A) (l : list (option A)) :
  In x (values_of l) <-> In (Some x) l.
Proof.
  unfold values_of. rewrite in_flat_map. split.
  - intros [[v|] [Ho Hx]]; simpl in Hx; [|contradiction].
    destruct Hx as [->|[]]. exact Ho.
  - intros H. exists (Some x). split; [exact H | now left].
Qed.

Lemma in_timestamps (grid index : list time) (k : Z) :
  NoDup grid ->
  In (Some k) (timestamps grid index) <->
  In k (map Z.of_nat (seq 0 (List.length grid))).
Proof.
  intros Hnd. unfold timestamps. split.
  - intros H. apply in_bfill in H. unfold ffill in H. apply in_ffill_from in H.
    destruct H as [H|H]; [discriminate|].
    apply in_map_iff in H. destruct H as [t [Hk _]].
    destruct (position_in t grid) as [i|] eqn:Hp; simpl in Hk; [|discriminate].
    inversion Hk; subst. apply position_in_lt in Hp.
    apply in_map. apply in_seq. split; [apply Nat.le_0_l | exact Hp].
  - intros H. apply in_map_iff in H. destruct H as [i [<- Hi]]. apply in_seq in Hi.
    apply bfill_keeps. unfold ffill. apply ffill_from_keeps.
    apply in_map_iff. exists (nth i grid 0). split.
    + exact (f_equal (option_map Z.of_nat) (position_in_nth grid i 0 Hnd (proj2 Hi))).
    + unfold merged_index. apply in_sort_unique, in_app_iff. left. apply nth_In. lia.
Qed.

(** The groups are numbered by the points of the grid. *)
Lemma group_numbers_grid (grid index : list time) :
  NoDup grid ->
  group_numbers grid index = map Z.of_nat (seq 0 (List.length grid)).
Proof.
  intros Hnd. apply increasing_ext.
  - apply increasing_sort_unique.
  - apply increasing_of_nat_seq.
  - intros k. unfold group_numbers. rewrite in_sort_unique, in_values_of.
    now apply in_timestamps.
Qed.

Lemma timestamps_complete (grid index : list time) :
  NoDup grid -> grid <> [] ->
  Forall (fun o => has_value o = true) (timestamps grid index).
Proof.
  intros Hnd Hne. destruct grid as [|g0 grid]; [contradiction|].
  unfold timestamps. apply (fills_complete _ (Z.of_nat 0)).
  apply in_map_iff. exists g0. split.
  - simpl. now rewrite Z.eqb_refl.
  - unfold merged_index. apply in_sort_unique. now left.
Qed.

Lemma length_timestamps (grid index : list time) :
  List.length (timestamps grid index) = List.length (merged_index grid index).
Proof.
  unfold timestamps, ffill. now rewrite length_bfill, length_ffill_from, length_map.
Qed.

Lemma combine_with_valued {A B} (l1 : list (option A)) (l2 : list B) (x : B) :
  List.length l1 = List.length l2 ->
  Forall (fun o => has_value o = true) l1 ->
  In x l2 ->
  exists k, In (Some k, x) (combine l1 l2).
Proof.
  revert l2. induction l1 as [|o l1 IH]; intros [|y l2] Hlen Hval Hx; simpl in *;
    try contradiction; try discriminate.
  inversion Hval as [|? ? Ho Hval']; subst.
  destruct Hx as [->|Hx].
  - destruct o as [k|]; [|discriminate]. exists k. now left.
  - destruct (IH l2) as [k Hk]; [lia | assumption | assumption |].
    exists k. now right.
Qed.

Lemma first_valid_of_member {A} (l : list (option A)) (v : A) :
  In (Some v) l -> has_value (first_valid l) = true.
Proof.
  induction l as [|[a|] l IH]; intros H; simpl in *.
  - contradiction.
  - reflexivity.
  - destruct H as [H|H]; [discriminate | now apply IH].
Qed.

Section ResampleComplete.

Variable lerp : value -> value -> nat -> nat -> value.

Lemma interpolate_from_some_valued (l : list (option value)) (p : value * nat) :
  Forall (fun o => has_value o = true) (interpolate_from lerp (Some p) l).
Proof.
  revert p. induction l as [|[v|] l IH]; intros [a k]; simpl.
  - constructor.
  - constructor; [reflexivity | apply IH].
  - constructor; [|apply IH]. destruct (next_valid l) as [[d b]|]; reflexivity.
Qed.

Lemma length_interpolate_from (l : list (option value)) (p : option (value * nat)) :
  List.length (interpolate_from lerp p l) = List.length l.
Proof.
  revert p. induction l as [|[v|] l IH]; intros p; simpl; [reflexivity | now rewrite IH |].
  destruct p as [[a k]|]; simpl; now rewrite IH.
Qed.

(** A column with a value somewhere has, after interpolation and the
    backward fill, a value everywhere. *)
Lemma interpolation_complete (l : list (option value)) (v : value) :
  In (Some v) l ->
  Forall (fun o => has_value o = true) (bfill (interpolate lerp l)).
Proof.
  unfold interpolate. induction l as [|[a|] l IH]; intros H.
  - contradiction.
  - cbn [interpolate_from]. rewrite bfill_valued; constructor;
      try reflexivity; apply interpolate_from_some_valued.
  - destruct H as [H|H]; [discriminate|]. cbn [interpolate_from].
    apply bfill_leading; [|now apply IH].
    intros E. apply (f_equal (@List.length _)) in E.
    rewrite length_interpolate_from in E.
    destruct l; [contradiction | discriminate].
Qed.

(** A column of a sheet with distinct row labels, resampled on a grid of
    distinct points with at least one point, has one cell per point of
    the grid, and no empty cell as soon as the column has a value. *)
Lemma resample_column_complete (grid index : list time) (col : list (option value)) :
  NoDup grid -> grid <> [] ->
  NoDup index ->
  List.length col = List.length index ->
  existsb has_value col = true ->
  List.length (resample_column lerp grid index col) = List.length grid /\
  Forall (fun o => has_value o = true) (resample_column lerp grid index col).
Proof.
  intros Hg Hne Hidx Hlen Hval. unfold resample_column.
  set (cells := map (value_at index col) (merged_index grid index)).
  set (firsts := map _ (group_numbers grid index)).
  assert (Hfirsts : exists v, In (Some v) firsts).
  { apply existsb_exists in Hval. destruct Hval as [[v|] [Hin Hv]]; [|discriminate].
    destruct (In_nth col (Some v) None Hin) as [i [Hi Hnth]].
    assert (Hcell : In (Some v) cells).
    { unfold cells. apply in_map_iff. exists (nth i index 0). split.
      - unfold value_at.
        rewrite position_in_nth;
          [exact Hnth | assumption | exact (eq_ind _ (fun n => (i < n)%nat) Hi _ Hlen)].
      - unfold merged_index. apply in_sort_unique, in_app_iff. right.
        apply nth_In. lia. }
    destruct (combine_with_valued (timestamps grid index) cells (Some v)) as [k Hk].
    - unfold cells. now rewrite length_timestamps, length_map.
    - now apply timestamps_complete.
    - exact Hcell.
    - assert (Hfirst : has_value
                         (first_valid (group_cells (timestamps grid index) cells k)) = true).
      { apply (first_valid_of_member _ v). unfold group_cells.
        apply in_map_iff. exists (Some k, Some v). split; [reflexivity|].
        apply filter_In. split; [exact Hk|]. cbn [fst]. apply Z.eqb_refl. }
      destruct (first_valid (group_cells (timestamps grid index) cells k)) as [v'|] eqn:E;
        [|discriminate].
      exists v'. unfold firsts. apply in_map_iff. exists k. split; [exact E|].
      unfold group_numbers. apply in_sort_unique, in_values_of.
      now apply in_combine_l in Hk. }
  destruct Hfirsts as [v Hv].
  pose proof (interpolation_complete firsts v Hv) as Hall.
  unfold ffill. rewrite ffill_from_valued by exact Hall. split; [|exact Hall].
  unfold interpolate. rewrite length_bfill, length_interpolate_from.
  unfold firsts. rewrite length_map, group_numbers_grid by assumption.
  now rewrite length_map, length_seq.
Qed.

(** X29: for a grid of strictly increasing points, at least one, and a
    sheet with distinct row labels in which every column has one cell per
    row and at least one value, actual_profile is built without error,
    with the columns of the sheet in their order, one row per point of
    the grid, and no empty cell. *)
Theorem resampled_sheet_complete (grid : list time) (d : ProfileData) :
  increasing grid ->
  grid <> [] ->
  NoDup (pd_index d) ->
  Forall (fun c => List.length (snd c) = List.length (pd_index d) /\
                   existsb has_value (snd c) = true) (pd_columns d) ->
  exists cols,
    interpolate_sheet lerp grid d = Returned cols /\
    map fst cols = map fst (pd_columns d) /\
    Forall (fun c => List.length (snd c) = List.length grid /\
                     Forall (fun o => has_value o = true) (snd c)) cols.
Proof.
  intros Hinc Hne Hidx Hcols.
  pose proof (increasing_NoDup grid Hinc) as Hg.
  unfold interpolate_sheet.
  rewrite has_duplicates_false by assumption.
  rewrite group_numbers_grid by assumption.
  rewrite length_map, length_seq, Nat.eqb_refl.
  eexists. split; [reflexivity|]. split.
  - rewrite map_map. reflexivity.
  - apply Forall_forall. intros c Hc. apply in_map_iff in Hc.
    destruct Hc as [[label col] [<- Hin]]. cbn [fst snd].
    rewrite Forall_forall in Hcols. destruct (Hcols _ Hin) as [Hlen Hval].
    now apply resample_column_complete.
Qed.

End ResampleComplete.

Lemma resampled_sheet_complete_witness :
  let grid := [time_of 0 0 0; time_of 0 30 0; time_of 1 0 0; time_of 1 30 0;
               time_of 2 0 0] in
  increasing grid /\
  grid <> [] /\
  NoDup (pd_index half_hourly) /\
  Forall (fun c => List.length (snd c) = List.length (pd_index half_hourly) /\
                   existsb has_value (snd c) = true) (pd_columns half_hourly) /\
  exists cols,
    interpolate_sheet exact_lerp grid half_hourly = Returned cols /\
    map fst cols = map fst (pd_columns half_hourly) /\
    Forall (fun c => List.length (snd c) = List.length grid /\
                     Forall (fun o => has_value o = true) (snd c)) cols.
Proof.
  intros grid.
  assert (H1 : increasing grid) by (vm_compute; tauto).
  assert (H2 : grid <> []) by discriminate.
  assert (H3 : NoDup (pd_index half_hourly)).
  { repeat constructor; simpl; intuition discriminate. }
  assert (H4 : Forall (fun c => List.length (snd c) = List.length (pd_index half_hourly) /\
                               existsb has_value (snd c) = true)
                      (pd_columns half_hourly)).
  { repeat constructor. }
  split; [exact H1|]. split; [exact H2|]. split; [exact H3|]. split; [exact H4|].
  exact (resampled_sheet_complete exact_lerp grid half_hourly H1 H2 H3 H4).
Defined.

Example half_hourly_resampled :
  interpolate_sheet exact_lerp
    [time_of 0 0 0; time_of 0 30 0; time_of 1 0 0; time_of 1 30 0; time_of 2 0 0]
    half_hourly =
  Returned [ ((1, "P [MW]"),
              [Some (1 # 1); Some (6 # 4); Some (8 # 4); Some (10 # 4); Some (3 # 1)]%Q);
             ((1, "Q [MVAR]"),
              [Some (1 # 2); Some (1 # 2); Some (1 # 2); Some (1 # 2); Some (1 # 2)]%Q) ].
Proof. vm_compute. reflexivity. Qed.

(** ** load_power_profile_form_xlsx: the returned tables *)

Lemma cross_section_valued (q : string) (cols : list ((Z * string) * list (option value)))
  (selected : list (Z * list (option value))) :
  cross_section q cols = Returned selected ->
  Forall (fun c => existsb has_value (snd c) = true) selected.
Proof.
  unfold cross_section. intros H.
  assert (Hsel : exists l, selected = filter (fun c => existsb has_value (snd c)) l).
  { destruct (filter (fun c => String.eqb (snd (fst c)) q) cols) as [|c0 rest];
      [discriminate|].
    exists (map (fun c : (Z * string) * list (option value) => (fst (fst c), snd c))
                (c0 :: rest)).
    injection H. intros E. symmetry. exact E. }
  destruct Hsel as [l ->]. apply Forall_forall. intros c Hc.
  apply filter_In in Hc. apply (proj2 Hc).
Qed.

Section ReturnedTables.

Variable lerp : value -> value -> nat -> nat -> value.

Lemma quantity_table_shape (d : ProfileData) (grid : list time)
  (cols : list ((Z * string) * list (option value))) (q variable : string)
  (tables : list (string * GridTable)) :
  quantity_table d grid cols q variable = Returned tables ->
  Forall (fun vt => fst vt = variable /\ gt_index (snd vt) = grid /\
                    Forall (fun c => existsb has_value (snd c) = true)
                           (gt_columns (snd vt))) tables.
Proof.
  unfold quantity_table. destruct (in_names q (pd_levels d)).
  - destruct (cross_section q cols) as [selected|e] eqn:E; simpl; [|discriminate].
    intros H. inversion H; subst. constructor; [|constructor].
    cbn [fst snd gt_index gt_columns]. repeat split.
    now apply (cross_section_valued q cols).
  - intros H. inversion H. constructor.
Qed.

Lemma sheet_tables_shape (grid : list time) (d : ProfileData)
  (tables : list (string * GridTable)) :
  sheet_tables lerp grid d = Returned tables ->
  Forall (fun vt => (fst vt = "p_mw" \/ fst vt = "q_mvar") /\
                    gt_index (snd vt) = grid /\
                    Forall (fun c => existsb has_value (snd c) = true)
                           (gt_columns (snd vt))) tables.
Proof.
  unfold sheet_tables.
  destruct (interpolate_sheet lerp grid d) as [cols|e]; simpl; [|discriminate].
  destruct (quantity_table d grid cols "P [MW]" "p_mw") as [p|e] eqn:Ep; simpl;
    [|discriminate].
  destruct (quantity_table d grid cols "Q [MVAR]" "q_mvar") as [q|e] eqn:Eq; simpl;
    [|discriminate].
  intros H. inversion H; subst. apply Forall_app. split.
  - apply quantity_table_shape in Ep. revert Ep. apply Forall_impl.
    intros vt [Hv Hrest]. split; [now left | exact Hrest].
  - apply quantity_table_shape in Eq. revert Eq. apply Forall_impl.
    intros vt [Hv Hrest]. split; [now right | exact Hrest].
Qed.

(** X30: whatever the workbook, the tables the profile loader returns are
    those of the sheets with rows and columns, in the order of the
    workbook; each is filed under p_mw or q_mvar, all of them have the
    common grid as their index, and none has a column without a value. *)
Theorem profile_tables_on_common_grid (workbook : list (string * ProfileData))
  (results : list (string * list (string * GridTable))) :
  load_power_profile_tables lerp workbook = Returned results ->
  exists grid,
    common_grid (map (fun entry => (fst entry, sheet_of (snd entry))) workbook)
      = Returned grid /\
    map fst results =
      map fst (filter (fun entry => negb (ps_empty (sheet_of (snd entry)))) workbook) /\
    Forall (fun sheet =>
              Forall (fun vt => (fst vt = "p_mw" \/ fst vt = "q_mvar") /\
                                gt_index (snd vt) = grid /\
                                Forall (fun c => existsb has_value (snd c) = true)
                                       (gt_columns (snd vt)))
                     (snd sheet)) results.
Proof.
  unfold load_power_profile_tables.
  destruct (common_grid _) as [grid|e]; simpl; [|discriminate].
  intros H. exists grid. split; [reflexivity|].
  apply map_outcome_Forall2 in H.
  induction H as [|entry sheet entries sheets Hone _ IH]; simpl.
  - split; [reflexivity | constructor].
  - destruct (sheet_tables lerp grid (snd entry)) as [tables|e] eqn:E; simpl in Hone;
      [|discriminate].
    inversion Hone; subst. destruct IH as [Hnames Hall]. split.
    + cbn [fst]. now rewrite Hnames.
    + constructor; [|exact Hall]. cbn [snd].
      exact (sheet_tables_shape grid (snd entry) tables E).
Qed.

End ReturnedTables.

Lemma profile_tables_on_common_grid_witness :
  load_power_profile_tables exact_lerp profile_workbook = Returned profile_workbook_tables /\
  exists grid,
    common_grid (map (fun entry => (fst entry, sheet_of (snd entry))) profile_workbook)
      = Returned grid /\
    map fst profile_workbook_tables =
      map fst (filter (fun entry => negb (ps_empty (sheet_of (snd entry))))
                      profile_workbook) /\
    Forall (fun sheet =>
              Forall (fun vt => (fst vt = "p_mw" \/ fst vt = "q_mvar") /\
                                gt_index (snd vt) = grid /\
                                Forall (fun c => existsb has_value (snd c) = true)
                                       (gt_columns (snd vt)))
                     (snd sheet)) profile_workbook_tables.
Proof.
  assert (H : load_power_profile_tables exact_lerp profile_workbook
              = Returned profile_workbook_tables) by (vm_compute; reflexivity).
  split; [exact H|].
  exact (profile_tables_on_common_grid exact_lerp profile_workbook
           profile_workbook_tables H).
Defined.
